(** * PeerChat engine: session, stop-sequence matcher and generation loop

    A shallow embedding of [engine/src/main/cpp/peer_engine_jni.cpp].

    - [std::string] is a sequence of bytes: [list ascii].
    - [size_t] lengths are [nat]; every subtraction of the source is guarded by
      a comparison ([>=], [== 0]) that rules wrap-around out, so truncated
      subtraction on [nat] coincides with the machine arithmetic there.
    - [int]/[jint] values are [Z], and the one sum of the source that can
      leave the range of [int] is wrapped ([int_add]); [double] is the
      kernel's binary64 [float].
    - a [std::string] handed to the JNI environment goes as a C string
      ([c_str]): it ends at its first zero byte.
    - the llama runtime and the JNI environment are external: their results
      enter the model as explicit arguments (a [Runtime] record of functions for
      the calls whose result depends on their arguments only, and a record of
      observed outcomes for one generation run). *)

From Stdlib Require Import String Ascii Bool Arith ZArith Lia List.
From Stdlib Require Import Floats.PrimFloat Numbers.Cyclic.Int63.Uint63.
Import ListNotations.

Set Implicit Arguments.

(** ** Byte strings *)

Definition str := list ascii.

Definition bytes (s : string) : str := list_ascii_of_string s.

Fixpoint str_eqb (a b : str) : bool :=
  match a, b with
  | [], [] => true
  | x :: a', y :: b' => Ascii.eqb x y && str_eqb a' b'
  | _, _ => false
  end.

(** [s.empty()] *)
Definition empty (s : str) : bool :=
  match s with [] => true | _ :: _ => false end.

(** [s.substr(pos, n)] for [pos <= s.size()] *)
Definition substr (pos n : nat) (s : str) : str := firstn n (skipn pos s).

(** [s.erase(pos, n)] for [pos <= s.size()] *)
Definition erase (pos n : nat) (s : str) : str := firstn pos s ++ skipn (pos + n) s.

(** [s.compare(pos, n, t) == 0] *)
Definition compare_eq (pos n : nat) (s t : str) : bool := str_eqb (substr pos n s) t.

(** [s.c_str()] read as a C string, which is how [NewStringUTF] takes it: the
    bytes before the first zero byte. *)
Fixpoint c_str (s : str) : str :=
  match s with
  | [] => []
  | c :: rest => if Ascii.eqb c "000" then [] else c :: c_str rest
  end.

(** No byte of [s] is zero. *)
Definition zero_free (s : str) : bool :=
  forallb (fun c => negb (Ascii.eqb c "000")) s.

(** ** StopBuffer (lines 59-108) *)

Record StopBuffer := {
  stops_ : list str;
  max_stop_ : nat;
  pending_ : str
}.

(** The constructor's loop: [max_stop_ = std::max(max_stop_, s.size())]. *)
Definition longest (stops : list str) : nat :=
  fold_left (fun m s => Nat.max m (length s)) stops 0.

Definition StopBuffer_new (stops : list str) : StopBuffer :=
  {| stops_ := stops; max_stop_ := longest stops; pending_ := [] |}.

(** What one [push] hands back: the returned string and the two out-parameters. *)
Record PushResult := {
  emit : str;
  hit_stop : bool;
  matched : str
}.

Definition with_pending (sb : StopBuffer) (p : str) : StopBuffer :=
  {| stops_ := stops_ sb; max_stop_ := max_stop_ sb; pending_ := p |}.

(** The [for (const auto & stop : stops_)] loop of [push]: the first stop, in
    configuration order, that is not empty and equals the end of [pending]. *)
Fixpoint scan_stops (stops : list str) (pending : str) : option str :=
  match stops with
  | [] => None
  | stop :: rest =>
      if empty stop then scan_stops rest pending
      else if (length stop <=? length pending)
              && compare_eq (length pending - length stop) (length stop) pending stop
      then Some stop
      else scan_stops rest pending
  end.

Definition push (sb : StopBuffer) (piece : str) : PushResult * StopBuffer :=
  let pending := pending_ sb ++ piece in
  if max_stop_ sb =? 0 then
    ({| emit := pending; hit_stop := false; matched := [] |}, with_pending sb [])
  else
    match scan_stops (stops_ sb) pending with
    | Some stop =>
        ({| emit := substr 0 (length pending - length stop) pending;
            hit_stop := true; matched := stop |},
         with_pending sb [])
    | None =>
        if max_stop_ sb <=? length pending then
          let emit_len := length pending - (max_stop_ sb - 1) in
          ({| emit := substr 0 emit_len pending; hit_stop := false; matched := [] |},
           with_pending sb (erase 0 emit_len pending))
        else
          ({| emit := []; hit_stop := false; matched := [] |}, with_pending sb pending)
    end.

Definition flush (sb : StopBuffer) : str * StopBuffer :=
  (pending_ sb, with_pending sb []).

(** Pushing a sequence of fragments, in order, into one matcher. *)
Fixpoint push_all (sb : StopBuffer) (frags : list str) : list PushResult * StopBuffer :=
  match frags with
  | [] => ([], sb)
  | f :: rest =>
      let (r, sb1) := push sb f in
      let (rs, sb2) := push_all sb1 rest in
      (r :: rs, sb2)
  end.

(** Everything a run hands out: the push results, then the flush. *)
Definition emitted (sb : StopBuffer) (frags : list str) : str :=
  let (rs, sb') := push_all sb frags in
  concat (map emit rs) ++ fst (flush sb').

Definition total_output (stops : list str) (frags : list str) : str :=
  emitted (StopBuffer_new stops) frags.

(** Number of pushes of the sequence that report a hit. *)
Definition hit_count (sb : StopBuffer) (frags : list str) : nat :=
  length (filter hit_stop (fst (push_all sb frags))).

(** *** The matcher as section 8 of the specification words it *)

(** [s] is the end of [t]. *)
Definition is_suffix (s t : str) : bool :=
  (length s <=? length t) && str_eqb (skipn (length t - length s) t) s.

(** The first configured stop string, not empty, that ends the text. *)
Definition stop_suffix (stops : list str) (text : str) : option str :=
  find (fun s => negb (empty s) && is_suffix s text) stops.

(** The raw text with the first occurring configured stop suffix removed. The
    text is read from its beginning, [seen] being what was read so far: the
    first time the text read ends with a configured stop string, that ending
    is cut out of the text; without one the text is unmodified. *)
Fixpoint remove_first_stop (stops : list str) (seen rest : str) : str :=
  match stop_suffix stops seen with
  | Some s => firstn (length seen - length s) seen ++ rest
  | None =>
      match rest with
      | [] => seen
      | c :: rest' => remove_first_stop stops (seen ++ [c]) rest'
      end
  end.

Definition first_stop_removed (stops : list str) (raw : str) : str :=
  remove_first_stop stops [] raw.

(** Where the first occurring stop ends: the length of the shortest beginning
    of the text that ends with a configured stop string. *)
Fixpoint first_stop_end_from (stops : list str) (seen rest : str) : option nat :=
  match stop_suffix stops seen with
  | Some _ => Some (length seen)
  | None =>
      match rest with
      | [] => None
      | c :: rest' => first_stop_end_from stops (seen ++ [c]) rest'
      end
  end.

Definition first_stop_end (stops : list str) (raw : str) : option nat :=
  first_stop_end_from stops [] raw.

(** The lengths of the text after each push, [n] characters having been pushed
    before. *)
Fixpoint push_ends (n : nat) (frags : list str) : list nat :=
  match frags with
  | [] => []
  | f :: rest => (n + length f) :: push_ends (n + length f) rest
  end.

(** The first occurring stop, if there is one, ends where a pushed fragment
    ends. *)
Definition first_stop_ends_a_fragment (stops : list str) (frags : list str) : Prop :=
  match first_stop_end stops (concat frags) with
  | Some n => In n (push_ends 0 frags)
  | None => True
  end.

(** The same reading of the text taken only where a fragment ends, which is
    where [push] looks at it. *)
Fixpoint stop_removed_at_push (stops : list str) (seen : str) (frags : list str) : str :=
  match frags with
  | [] => seen
  | f :: rest =>
      let seen' := seen ++ f in
      match stop_suffix stops seen' with
      | Some s => firstn (length seen' - length s) seen' ++ concat rest
      | None => stop_removed_at_push stops seen' rest
      end
  end.

(** [s] occurs in [t]. *)
Definition occurs_in (s t : str) : Prop := exists a b, t = a ++ s ++ b.

(** ** Numbers *)

(** [static_cast<double>] of an [int] or of the [int64_t] clock. *)
Definition double_of_int (z : Z) : float :=
  if (z <? 0)%Z then PrimFloat.opp (PrimFloat.of_uint63 (Uint63.of_Z (- z)))
  else PrimFloat.of_uint63 (Uint63.of_Z z).

(** An [int] is 32 bits wide, two's complement. A sum of two [int]s that does
    not fit is undefined in the language; it is taken here as the target
    computes it, wrapped around. *)
Definition int_wrap (z : Z) : Z := ((z + 2147483648) mod 4294967296 - 2147483648)%Z.

Definition int_add (a b : Z) : Z := int_wrap (a + b).

(** [llama_time_us() / 1000.0] *)
Definition ms_of_us (us : Z) : float := PrimFloat.div (double_of_int us) 1000%float.

(** ** Session state (lines 24-57) *)

Module StopReason.
Inductive t := None | Eos | StopSequence | MaxTokens | Error.

Definition eqb (a b : t) : bool :=
  match a, b with
  | None, None | Eos, Eos | StopSequence, StopSequence
  | MaxTokens, MaxTokens | Error, Error => true
  | _, _ => false
  end.
End StopReason.

Record EngineMetrics := {
  prompt_tokens : Z;
  generation_tokens : Z;
  ttfs_ms : float;
  prefill_ms : float;
  decode_ms : float;
  total_ms : float;
  tps : float;
  prompt_tps : float;
  context_used_pct : float;
  truncated : bool
}.

(** [EngineMetrics{}] *)
Definition EngineMetrics_init : EngineMetrics :=
  {| prompt_tokens := 0; generation_tokens := 0; ttfs_ms := 0; prefill_ms := 0;
     decode_ms := 0; total_ms := 0; tps := 0; prompt_tps := 0;
     context_used_pct := 0; truncated := false |}.

(** A [llama_model *] or [llama_context *]: [None] is [nullptr]. *)
Definition handle := option nat.

Definition live (h : handle) : bool :=
  match h with Some _ => true | None => false end.

Record EngineState := {
  model : handle;
  ctx : handle;
  n_ctx : Z;
  n_threads : Z;
  n_gpu_layers : Z;
  use_vulkan : bool;
  metrics : EngineMetrics;
  stop_reason : StopReason.t;
  stop_sequence : str;
  should_abort : bool
}.

(** The member initialisers of [EngineState]. *)
Definition EngineState_init : EngineState :=
  {| model := None; ctx := None; n_ctx := 4096; n_threads := 4;
     n_gpu_layers := 0; use_vulkan := true; metrics := EngineMetrics_init;
     stop_reason := StopReason.None; stop_sequence := []; should_abort := false |}.

(** The two globals of the translation unit. *)
Record Globals := {
  g_state : EngineState;
  g_backend_initialized : bool
}.

Definition with_state (g : Globals) (s : EngineState) : Globals :=
  {| g_state := s; g_backend_initialized := g_backend_initialized g |}.

Definition set_should_abort (s : EngineState) (b : bool) : EngineState :=
  {| model := model s; ctx := ctx s; n_ctx := n_ctx s; n_threads := n_threads s;
     n_gpu_layers := n_gpu_layers s; use_vulkan := use_vulkan s; metrics := metrics s;
     stop_reason := stop_reason s; stop_sequence := stop_sequence s; should_abort := b |}.

Definition set_handles (s : EngineState) (m c : handle) : EngineState :=
  {| model := m; ctx := c; n_ctx := n_ctx s; n_threads := n_threads s;
     n_gpu_layers := n_gpu_layers s; use_vulkan := use_vulkan s; metrics := metrics s;
     stop_reason := stop_reason s; stop_sequence := stop_sequence s;
     should_abort := should_abort s |}.

Definition set_config (s : EngineState) (nctx nthreads ngpu : Z) (vulkan : bool) : EngineState :=
  {| model := model s; ctx := ctx s; n_ctx := nctx; n_threads := nthreads;
     n_gpu_layers := ngpu; use_vulkan := vulkan; metrics := metrics s;
     stop_reason := stop_reason s; stop_sequence := stop_sequence s;
     should_abort := should_abort s |}.

(** [ensure_backend_init] (lines 146-153); it always returns [true]. *)
Definition ensure_backend_init (g : Globals) : Globals :=
  if g_backend_initialized g then g
  else {| g_state := g_state g; g_backend_initialized := true |}.

(** [reset_metrics_locked] (lines 164-169) *)
Definition reset_metrics_locked (s : EngineState) : EngineState :=
  {| model := model s; ctx := ctx s; n_ctx := n_ctx s; n_threads := n_threads s;
     n_gpu_layers := n_gpu_layers s; use_vulkan := use_vulkan s;
     metrics := EngineMetrics_init; stop_reason := StopReason.None;
     stop_sequence := []; should_abort := false |}.

(** [unload_locked] (lines 171-185): both handles are released when set, so
    both end null. *)
Definition unload_locked (s : EngineState) : EngineState :=
  let s := set_should_abort s false in
  let s := if live (ctx s) then set_handles s (model s) None else s in
  let s := if live (model s) then set_handles s None (ctx s) else s in
  reset_metrics_locked s.

(** [stop_reason_to_string] (lines 193-202) *)
Definition stop_reason_to_string (r : StopReason.t) : string :=
  match r with
  | StopReason.None => "none"
  | StopReason.Eos => "eos"
  | StopReason.StopSequence => "stop_sequence"
  | StopReason.MaxTokens => "max_tokens"
  | StopReason.Error => "error"
  end.

(** The members of the object [build_metrics_json_locked] (lines 229-253)
    prints, in its order; a value keeps its type instead of its decimal text. *)
Inductive JValue :=
| JInt (z : Z)
| JBool (b : bool)
| JDouble (d : float)
| JString (s : str).

Definition build_metrics_json_locked (s : EngineState) : list (string * JValue) :=
  let m := metrics s in
  [ ("nCtx", JInt (n_ctx s));
    ("nThreads", JInt (n_threads s));
    ("nGpuLayers", JInt (n_gpu_layers s));
    ("useVulkan", JBool (use_vulkan s));
    ("promptTokens", JInt (prompt_tokens m));
    ("generationTokens", JInt (generation_tokens m));
    ("ttfsMs", JDouble (ttfs_ms m));
    ("prefillMs", JDouble (prefill_ms m));
    ("decodeMs", JDouble (decode_ms m));
    ("totalMs", JDouble (total_ms m));
    ("tps", JDouble (tps m));
    ("promptTps", JDouble (prompt_tps m));
    ("contextUsedPct", JDouble (context_used_pct m));
    ("truncated", JBool (truncated m));
    ("stopReason", JString (bytes (stop_reason_to_string (stop_reason s))));
    ("stopSequence", JString (stop_sequence s)) ]%string.

(** [Java_..._metrics] (lines 843-849) *)
Definition metrics_json (g : Globals) : list (string * JValue) :=
  build_metrics_json_locked (g_state g).

Fixpoint member (key : string) (o : list (string * JValue)) : option JValue :=
  match o with
  | [] => None
  | (k, v) :: rest => if String.eqb k key then Some v else member key rest
  end.

(** ** The model runtime, as far as load and restore call it *)

Record llama_model_params := {
  mp_n_gpu_layers : Z;
  mp_use_mmap : bool;
  mp_use_mlock : bool
}.

Record llama_context_params := {
  cp_n_ctx : Z;
  cp_n_batch : Z;
  cp_n_ubatch : Z;
  cp_n_threads : Z;
  cp_n_threads_batch : Z;
  cp_offload_kqv : bool
}.

(** The external calls whose result this layer branches on. [memory] is the
    working memory (KV cache) of the live context, opaque to this layer. *)
Record Runtime (memory : Type) := {
  (** [stat(path, &st) == 0 && S_ISREG(st.st_mode)] *)
  stat_regular : str -> bool;
  llama_model_default_params : llama_model_params;
  llama_context_default_params : llama_context_params;
  llama_model_load_from_file : str -> llama_model_params -> handle;
  llama_init_from_model : nat -> llama_context_params -> handle;
  (** [llama_memory_clear(llama_get_memory(ctx), data)] *)
  llama_memory_clear : memory -> bool -> memory;
  (** [llama_state_set_data(ctx, src, size)]: the memory after the call and
      the number of bytes read. *)
  llama_state_set_data : memory -> list Byte.byte -> Z -> memory * Z
}.

Arguments stat_regular {memory}.
Arguments llama_model_default_params {memory}.
Arguments llama_context_default_params {memory}.
Arguments llama_model_load_from_file {memory}.
Arguments llama_init_from_model {memory}.
Arguments llama_memory_clear {memory}.
Arguments llama_state_set_data {memory}.

Section Session.
Variable memory : Type.
Variable rt : Runtime memory.

(** [file_exists] (lines 155-162); [None] is a null [const char *]. *)
Definition file_exists (path : option str) : bool :=
  match path with
  | None => false
  | Some p => stat_regular rt p
  end.

(** The context parameters [loadModel] builds (lines 620-637). *)
Definition load_cparams (nThreads nCtx : Z) (useVulkan : bool) : llama_context_params :=
  let d := llama_context_default_params rt in
  let n_ctx := Z.max 512 nCtx in
  let n_thr := Z.max 1 nThreads in
  if useVulkan then
    let n_batch := Z.min 2048 (n_ctx / 4) in
    {| cp_n_ctx := n_ctx; cp_n_batch := n_batch; cp_n_ubatch := Z.min 512 (n_batch / 4);
       cp_n_threads := n_thr; cp_n_threads_batch := n_thr; cp_offload_kqv := true |}
  else
    let n_batch := Z.min 512 (n_ctx / 8) in
    {| cp_n_ctx := n_ctx; cp_n_batch := n_batch; cp_n_ubatch := Z.min 128 (n_batch / 4);
       cp_n_threads := n_thr; cp_n_threads_batch := n_thr;
       cp_offload_kqv := cp_offload_kqv d |}.

(** The model parameters [loadModel] builds (lines 608-611). *)
Definition load_mparams (nGpuLayers : Z) (useVulkan : bool) : llama_model_params :=
  {| mp_n_gpu_layers := if useVulkan then nGpuLayers else 0;
     mp_use_mmap := true; mp_use_mlock := false |}.

(** [Java_..._loadModel] (lines 588-657). [path] is what [GetStringUTFChars]
    returned. *)
Definition loadModel (g : Globals) (path : option str)
           (nThreads nCtx nGpuLayers : Z) (useVulkan : bool) : bool * Globals :=
  match path with
  | Some p =>
      if negb (file_exists path) then (false, g)
      else
        let g := ensure_backend_init g in
        let s := unload_locked (g_state g) in
        let mparams := load_mparams nGpuLayers useVulkan in
        match llama_model_load_from_file rt p mparams with
        | None => (false, with_state g s)
        | Some mdl =>
            let cparams := load_cparams nThreads nCtx useVulkan in
            match llama_init_from_model rt mdl cparams with
            | None => (false, with_state g s)
            | Some c =>
                let s := set_handles s (Some mdl) (Some c) in
                let s := set_config s (cp_n_ctx cparams) (cp_n_threads cparams)
                                    (if useVulkan then nGpuLayers else 0) useVulkan in
                (true, with_state g (reset_metrics_locked s))
            end
        end
  | None => (false, g)
  end.

(** [Java_..._unload] (lines 659-666) *)
Definition unload (g : Globals) : Globals := with_state g (unload_locked (g_state g)).

(** [Java_..._stateRestore] (lines 885-908). [jState] is the byte array, or
    [None] for a null reference; [mem] is the working memory of the live
    context (it is only touched when [g_state.ctx] is set). *)
Definition stateRestore (g : Globals) (mem : memory) (jState : option (list Byte.byte))
  : bool * Globals * memory :=
  match jState with
  | None => (false, g, mem)
  | Some buffer =>
      if negb (live (ctx (g_state g))) then (false, g, mem)
      else
        let len := Z.of_nat (length buffer) in
        if (len <=? 0)%Z then (false, g, mem)
        else
          let mem := llama_memory_clear rt mem false in
          let (mem, read) := llama_state_set_data rt mem buffer len in
          let ok := (0 <? read)%Z in
          if ok then (true, with_state g (reset_metrics_locked (g_state g)), mem)
          else (false, g, mem)
  end.

(** A [java.nio.ByteBuffer]: [GetDirectBufferAddress] gives the bytes behind a
    direct buffer and null for any other buffer. *)
Record ByteBuffer := {
  direct_address : option (list Byte.byte)
}.

(** [Java_..._stateRestoreFrom] (lines 970-991) *)
Definition stateRestoreFrom (g : Globals) (mem : memory) (jBuffer : option ByteBuffer)
           (length : Z) : bool * Globals * memory :=
  match jBuffer with
  | None => (false, g, mem)
  | Some b =>
      if (length <=? 0)%Z then (false, g, mem)
      else
        match direct_address b with
        | None => (false, g, mem)
        | Some addr =>
            if negb (live (ctx (g_state g))) then (false, g, mem)
            else
              let mem := llama_memory_clear rt mem false in
              let (mem, read) := llama_state_set_data rt mem addr length in
              let ok := (0 <? read)%Z in
              if ok then (true, with_state g (reset_metrics_locked (g_state g)), mem)
              else (false, g, mem)
        end
  end.
End Session.

(** ** Streaming (lines 110-114, 263-294) *)

Record StreamContext := {
  env : handle;
  callback : handle;
  on_token : handle
}.

(** One [onToken(text, isDone)] call as the host's callback receives it. *)
Definition Call := (str * bool)%type.

(** What the JNI environment did with one chunk: [NewStringUTF] returned null,
    the callback ran and returned, or it ran and left an exception pending. *)
Inductive ChunkOutcome := AllocFailed | Delivered | CallbackThrew.

(** [emit_chunk] (lines 263-283), with the calls the callback got so far. The
    chunk reaches the callback as the [jstring] made of [text.c_str()]. *)
Definition emit_chunk (stream : option StreamContext) (text : str) (done : bool)
           (o : ChunkOutcome) (calls : list Call) : bool * list Call :=
  match stream with
  | None => (true, calls)
  | Some s =>
      if negb (live (callback s)) || negb (live (on_token s)) then (true, calls)
      else if negb done && empty text then (true, calls)
      else
        match o with
        | AllocFailed => (false, calls)
        | Delivered => (true, calls ++ [(c_str text, done)])
        | CallbackThrew => (false, calls ++ [(c_str text, done)])
        end
  end.

(** ** Generation (lines 116-131, 296-314, 343-520) *)

Record GenerationRequest := {
  prompt : str;
  system_prompt : str;
  temperature : float;
  top_p : float;
  top_k : Z;
  max_tokens : Z;
  stops : list str
}.

Record GenerationSummary := {
  s_metrics : EngineMetrics;
  reason : StopReason.t;
  s_stop_sequence : str;
  success : bool
}.

(** [GenerationSummary{}] *)
Definition GenerationSummary_init : GenerationSummary :=
  {| s_metrics := EngineMetrics_init; reason := StopReason.None;
     s_stop_sequence := []; success := false |}.

(** What the runtime, the clock, the other threads and the JNI environment
    answer during one iteration of the decode loop. *)
Record StepEnv := {
  (** [g_state.should_abort.load()] at the top of the iteration *)
  abort_requested : bool;
  (** [llama_vocab_is_eog] of the sampled token *)
  token_is_eog : bool;
  (** [llama_token_to_piece]: its result and the conversion buffer *)
  piece_written : Z;
  piece_buffer : str;
  (** outcome of delivering this iteration's chunk, when one is delivered *)
  chunk_outcome : ChunkOutcome;
  (** [llama_time_us()] read for the time to the first token *)
  t_token_us : Z;
  (** [llama_decode] of the sampled token *)
  decode_status : Z
}.

(** The same for one whole run of [generate_internal]. *)
Record RunEnv := {
  (** [llama_model_get_vocab] is not null *)
  vocab_available : bool;
  (** [llama_tokenize] of a text into a buffer of the given capacity *)
  llama_tokenize : str -> nat -> Z;
  t_start_us : Z;
  (** [llama_decode] of the prompt *)
  prefill_status : Z;
  t_prefill_end_us : Z;
  (** [llama_sampler_chain_init] is not null *)
  sampler_available : bool;
  t_decode_start_us : Z;
  steps : nat -> StepEnv;
  t_decode_end_us : Z;
  (** outcome of delivering the flushed tail, and the terminal chunk *)
  tail_outcome : ChunkOutcome;
  done_outcome : ChunkOutcome
}.

(** The text of the sampled token (lines 444-449): [piece] stays empty unless
    [written > 0]. *)
Definition piece_of (st : StepEnv) : str :=
  if (0 <? piece_written st)%Z
  then firstn (Z.to_nat (piece_written st)) (piece_buffer st) else [].


(** [prepare_prompt_tokens] (lines 296-314), for a call that returns (see
    [tokenize_overflows]): the number of tokens on success. *)
Definition prepare_prompt_tokens (e : RunEnv) (text : str) : option Z :=
  let n := llama_tokenize e text (length text + 8) in
  let n := if (n <? 0)%Z then llama_tokenize e text (Z.to_nat (- n)) else n in
  if (n <? 0)%Z then None else Some n.

Definition set_reason (s : GenerationSummary) (r : StopReason.t) : GenerationSummary :=
  {| s_metrics := s_metrics s; reason := r; s_stop_sequence := s_stop_sequence s;
     success := success s |}.

Definition set_metrics (s : GenerationSummary) (m : EngineMetrics) : GenerationSummary :=
  {| s_metrics := m; reason := reason s; s_stop_sequence := s_stop_sequence s;
     success := success s |}.

Definition set_truncated (m : EngineMetrics) (b : bool) : EngineMetrics :=
  {| prompt_tokens := prompt_tokens m; generation_tokens := generation_tokens m;
     ttfs_ms := ttfs_ms m; prefill_ms := prefill_ms m; decode_ms := decode_ms m;
     total_ms := total_ms m; tps := tps m; prompt_tps := prompt_tps m;
     context_used_pct := context_used_pct m; truncated := b |}.

Definition set_ttfs (m : EngineMetrics) (t : float) : EngineMetrics :=
  {| prompt_tokens := prompt_tokens m; generation_tokens := generation_tokens m;
     ttfs_ms := t; prefill_ms := prefill_ms m; decode_ms := decode_ms m;
     total_ms := total_ms m; tps := tps m; prompt_tps := prompt_tps m;
     context_used_pct := context_used_pct m; truncated := truncated m |}.

Definition set_generation_tokens (m : EngineMetrics) (n : Z) : EngineMetrics :=
  {| prompt_tokens := prompt_tokens m; generation_tokens := n;
     ttfs_ms := ttfs_ms m; prefill_ms := prefill_ms m; decode_ms := decode_ms m;
     total_ms := total_ms m; tps := tps m; prompt_tps := prompt_tps m;
     context_used_pct := context_used_pct m; truncated := truncated m |}.

(** [SummaryCommit::~SummaryCommit] (lines 136-144) *)
Definition SummaryCommit (s : EngineState) (summary : GenerationSummary) : EngineState :=
  {| model := model s; ctx := ctx s; n_ctx := n_ctx s; n_threads := n_threads s;
     n_gpu_layers := n_gpu_layers s; use_vulkan := use_vulkan s;
     metrics := s_metrics summary; stop_reason := reason summary;
     stop_sequence := s_stop_sequence summary; should_abort := should_abort s |}.

(** The expression of lines 500-501: the two counts are added as [int]s
    before the sum is converted. *)
Definition context_used (prompt generated nctx : Z) : float :=
  PrimFloat.div (PrimFloat.mul (double_of_int (int_add prompt generated)) 100%float)
                (double_of_int nctx).

(** The same percentage as the specification writes it, with the sum of the
    two counts taken in the integers. *)
Definition context_used_formula (prompt generated nctx : Z) : float :=
  PrimFloat.div (PrimFloat.mul (double_of_int (prompt + generated)) 100%float)
                (double_of_int nctx).

(** What the decode loop carries from one iteration to the next. *)
Record LoopState := {
  l_summary : GenerationSummary;
  l_stop_buffer : StopBuffer;
  l_out_text : option str;
  l_calls : list Call;
  l_abort : bool
}.

(** [out_text->append(s)] under [if (out_text)] *)
Definition append_out (out_text : option str) (s : str) : option str :=
  match out_text with
  | None => None
  | Some t => Some (t ++ s)
  end.

Section Generate.
Variable e : RunEnv.
Variable req : GenerationRequest.
Variable stream : option StreamContext.

(** One iteration of the loop of lines 428-483; the flag says whether it
    left the loop by [break]. *)
Definition decode_step (t_start_ms : float) (i : nat) (l : LoopState) : LoopState * bool :=
  let st := steps e i in
  let summary := l_summary l in
  if abort_requested st then
    let summary := set_reason summary StopReason.Error in
    let summary := set_metrics summary (set_truncated (s_metrics summary) true) in
    ({| l_summary := summary; l_stop_buffer := l_stop_buffer l;
        l_out_text := l_out_text l; l_calls := l_calls l; l_abort := true |}, true)
  else if token_is_eog st then
    ({| l_summary := set_reason summary StopReason.Eos; l_stop_buffer := l_stop_buffer l;
        l_out_text := l_out_text l; l_calls := l_calls l; l_abort := false |}, true)
  else
    let piece := piece_of st in
    let (r, sb) := push (l_stop_buffer l) piece in
    let (delivered, calls) :=
      if negb (empty (emit r))
      then emit_chunk stream (emit r) false (chunk_outcome st) (l_calls l)
      else (true, l_calls l) in
    if negb delivered then
      ({| l_summary := set_reason summary StopReason.Error; l_stop_buffer := sb;
          l_out_text := l_out_text l; l_calls := calls; l_abort := false |}, true)
    else
      let out_text :=
        if negb (empty (emit r)) then append_out (l_out_text l) (emit r)
        else l_out_text l in
      let m := s_metrics summary in
      let m :=
        if (generation_tokens m =? 0)%Z
        then set_ttfs m (PrimFloat.sub (ms_of_us (t_token_us st)) t_start_ms) else m in
      let m := set_generation_tokens m (generation_tokens m + 1) in
      let summary := set_metrics summary m in
      if negb (decode_status st =? 0)%Z then
        let summary := set_reason summary StopReason.Error in
        let summary := set_metrics summary (set_truncated (s_metrics summary) true) in
        ({| l_summary := summary; l_stop_buffer := sb; l_out_text := out_text;
            l_calls := calls; l_abort := false |}, true)
      else if hit_stop r then
        let summary := set_reason summary StopReason.StopSequence in
        let summary :=
          {| s_metrics := s_metrics summary; reason := reason summary;
             s_stop_sequence := matched r; success := success summary |} in
        ({| l_summary := summary; l_stop_buffer := sb; l_out_text := out_text;
            l_calls := calls; l_abort := false |}, true)
      else
        ({| l_summary := summary; l_stop_buffer := sb; l_out_text := out_text;
            l_calls := calls; l_abort := false |}, false).

(** [for (int i = 0; i < req.max_tokens; ++i)]: [n] iterations from [i] on. *)
Fixpoint decode_loop (t_start_ms : float) (n : nat) (i : nat) (l : LoopState) : LoopState :=
  match n with
  | O => l
  | S n' =>
      let (l', brk) := decode_step t_start_ms i l in
      if brk then l' else decode_loop t_start_ms n' (S i) l'
  end.

(** What the body of [generate_internal] leaves behind when it returns: the
    globals, the summary, the accumulated text, the calls the callback got,
    whether [done_guard.dismiss()] ran, and the returned flag. *)
Record Body := {
  b_globals : Globals;
  b_summary : GenerationSummary;
  b_out_text : option str;
  b_calls : list Call;
  b_dismissed : bool;
  b_return : bool
}.

(** The early exits [summary.reason = StopReason::Error; return false;]. *)
Definition fail_early (g : Globals) (out_text : option str) : Body :=
  {| b_globals := g; b_summary := set_reason GenerationSummary_init StopReason.Error;
     b_out_text := out_text; b_calls := []; b_dismissed := false; b_return := false |}.

(** Lines 375-377. *)
Definition full_prompt : str :=
  if empty (system_prompt req) then prompt req
  else system_prompt req ++ ["010"%char; "010"%char] ++ prompt req.

(** Lines 485-519: what follows the loop. *)
Definition finish (g : Globals) (t_start_ms t_decode_start_ms : float) (l : LoopState) : Body :=
  let summary := l_summary l in
  let summary :=
    if StopReason.eqb (reason summary) StopReason.None then
      set_reason summary
        (if (max_tokens req <=? generation_tokens (s_metrics summary))%Z
         then StopReason.MaxTokens else StopReason.None)
    else summary in
  let t_decode_end_ms := ms_of_us (t_decode_end_us e) in
  let m := s_metrics summary in
  let decode := PrimFloat.sub t_decode_end_ms t_decode_start_ms in
  let total := PrimFloat.sub t_decode_end_ms t_start_ms in
  let m :=
    {| prompt_tokens := prompt_tokens m; generation_tokens := generation_tokens m;
       ttfs_ms := ttfs_ms m; prefill_ms := prefill_ms m;
       decode_ms := decode; total_ms := total;
       tps := if PrimFloat.ltb 0 decode && (0 <? generation_tokens m)%Z
              then PrimFloat.div (PrimFloat.mul (double_of_int (generation_tokens m)) 1000)
                                 decode
              else tps m;
       prompt_tps := prompt_tps m;
       context_used_pct :=
         if (0 <? n_ctx (g_state g))%Z
         then context_used (prompt_tokens m) (generation_tokens m) (n_ctx (g_state g))
         else context_used_pct m;
       truncated := truncated m || StopReason.eqb (reason summary) StopReason.MaxTokens |} in
  let summary := set_metrics summary m in
  let (tail, _) := flush (l_stop_buffer l) in
  let '(summary, out_text, calls) :=
    if negb (empty tail) && negb (StopReason.eqb (reason summary) StopReason.Error) then
      let (delivered, calls) := emit_chunk stream tail false (tail_outcome e) (l_calls l) in
      if negb delivered then (set_reason summary StopReason.Error, l_out_text l, calls)
      else (summary, append_out (l_out_text l) tail, calls)
    else (summary, l_out_text l, l_calls l) in
  let ok := negb (StopReason.eqb (reason summary) StopReason.Error) in
  let summary :=
    {| s_metrics := s_metrics summary; reason := reason summary;
       s_stop_sequence := s_stop_sequence summary; success := ok |} in
  let g := with_state g (set_should_abort (g_state g) (l_abort l)) in
  match stream with
  | Some _ =>
      if ok then
        {| b_globals := g; b_summary := summary; b_out_text := out_text;
           b_calls := snd (emit_chunk stream [] true (done_outcome e) calls);
           b_dismissed := true; b_return := ok |}
      else
        {| b_globals := g; b_summary := summary; b_out_text := out_text;
           b_calls := calls; b_dismissed := false; b_return := ok |}
  | None =>
      {| b_globals := g; b_summary := summary; b_out_text := out_text;
         b_calls := calls; b_dismissed := false; b_return := ok |}
  end.

(** The body of [generate_internal] between the construction of its guards
    and their destruction (lines 349-519). The calls that only configure the
    runtime or the sampler (lines 363-366, 405-417) leave no trace in the
    state of this layer; the tokens the sampler draws are part of [e]. *)
Definition generate_body (g : Globals) (out_text : option str) : Body :=
  if negb (live (ctx (g_state g))) || negb (live (model (g_state g))) then
    fail_early g out_text
  else
    let g := ensure_backend_init g in
    let g := with_state g (set_should_abort (g_state g) false) in
    if negb (vocab_available e) then fail_early g out_text
    else
      match prepare_prompt_tokens e full_prompt with
      | None => fail_early g out_text
      | Some n_prompt =>
          let t_start_ms := ms_of_us (t_start_us e) in
          let t_prefill_start_ms := t_start_ms in
          if negb (prefill_status e =? 0)%Z then fail_early g out_text
          else
            let t_prefill_end_ms := ms_of_us (t_prefill_end_us e) in
            if negb (sampler_available e) then fail_early g out_text
            else
              let stop_buffer := StopBuffer_new (stops req) in
              let prefill := PrimFloat.sub t_prefill_end_ms t_prefill_start_ms in
              let m :=
                {| prompt_tokens := n_prompt; generation_tokens := 0;
                   ttfs_ms := 0; prefill_ms := prefill; decode_ms := 0; total_ms := 0;
                   tps := 0;
                   prompt_tps :=
                     if PrimFloat.ltb 0 prefill
                     then PrimFloat.div (PrimFloat.mul (double_of_int n_prompt) 1000) prefill
                     else 0;
                   context_used_pct := 0; truncated := false |} in
              let t_decode_start_ms := ms_of_us (t_decode_start_us e) in
              let l :=
                decode_loop t_start_ms (Z.to_nat (max_tokens req)) 0
                  {| l_summary := set_metrics GenerationSummary_init m;
                     l_stop_buffer := stop_buffer; l_out_text := out_text;
                     l_calls := []; l_abort := false |} in
              finish g t_start_ms t_decode_start_ms l
      end.

(** What one call of [generate_internal] leaves behind. *)
Record Run := {
  r_globals : Globals;
  r_summary : GenerationSummary;
  r_out_text : option str;
  r_calls : list Call;
  r_return : bool
}.

(** [generate_internal] (lines 343-520): the body, then the destructors in
    reverse order of construction: [~SummaryCommit], the lock, and
    [~StreamDoneGuard], which sends the terminal chunk unless dismissed. *)
Definition generate_internal (g : Globals) (out_text : option str) : Run :=
  let b := generate_body g out_text in
  let g := with_state (b_globals b) (SummaryCommit (g_state (b_globals b)) (b_summary b)) in
  let calls :=
    if b_dismissed b then b_calls b
    else
      match stream with
      | Some _ => snd (emit_chunk stream [] true (done_outcome e) (b_calls b))
      | None => b_calls b
      end in
  {| r_globals := g; r_summary := b_summary b; r_out_text := b_out_text b;
     r_calls := calls; r_return := b_return b |}.

(** Whether the run gets as far as the decode loop. *)
Definition reaches_decode (g : Globals) : bool :=
  live (ctx (g_state g)) && live (model (g_state g)) && vocab_available e
  && match prepare_prompt_tokens e full_prompt with Some _ => true | None => false end
  && (prefill_status e =? 0)%Z && sampler_available e.
End Generate.

(** ** Entry points for generation (lines 668-749) *)

(** [jstring_to_utf8] (lines 255-261); [None] is a null [jstring], and
    [Some s] one whose [GetStringUTFChars] are the bytes [s], which
    [std::string s(c)] takes as a C string. *)
Definition jstring_to_utf8 (js : option str) : str :=
  match js with
  | None => []
  | Some s => c_str s
  end.

(** The request both entry points build. *)
Definition build_request (jPrompt jSystem : option str) (temperature topP : float)
           (topK maxTokens : Z) (jStop : option (list (option str))) : GenerationRequest :=
  {| prompt := jstring_to_utf8 jPrompt; system_prompt := jstring_to_utf8 jSystem;
     temperature := temperature; top_p := topP; top_k := topK;
     max_tokens := Z.max 1 maxTokens;
     stops := match jStop with
              | None => []
              | Some a => map jstring_to_utf8 a
              end |}.

(** [Java_..._generate]: the text of the returned [jstring], which
    [NewStringUTF] makes of [output.c_str()], and the globals after the call. *)
Definition generate (e : RunEnv) (g : Globals) (jPrompt jSystem : option str)
           (temperature topP : float) (topK maxTokens : Z)
           (jStop : option (list (option str))) : str * Globals :=
  let req := build_request jPrompt jSystem temperature topP topK maxTokens jStop in
  let r := generate_internal e req None g (Some []) in
  if negb (r_return r) then ([], r_globals r)
  else (c_str (match r_out_text r with Some t => t | None => [] end), r_globals r).

(** [Java_..._generateStream]: [jCallback] is the callback object and
    [method] what [GetMethodID] finds for [onToken]; the result is the calls
    the callback received and the globals after the call. *)
Definition generateStream (e : RunEnv) (g : Globals) (jPrompt jSystem : option str)
           (temperature topP : float) (topK maxTokens : Z)
           (jStop : option (list (option str))) (jCallback method : handle)
  : list Call * Globals :=
  let req := build_request jPrompt jSystem temperature topP topK maxTokens jStop in
  match jCallback with
  | Some cb =>
      if negb (live method) then ([], g)
      else
        let stream := {| env := Some 0%nat; callback := jCallback; on_token := method |} in
        let r := generate_internal e req (Some stream) g None in
        (r_calls r, r_globals r)
  | None =>
      let r := generate_internal e req None g None in
      (r_calls r, r_globals r)
  end.

(** ** Vocabulary for the statements *)

(** The stream has a callback object and its [onToken] method. *)
Definition valid_stream (s : StreamContext) : bool :=
  live (callback s) && live (on_token s).

(** A chunk handed to the sink does not fail: there is no stream to fail, or
    the JNI environment delivered it. *)
Definition delivers (stream : option StreamContext) (o : ChunkOutcome) : bool :=
  match stream, o with
  | None, _ => true
  | Some _, Delivered => true
  | Some _, _ => false
  end.

(** The fragments of the iterations [i], ..., [i + n - 1]. *)
Definition pieces (e : RunEnv) (i n : nat) : list str :=
  map (fun j => piece_of (steps e j)) (seq i n).

(** A non-terminal call: [done = false], and the text is a chunk that is not
    empty, as the C string the callback gets of it. *)
Definition text_call (c : Call) : Prop :=
  exists chunk, chunk <> [] /\ c = (c_str chunk, false).

(** A non-terminal call whose text has a character. *)
Definition plain_call (c : Call) : Prop := fst c <> [] /\ snd c = false.

(** No token of the run has a zero byte in its text. *)
Definition zero_free_pieces (e : RunEnv) : Prop :=
  forall i, zero_free (piece_of (steps e i)) = true.

(** The terminal call. *)
Definition done_call : Call := ([], true).

(** ** Sample runtimes, sessions and runs *)

(** A runtime that finds every file; it loads the model and builds the context
    as the flags say; a restore reads the whole blob or nothing; clearing the
    working memory empties it. *)
Definition sample_runtime (model_ok ctx_ok accept : bool) : Runtime (list Byte.byte) :=
  {| stat_regular := fun _ => true;
     llama_model_default_params :=
       {| mp_n_gpu_layers := 0; mp_use_mmap := true; mp_use_mlock := false |};
     llama_context_default_params :=
       {| cp_n_ctx := 512; cp_n_batch := 2048; cp_n_ubatch := 512; cp_n_threads := 4;
          cp_n_threads_batch := 4; cp_offload_kqv := true |};
     llama_model_load_from_file := fun _ _ => if model_ok then Some 1%nat else None;
     llama_init_from_model := fun _ _ => if ctx_ok then Some 2%nat else None;
     llama_memory_clear := fun _ _ => [];
     llama_state_set_data := fun m src size => if accept then (src, size) else (m, 0%Z) |}.

(** A session with a model loaded and the metrics of an earlier run. *)
Definition loaded_session : Globals :=
  {| g_state :=
       {| model := Some 7%nat; ctx := Some 8%nat; n_ctx := 4096; n_threads := 4;
          n_gpu_layers := 0; use_vulkan := true;
          metrics :=
            {| prompt_tokens := 12; generation_tokens := 5; ttfs_ms := 0; prefill_ms := 0;
               decode_ms := 0; total_ms := 0; tps := 0; prompt_tps := 0;
               context_used_pct := 0; truncated := false |};
          stop_reason := StopReason.Eos; stop_sequence := []; should_abort := false |};
     g_backend_initialized := true |}.

(** A session before any load. *)
Definition fresh_session : Globals :=
  {| g_state := EngineState_init; g_backend_initialized := false |}.

(** Every iteration samples the token [a]; nothing fails and nobody aborts. *)
Definition quiet_step : StepEnv :=
  {| abort_requested := false; token_is_eog := false; piece_written := 1;
     piece_buffer := bytes "a"; chunk_outcome := Delivered; t_token_us := 2000;
     decode_status := 0 |}.

(** A run in which the prompt has [n_prompt] tokens and nothing fails, apart
    from the terminal chunk, whose outcome is [done]. *)
Definition quiet_run (n_prompt : Z) (done : ChunkOutcome) : RunEnv :=
  {| vocab_available := true;
     llama_tokenize := fun _ _ => n_prompt;
     t_start_us := 0; prefill_status := 0; t_prefill_end_us := 1000;
     sampler_available := true; t_decode_start_us := 1000;
     steps := fun _ => quiet_step;
     t_decode_end_us := 9000;
     tail_outcome := Delivered; done_outcome := done |}.

Definition sample_request (maxTokens : Z) (stops : list str) : GenerationRequest :=
  {| prompt := bytes "hi"; system_prompt := []; temperature := 0; top_p := 0;
     top_k := 40; max_tokens := maxTokens; stops := stops |}.

Definition sample_stream : StreamContext :=
  {| env := Some 0%nat; callback := Some 1%nat; on_token := Some 2%nat |}.

(** An iteration in which nobody aborts, the token does not end the
    generation, the chunk (if any) is delivered and the decode succeeds. *)
Definition uneventful (stream : option StreamContext) (st : StepEnv) : bool :=
  negb (abort_requested st) && negb (token_is_eog st)
  && delivers stream (chunk_outcome st) && (decode_status st =? 0)%Z.

(** The reason lines 487-491 settle on after the loop, before the tail is
    flushed. *)
Definition settled_reason (req : GenerationRequest) (l : LoopState) : StopReason.t :=
  if StopReason.eqb (reason (l_summary l)) StopReason.None then
    if (max_tokens req <=? generation_tokens (s_metrics (l_summary l)))%Z
    then StopReason.MaxTokens else StopReason.None
  else reason (l_summary l).


(** As [quiet_run], but the decode of the first sampled token fails. *)
Definition decode_failure_run (n_prompt : Z) : RunEnv :=
  {| vocab_available := true;
     llama_tokenize := fun _ _ => n_prompt;
     t_start_us := 0; prefill_status := 0; t_prefill_end_us := 1000;
     sampler_available := true; t_decode_start_us := 1000;
     steps := fun _ =>
       {| abort_requested := false; token_is_eog := false; piece_written := 1;
          piece_buffer := bytes "a"; chunk_outcome := Delivered; t_token_us := 2000;
          decode_status := 1 |};
     t_decode_end_us := 9000;
     tail_outcome := Delivered; done_outcome := Delivered |}.

From Stdlib Require DecimalString.

(** ** The remaining session operations *)

Section SessionOperations.
Variable memory : Type.
Variable rt : Runtime memory.

(** [Java_..._stateClear] (lines 910-920) *)
Definition stateClear (g : Globals) (mem : memory) (clearData : bool) : Globals * memory :=
  if negb (live (ctx (g_state g))) then (g, mem)
  else (with_state g (reset_metrics_locked (g_state g)), llama_memory_clear rt mem clearData).

(** [Java_..._abort] (lines 922-929) *)
Definition abort (g : Globals) : Globals :=
  with_state g (set_should_abort (g_state g) true).

(** [Java_..._init] (lines 581-586) *)
Definition init (g : Globals) : Globals := ensure_backend_init g.

(** The globals every sequence of entry-point calls can leave behind, from the
    initial values of the translation unit; the arguments of the calls, the
    working memory and the answers of the runtime are arbitrary. *)
Inductive reachable : Globals -> Prop :=
| reach_start : reachable fresh_session
| reach_init g : reachable g -> reachable (init g)
| reach_loadModel g path nThreads nCtx nGpuLayers useVulkan :
    reachable g ->
    reachable (snd (loadModel rt g path nThreads nCtx nGpuLayers useVulkan))
| reach_unload g : reachable g -> reachable (unload g)
| reach_generate g e req stream out :
    reachable g -> reachable (r_globals (generate_internal e req stream g out))
| reach_stateRestore g mem jState :
    reachable g -> reachable (snd (fst (stateRestore rt g mem jState)))
| reach_stateRestoreFrom g mem jBuffer len :
    reachable g -> reachable (snd (fst (stateRestoreFrom rt g mem jBuffer len)))
| reach_stateClear g mem clearData :
    reachable g -> reachable (fst (stateClear g mem clearData))
| reach_abort g : reachable g -> reachable (abort g).
End SessionOperations.

(** The recorded configuration of a session. *)
Definition configuration (s : EngineState) : Z * Z * Z * bool :=
  (n_ctx s, n_threads s, n_gpu_layers s, use_vulkan s).

(** ** Token counting (lines 828-841) *)


(** ** Embeddings (lines 751-826) *)

(** What the JNI environment and the runtime answer during one [embed] call;
    the per-text answers are indexed by the position of the text. *)
Record EmbedEnv := {
  (** [FindClass("[F")] is not null *)
  float_array_class : bool;
  (** the embeddings context [llama_init_from_model] builds *)
  embed_context : handle;
  (** [llama_encode] of the tokens of text [i] *)
  encode_status : nat -> Z;
  (** [llama_get_embeddings] after it: null, or the floats behind the pointer *)
  embeddings_of : nat -> option (list float);
  (** [llama_model_n_embd] *)
  n_embd : Z
}.

(** The body of the loop of lines 781-810 for the text at position [i]. *)
Definition embed_item (e : RunEnv) (x : EmbedEnv) (i : nat) (jt : option str) : list float :=
  let text := jstring_to_utf8 jt in
  match prepare_prompt_tokens e text with
  | None => []
  | Some n =>
      if (n =? 0)%Z then []
      else if negb (encode_status x i =? 0)%Z then []
      else
        match embeddings_of x i with
        | Some emb => if (0 <? n_embd x)%Z then firstn (Z.to_nat (n_embd x)) emb else []
        | None => []
        end
  end.

(** The loop itself, from position [i] on. *)
Fixpoint embed_loop (e : RunEnv) (x : EmbedEnv) (i : nat) (texts : list (option str))
  : list (list float) :=
  match texts with
  | [] => []
  | jt :: rest => embed_item e x i jt :: embed_loop e x (S i) rest
  end.

(** [Java_..._embed]: the array of float arrays it returns; [jTexts] is the
    array of texts, [None] for a null reference. *)
Definition embed (e : RunEnv) (x : EmbedEnv) (g : Globals)
           (jTexts : option (list (option str))) : list (list float) :=
  if negb (live (ctx (g_state g))) || negb (live (model (g_state g)))
     || negb (float_array_class x)
  then []
  else if negb (live (embed_context x)) then []
  else
    match jTexts with
    | None => []
    | Some texts => embed_loop e x 0 texts
    end.

(** ** JSON string escaping (lines 204-227) *)

(** One digit of [std::hex << std::uppercase]. *)
Definition hex_upper (d : nat) : ascii :=
  if d <? 10 then ascii_of_nat (48 + d) else ascii_of_nat (55 + d).

(** [std::setw(4) << std::setfill('0')] of a value below 0x10000. *)
Definition hex4 (n : nat) : str :=
  [hex_upper (n / 4096 mod 16); hex_upper (n / 256 mod 16);
   hex_upper (n / 16 mod 16); hex_upper (n mod 16)].

(** The [switch] on one character. *)
Definition escape_char (ch : ascii) : str :=
  if Ascii.eqb ch "034" then ["092"; "034"]%char
  else if Ascii.eqb ch "092" then ["092"; "092"]%char
  else if Ascii.eqb ch "008" then ["092"; "b"]%char
  else if Ascii.eqb ch "012" then ["092"; "f"]%char
  else if Ascii.eqb ch "010" then ["092"; "n"]%char
  else if Ascii.eqb ch "013" then ["092"; "r"]%char
  else if Ascii.eqb ch "009" then ["092"; "t"]%char
  else if nat_of_ascii ch <? 32 then ["092"; "u"]%char ++ hex4 (nat_of_ascii ch)
  else [ch].

Fixpoint escape_json (input : str) : str :=
  match input with
  | [] => []
  | ch :: rest => escape_char ch ++ escape_json rest
  end.

(** The value of one hexadecimal digit, as a JSON reader takes it. *)
Definition hex_value (c : ascii) : option nat :=
  let n := nat_of_ascii c in
  if (48 <=? n) && (n <=? 57) then Some (n - 48)
  else if (65 <=? n) && (n <=? 70) then Some (n - 55)
  else if (97 <=? n) && (n <=? 102) then Some (n - 87)
  else None.

(** Reading a JSON string body back: the two-character escapes, [\uXXXX] for a
    value that fits a byte, and every other character as itself; a raw quote
    or control character, or a broken escape, is refused. *)
Fixpoint unescape_json (s : str) : option str :=
  match s with
  | [] => Some []
  | c :: rest =>
      if Ascii.eqb c "092" then
        match rest with
        | [] => None
        | k :: rest1 =>
            let plain (b : ascii) := option_map (cons b) (unescape_json rest1) in
            if Ascii.eqb k "034" then plain "034"%char
            else if Ascii.eqb k "092" then plain "092"%char
            else if Ascii.eqb k "b" then plain "008"%char
            else if Ascii.eqb k "f" then plain "012"%char
            else if Ascii.eqb k "n" then plain "010"%char
            else if Ascii.eqb k "r" then plain "013"%char
            else if Ascii.eqb k "t" then plain "009"%char
            else if Ascii.eqb k "u" then
              match rest1 with
              | h3 :: h2 :: h1 :: h0 :: rest2 =>
                  match hex_value h3, hex_value h2, hex_value h1, hex_value h0 with
                  | Some a, Some b, Some c', Some d =>
                      let v := a * 4096 + b * 256 + c' * 16 + d in
                      if v <? 256 then option_map (cons (ascii_of_nat v)) (unescape_json rest2)
                      else None
                  | _, _, _, _ => None
                  end
              | _ => None
              end
            else None
        end
      else if Ascii.eqb c "034" then None
      else if nat_of_ascii c <? 32 then None
      else option_map (cons c) (unescape_json rest)
  end.

(** ** Case-insensitive search (lines 316-326) *)

(** [std::tolower] of an [unsigned char] in the "C" locale. *)
Definition tolower (c : ascii) : ascii :=
  let n := nat_of_ascii c in
  if (65 <=? n) && (n <=? 90) then ascii_of_nat (n + 32) else c.

(** The predicate handed to [std::search]. *)
Definition same_letter (ch1 ch2 : ascii) : bool := Ascii.eqb (tolower ch1) (tolower ch2).

(** The needle matches at the start of the text. *)
Fixpoint matches_here (needle text : str) : bool :=
  match needle, text with
  | [], _ => true
  | _ :: _, [] => false
  | x :: needle', y :: text' => same_letter y x && matches_here needle' text'
  end.

(** [std::search(...) != haystack.end()] for a needle that is not empty: some
    position of the haystack starts a match. *)
Fixpoint search_from (haystack needle : str) : bool :=
  match haystack with
  | [] => false
  | _ :: rest => matches_here needle haystack || search_from rest needle
  end.

Definition contains_case_insensitive (haystack needle : str) : bool :=
  if empty needle then false else search_from haystack needle.

(** ** Model metadata probe (lines 328-341, 522-577) *)

(** What a model loaded for the probe answers. [meta_val_str key size] is
    [llama_model_meta_val_str] into a buffer of [size] bytes: its result and
    the C string it left in the buffer. *)
Record ModelProbe := {
  n_ctx_train : Z;
  n_layer : Z;
  probe_n_embd : Z;
  (** [llama_vocab_n_tokens], or [None] without a vocabulary *)
  vocab_n_tokens : option Z;
  meta_val_str : str -> Z -> Z * str
}.

(** [read_meta_value] (lines 328-341) for a model and a key that are not null. *)
Definition read_meta_value (m : ModelProbe) (key : string) : str :=
  let (written, buf) := meta_val_str m (bytes key) 2048 in
  if (written <? 0)%Z then []
  else if (2048 <=? written)%Z then snd (meta_val_str m (bytes key) (written + 1))
  else buf.

(** [operator<<] of an [int32_t]. *)
Definition decimal (z : Z) : str :=
  bytes (DecimalString.NilZero.string_of_int (Z.to_int z)).

(** The chat template with its fallback key (lines 547-550). *)
Definition probe_chat_template (m : ModelProbe) : str :=
  let t := read_meta_value m "tokenizer.chat_template" in
  if empty t then read_meta_value m "llama.chat_template" else t.

(** The [bool reasoning] of lines 556-560. *)
Definition probe_reasoning (m : ModelProbe) : bool :=
  contains_case_insensitive (read_meta_value m "general.capabilities.reasoning") (bytes "true")
  || contains_case_insensitive (read_meta_value m "general.capabilities") (bytes "reasoning")
  || contains_case_insensitive (read_meta_value m "general.tags") (bytes "reasoning")
  || contains_case_insensitive (probe_chat_template m) (bytes "<think>")
  || contains_case_insensitive (probe_chat_template m) (bytes "<reasoning>").

(** A key of the object with its colon, and a string value in its quotes. *)
Definition json_key (name : string) : str := ["034"%char] ++ bytes name ++ ["034"; ":"]%char.
Definition json_string (s : str) : str := ["034"%char] ++ escape_json s ++ ["034"%char].

(** The object of lines 562-573. *)
Definition probe_json (m : ModelProbe) : str :=
  bytes "{"
  ++ json_key "arch" ++ json_string (read_meta_value m "general.architecture") ++ bytes ","
  ++ json_key "nCtxTrain" ++ decimal (n_ctx_train m) ++ bytes ","
  ++ json_key "nLayer" ++ decimal (n_layer m) ++ bytes ","
  ++ json_key "nEmbd" ++ decimal (probe_n_embd m) ++ bytes ","
  ++ json_key "nVocab"
  ++ decimal (match vocab_n_tokens m with Some n => n | None => 0%Z end) ++ bytes ","
  ++ json_key "chatTemplate" ++ json_string (probe_chat_template m) ++ bytes ","
  ++ json_key "tokenizerModel" ++ json_string (read_meta_value m "tokenizer.ggml.model")
  ++ bytes ","
  ++ json_key "reasoning" ++ bytes (if probe_reasoning m then "true" else "false") ++ bytes ","
  ++ json_key "tags" ++ json_string (read_meta_value m "general.tags")
  ++ bytes "}".

(** [detect_model_metadata] (lines 522-577) behind [Java_..._detectModel];
    [models] gives what the model behind a handle answers. *)
Definition detect_model_metadata (memory : Type) (rt : Runtime memory)
           (models : nat -> ModelProbe) (g : Globals) (path : option str) : str * Globals :=
  match path with
  | None => (bytes "{}", g)
  | Some p =>
      if negb (file_exists rt path) then (bytes "{}", g)
      else
        let g := ensure_backend_init g in
        let mparams := {| mp_n_gpu_layers := 0; mp_use_mmap := true; mp_use_mlock := false |} in
        match llama_model_load_from_file rt p mparams with
        | None => (bytes "{}", g)
        | Some mdl => (probe_json (models mdl), g)
        end
  end.

(** ** State size and capture (lines 860-883, 931-968) *)

(** A [size_t], and its [static_cast<jlong>]. *)
Definition size_t (z : Z) : Z := (z mod 2 ^ 64)%Z.
Definition jlong_of_size (z : Z) : Z :=
  if (z <? 2 ^ 63)%Z then z else (z - 2 ^ 64)%Z.

(** [static_cast<jint>(n > 0x7fffffffULL ? 0x7fffffff : n)] *)
Definition saturate_jint (n : Z) : Z := if (2147483647 <? n)%Z then 2147483647%Z else n.

Section Snapshot.
Variable memory : Type.
(** [llama_state_get_size(ctx)] *)
Variable llama_state_get_size : memory -> Z.
(** [llama_state_get_data(ctx, dst, size)]: the bytes found in [dst] afterwards
    and the number of bytes written. *)
Variable llama_state_get_data : memory -> Z -> list Byte.byte * Z.

(** [Java_..._stateSize] (lines 931-944) *)
Definition stateSize (g : Globals) (mem : memory) : Z :=
  if negb (live (ctx (g_state g))) then 0%Z
  else
    let size := size_t (llama_state_get_size mem) in
    if (size =? 0)%Z then 0%Z else saturate_jint size.

(** The size [stateCaptureInto] asks the runtime to write (line 965). *)
Definition capture_request (capacity total : Z) : Z :=
  size_t (if (capacity <? jlong_of_size total)%Z then capacity else jlong_of_size total).

(** [Java_..._stateCaptureInto] (lines 946-968): [jBuffer] with the capacity
    [GetDirectBufferCapacity] reports. *)
Definition stateCaptureInto (g : Globals) (mem : memory) (jBuffer : option ByteBuffer)
           (capacity : Z) : Z :=
  match jBuffer with
  | None => 0%Z
  | Some b =>
      match direct_address b with
      | None => 0%Z
      | Some _ =>
          if (capacity <=? 0)%Z then 0%Z
          else if negb (live (ctx (g_state g))) then 0%Z
          else
            let total := size_t (llama_state_get_size mem) in
            if (total =? 0)%Z then 0%Z
            else
              let written :=
                size_t (snd (llama_state_get_data mem (capture_request capacity total))) in
              saturate_jint written
      end
  end.
End Snapshot.

(** ** Vocabulary for the statements on runs *)

(** What holds of the summary at the top of every iteration of the decode
    loop and when the loop is left. *)
Definition summary_consistent (req : GenerationRequest) (l : LoopState) : Prop :=
  let s := l_summary l in
  stops_ (l_stop_buffer l) = stops req
  /\ reason s <> StopReason.MaxTokens
  /\ (truncated (s_metrics s) = true -> reason s = StopReason.Error)
  /\ (reason s <> StopReason.StopSequence -> s_stop_sequence s = [])
  /\ (reason s = StopReason.StopSequence ->
      In (s_stop_sequence s) (stops req) /\ s_stop_sequence s <> []
      /\ pending_ (l_stop_buffer l) = []).

(** The text of the calls a callback received, in order. *)
Definition streamed_text (calls : list Call) : str := concat (map fst calls).

(** The answers of a run in which the sink takes every chunk. *)
Definition all_delivered (e : RunEnv) : Prop :=
  (forall i, chunk_outcome (steps e i) = Delivered)
  /\ tail_outcome e = Delivered /\ done_outcome e = Delivered.

(** The first [k] iterations of the run are uneventful and none of their
    pushes hits a stop string. *)
Definition quiet_prefix (e : RunEnv) (req : GenerationRequest)
           (stream : option StreamContext) (k : nat) : Prop :=
  (forall i, i < k -> uneventful stream (steps e i) = true)
  /\ hit_count (StopBuffer_new (stops req)) (pieces e 0 k) = 0.

(** The calls after a chunk that the sink takes. *)
Definition calls_after (stream : option StreamContext) (text : str) (calls : list Call)
  : list Call :=
  match stream with
  | Some s =>
      if valid_stream s && negb (empty text) then calls ++ [(c_str text, false)] else calls
  | None => calls
  end.

(** The calls the sink has taken after the chunks of a list of push results. *)
Fixpoint calls_after_all (stream : option StreamContext) (rs : list PushResult)
         (calls : list Call) : list Call :=
  match rs with
  | [] => calls
  | r :: rest => calls_after_all stream rest (calls_after stream (emit r) calls)
  end.


(** ** More sample runs *)

(** As [quiet_run] with a prompt of 3 tokens, but from iteration [k] on every
    iteration answers as [event] does. *)
Definition event_run (k : nat) (event : StepEnv) : RunEnv :=
  {| vocab_available := true;
     llama_tokenize := fun _ _ => 3%Z;
     t_start_us := 0; prefill_status := 0; t_prefill_end_us := 1000;
     sampler_available := true; t_decode_start_us := 1000;
     steps := fun i => if i <? k then quiet_step else event;
     t_decode_end_us := 9000;
     tail_outcome := Delivered; done_outcome := Delivered |}.

Definition eos_step : StepEnv :=
  {| abort_requested := false; token_is_eog := true; piece_written := 0;
     piece_buffer := []; chunk_outcome := Delivered; t_token_us := 3000;
     decode_status := 0 |}.

Definition abort_step : StepEnv :=
  {| abort_requested := true; token_is_eog := false; piece_written := 1;
     piece_buffer := bytes "a"; chunk_outcome := Delivered; t_token_us := 3000;
     decode_status := 0 |}.

Definition decode_failure_step : StepEnv :=
  {| abort_requested := false; token_is_eog := false; piece_written := 1;
     piece_buffer := bytes "a"; chunk_outcome := Delivered; t_token_us := 3000;
     decode_status := 1 |}.



(** The accumulated text, if the caller asked for one, has no zero byte. *)
Definition zero_free_out (out_text : option str) : bool :=
  match out_text with
  | Some t => zero_free t
  | None => true
  end.

(** The call that hands one chunk to the callback. *)
Definition chunk_call (chunk : str) : Call := (c_str chunk, false).

(** A batch run and a streaming run that have come equally far: the same
    summary, matcher and flag, and the text the batch run has accumulated is
    made of the chunks the callback has been handed. *)
Definition same_progress (batch streaming : LoopState) : Prop :=
  l_summary batch = l_summary streaming
  /\ l_stop_buffer batch = l_stop_buffer streaming
  /\ l_abort batch = l_abort streaming
  /\ exists chunks,
       l_out_text batch = Some (concat chunks)
       /\ l_calls streaming = map chunk_call chunks.

(** What every reachable session satisfies. *)
Definition well_formed (g : Globals) : Prop :=
  let s := g_state g in
  live (ctx s) = live (model s)
  /\ (512 <= n_ctx s)%Z
  /\ (1 <= n_threads s)%Z
  /\ (use_vulkan s = false -> n_gpu_layers s = 0%Z)
  /\ (live (model s) = true -> g_backend_initialized g = true)
  /\ (stop_reason s = StopReason.StopSequence <-> stop_sequence s <> [])
  /\ (0 <= generation_tokens (metrics s))%Z
  /\ (truncated (metrics s) = true ->
      stop_reason s = StopReason.MaxTokens \/ stop_reason s = StopReason.Error).

(** ** Contracts of the runtime the retry loops are written against *)

(** [llama_model_meta_val_str] as [snprintf] behaves: -1 for a missing key;
    otherwise the length of the whole value, with as much of it in the buffer
    as fits before the terminating zero. *)
Definition snprintf_like (lookup : str -> option str) (key : str) (size : Z) : Z * str :=
  match lookup key with
  | None => (-1, [])%Z
  | Some v => (Z.of_nat (length v), firstn (Z.to_nat size - 1) v)
  end.


(** A model whose only metadata are an architecture and a chat template under
    the fallback key. *)
Definition sample_probe : ModelProbe :=
  {| n_ctx_train := 8192; n_layer := 32; probe_n_embd := 4096;
     vocab_n_tokens := Some 32000%Z;
     meta_val_str :=
       snprintf_like
         (fun k => if str_eqb k (bytes "general.architecture") then Some (bytes "llama")
                   else if str_eqb k (bytes "llama.chat_template")
                        then Some (bytes "x<Think>y")
                        else None) |}.

(** An embedding call in which the text at position 1 fails to encode. *)
Definition sample_embed_env : EmbedEnv :=
  {| float_array_class := true; embed_context := Some 3;
     encode_status := fun i => if i =? 1 then 1%Z else 0%Z;
     embeddings_of := fun _ => Some [1%float; 2%float; 3%float];
     n_embd := 2 |}.

(** As [quiet_run] with a prompt of 3 tokens, but the JNI environment cannot
    allocate the string of the flushed tail. *)
Definition tail_failure_run : RunEnv :=
  {| vocab_available := true;
     llama_tokenize := fun _ _ => 3%Z;
     t_start_us := 0; prefill_status := 0; t_prefill_end_us := 1000;
     sampler_available := true; t_decode_start_us := 1000;
     steps := fun _ => quiet_step;
     t_decode_end_us := 9000;
     tail_outcome := AllocFailed; done_outcome := Delivered |}.



(** ** Byte strings *)

Lemma str_eqb_eq (a b : str) : str_eqb a b = true <-> a = b.
Proof.
  revert b; induction a as [|x a IH]; intros [|y b]; simpl; split; intro H;
    try reflexivity; try discriminate.
  - apply andb_true_iff in H as [Hx Hr].
    apply Ascii.eqb_eq in Hx. apply IH in Hr. congruence.
  - injection H as -> ->. rewrite Ascii.eqb_refl. simpl. apply IH. reflexivity.
Qed.

Lemma empty_true (s : str) : empty s = true <-> s = [].
Proof. destruct s; simpl; split; intro; congruence. Qed.

Lemma empty_false (s : str) : empty s = false <-> s <> [].
Proof. destruct s; simpl; split; intro; congruence. Qed.

Lemma empty_length (s : str) : empty s = false -> 1 <= length s.
Proof. destruct s; simpl; intro; [discriminate | lia]. Qed.

(** [s] ends [t] exactly when [t] is something followed by [s]. *)
Lemma is_suffix_true (s t : str) : is_suffix s t = true <-> exists pre, t = pre ++ s.
Proof.
  unfold is_suffix. rewrite andb_true_iff, Nat.leb_le, str_eqb_eq. split.
  - intros [_ H]. exists (firstn (length t - length s) t).
    pose proof (firstn_skipn (length t - length s) t) as E.
    rewrite H in E. symmetry. exact E.
  - intros [pre ->]. rewrite length_app. split; [lia|].
    replace (length pre + length s - length s) with (length pre + 0) by lia.
    rewrite skipn_app, Nat.add_0_r, Nat.sub_diag.
    replace (skipn (length pre) pre) with (@nil ascii).
    + reflexivity.
    + symmetry. apply skipn_all.
Qed.

(** Cutting the ending [s] off [pre ++ s]. *)
Lemma firstn_cut (pre s : str) : firstn (length (pre ++ s) - length s) (pre ++ s) = pre.
Proof.
  rewrite length_app.
  replace (length pre + length s - length s) with (length pre + 0) by lia.
  rewrite firstn_app_2. simpl. apply app_nil_r.
Qed.

(** ** The scan of [push] is the first configured stop that ends the buffer *)

Lemma scan_stops_stop_suffix (stops : list str) (p : str) :
  scan_stops stops p = stop_suffix stops p.
Proof.
  unfold stop_suffix. induction stops as [|s stops IH]; simpl; [reflexivity|].
  destruct (empty s) eqn:He; simpl; [exact IH|].
  unfold compare_eq, substr, is_suffix.
  destruct (length s <=? length p) eqn:Hl; simpl; [|exact IH].
  apply Nat.leb_le in Hl.
  rewrite firstn_all2 by (rewrite length_skipn; lia).
  destruct (str_eqb _ s); [reflexivity | exact IH].
Qed.

Lemma stop_suffix_some (stops : list str) (t s : str) :
  stop_suffix stops t = Some s ->
  In s stops /\ s <> [] /\ exists pre, t = pre ++ s.
Proof.
  unfold stop_suffix. intro H. apply find_some in H as [Hin Hp].
  apply andb_true_iff in Hp as [Hne Hs].
  apply negb_true_iff, empty_false in Hne. apply is_suffix_true in Hs. auto.
Qed.

Lemma stop_suffix_none (stops : list str) (t s pre : str) :
  stop_suffix stops t = None -> In s stops -> s <> [] -> t <> pre ++ s.
Proof.
  unfold stop_suffix. intros H Hin Hne Ht.
  pose proof (find_none _ _ H _ Hin) as Hp. simpl in Hp.
  apply empty_false in Hne. rewrite Hne in Hp. simpl in Hp.
  assert (is_suffix s t = true) by (apply is_suffix_true; eauto). congruence.
Qed.

(** ** The longest stop *)

Lemma fold_max_ge (stops : list str) (m : nat) :
  m <= fold_left (fun m s => Nat.max m (length s)) stops m
  /\ forall s, In s stops -> length s <= fold_left (fun m s => Nat.max m (length s)) stops m.
Proof.
  revert m. induction stops as [|x stops IH]; intro m; simpl.
  - split; [lia | intros s []].
  - destruct (IH (Nat.max m (length x))) as [H1 H2]. split; [lia|].
    intros s [->|Hin]; [lia | auto].
Qed.

Lemma longest_ge (stops : list str) (s : str) : In s stops -> length s <= longest stops.
Proof. apply fold_max_ge. Qed.

Lemma longest_zero (stops : list str) :
  longest stops = 0 -> forall s, In s stops -> s = [].
Proof.
  intros H s Hin. apply longest_ge in Hin. rewrite H in Hin.
  destruct s; [reflexivity | simpl in Hin; lia].
Qed.

(** ** One push *)

Lemma push_stops (sb : StopBuffer) (piece : str) :
  stops_ (snd (push sb piece)) = stops_ sb /\ max_stop_ (snd (push sb piece)) = max_stop_ sb.
Proof.
  unfold push. destruct (max_stop_ sb =? 0); [simpl; auto|].
  destruct (scan_stops _ _); [simpl; auto|].
  destruct (max_stop_ sb <=? _); simpl; auto.
Qed.

(** The three ways a push can go, in terms of the text it holds. *)
Inductive push_cases (sb : StopBuffer) (piece : str) : PushResult * StopBuffer -> Prop :=
| push_passthrough :
    max_stop_ sb = 0 ->
    push_cases sb piece
      ({| emit := pending_ sb ++ piece; hit_stop := false; matched := [] |}, with_pending sb [])
| push_hit (stop body : str) :
    max_stop_ sb <> 0 ->
    stop_suffix (stops_ sb) (pending_ sb ++ piece) = Some stop ->
    pending_ sb ++ piece = body ++ stop ->
    push_cases sb piece
      ({| emit := body; hit_stop := true; matched := stop |}, with_pending sb [])
| push_hold (out kept : str) :
    max_stop_ sb <> 0 ->
    stop_suffix (stops_ sb) (pending_ sb ++ piece) = None ->
    pending_ sb ++ piece = out ++ kept ->
    length kept <= max_stop_ sb - 1 ->
    (out = [] \/ length kept = max_stop_ sb - 1) ->
    push_cases sb piece
      ({| emit := out; hit_stop := false; matched := [] |}, with_pending sb kept).

Lemma push_inv (sb : StopBuffer) (piece : str) : push_cases sb piece (push sb piece).
Proof.
  unfold push. destruct (max_stop_ sb =? 0) eqn:H0.
  - apply Nat.eqb_eq in H0. now constructor.
  - apply Nat.eqb_neq in H0. rewrite scan_stops_stop_suffix.
    destruct (stop_suffix _ _) as [stop|] eqn:Hs.
    + destruct (stop_suffix_some _ _ Hs) as (_ & _ & pre & Hpre).
      unfold substr. simpl skipn. rewrite Hpre, firstn_cut.
      now apply push_hit.
    + destruct (max_stop_ sb <=? _) eqn:Hl.
      * apply Nat.leb_le in Hl. unfold substr, erase. simpl.
        set (u := pending_ sb ++ piece) in *.
        apply push_hold; auto.
        -- symmetry. apply firstn_skipn.
        -- rewrite length_skipn. lia.
        -- right. rewrite length_skipn. lia.
      * apply Nat.leb_gt in Hl. apply push_hold; auto. lia.
Qed.

(** ** A sequence of pushes *)

Lemma emitted_nil (sb : StopBuffer) : emitted sb [] = pending_ sb.
Proof. reflexivity. Qed.

Lemma emitted_cons (sb : StopBuffer) (f : str) (rest : list str) :
  emitted sb (f :: rest) = emit (fst (push sb f)) ++ emitted (snd (push sb f)) rest.
Proof.
  unfold emitted. simpl. destruct (push sb f) as [r sb1]. simpl.
  destruct (push_all sb1 rest) as [rs sb2]. simpl. now rewrite app_assoc.
Qed.

Lemma hit_count_cons (sb : StopBuffer) (f : str) (rest : list str) :
  hit_count sb (f :: rest)
  = (if hit_stop (fst (push sb f)) then 1 else 0) + hit_count (snd (push sb f)) rest.
Proof.
  unfold hit_count. simpl. destruct (push sb f) as [r sb1]. simpl.
  destruct (push_all sb1 rest) as [rs sb2]. simpl. now destruct (hit_stop r).
Qed.

(** Without a hit nothing is lost: what comes out is what was held and pushed. *)
Lemma emitted_no_hit (frags : list str) :
  forall sb, hit_count sb frags = 0 -> emitted sb frags = pending_ sb ++ concat frags.
Proof.
  induction frags as [|f rest IH]; intros sb H.
  - rewrite emitted_nil. simpl. now rewrite app_nil_r.
  - rewrite hit_count_cons in H. rewrite emitted_cons.
    destruct (push_inv sb f) as [H0 | stop body H0 Hs Hb | out kept H0 Hs Hb Hk _];
      simpl in *; try discriminate.
    + rewrite IH by assumption. simpl. now rewrite <- app_assoc.
    + rewrite IH by assumption. simpl. now rewrite !app_assoc, Hb.
Qed.

(** The text read so far is [em ++ pending_ sb]: [em] has been handed out, the
    buffer holds the rest, and either nothing was handed out yet or the buffer
    is as long as a push leaves it. *)
Lemma suffix_seen_held (stops : list str) (L : nat) (em pend f s : str) :
  (forall x, In x stops -> length x <= L) ->
  (em = [] \/ L - 1 <= length pend) ->
  stop_suffix stops (em ++ pend) = None ->
  In s stops -> s <> [] ->
  is_suffix s (pend ++ f) = is_suffix s ((em ++ pend) ++ f).
Proof.
  intros HL Hem Hnone Hin Hne. apply eq_true_iff_eq. rewrite !is_suffix_true. split.
  - intros [pre E]. exists (em ++ pre). now rewrite <- !app_assoc, E.
  - intros [pre E]. rewrite <- app_assoc in E.
    destruct Hem as [-> | Hlen]; [now exists pre|].
    destruct f as [|c f].
    + exfalso. rewrite app_nil_r in E. exact (stop_suffix_none _ pre Hnone Hin Hne E).
    + apply app_eq_app in E as [l [[E1 E2] | [E1 E2]]].
      * assert (Hs : length s = length l + length (pend ++ c :: f)) by (rewrite E2, length_app; lia).
        specialize (HL _ Hin). rewrite length_app in Hs. simpl in Hs.
        assert (l = []) by (destruct l; [reflexivity | simpl in Hs; lia]).
        subst l. exists []. simpl in *. now symmetry.
      * now exists l.
Qed.

Lemma stop_suffix_seen_held (stops : list str) (L : nat) (em pend f : str) :
  (forall x, In x stops -> length x <= L) ->
  (em = [] \/ L - 1 <= length pend) ->
  stop_suffix stops (em ++ pend) = None ->
  stop_suffix stops (pend ++ f) = stop_suffix stops ((em ++ pend) ++ f).
Proof.
  intros HL Hem Hnone. unfold stop_suffix.
  assert (Hext : forall s, In s stops ->
            negb (empty s) && is_suffix s (pend ++ f)
            = negb (empty s) && is_suffix s ((em ++ pend) ++ f)).
  { intros s Hin. destruct (empty s) eqn:He; [reflexivity|]. simpl.
    apply empty_false in He. eapply suffix_seen_held; eauto. }
  clear HL Hnone. induction stops as [|x stops IH]; simpl; [reflexivity|].
  rewrite <- (Hext x) by (now left).
  destruct (negb (empty x) && is_suffix x (pend ++ f)); [reflexivity|].
  apply IH. intros s Hin. apply Hext. now right.
Qed.

(** The run of the matcher against the text with its first stop suffix cut,
    the text being read where the fragments end. *)
Lemma emitted_stop_removed_at_push (frags : list str) :
  forall sb em,
    max_stop_ sb = longest (stops_ sb) ->
    (em = [] \/ max_stop_ sb - 1 <= length (pending_ sb)) ->
    stop_suffix (stops_ sb) (em ++ pending_ sb) = None ->
    hit_count sb frags <= 1 ->
    em ++ emitted sb frags = stop_removed_at_push (stops_ sb) (em ++ pending_ sb) frags.
Proof.
  induction frags as [|f rest IH]; intros sb em HL Hem Hnone Hc.
  - reflexivity.
  - rewrite hit_count_cons in Hc. rewrite emitted_cons. simpl.
    destruct (push_stops sb f) as [Hst Hmx].
    assert (Hle : forall x, In x (stops_ sb) -> length x <= max_stop_ sb)
      by (intros x Hx; rewrite HL; now apply longest_ge).
    pose proof (@stop_suffix_seen_held _ _ em (pending_ sb) f Hle Hem Hnone) as Heq.
    destruct (push_inv sb f) as [H0 | stop body H0 Hs Hb | out kept H0 Hs Hb Hk Ho];
      simpl in *.
    + (* no stop string has a character *)
      assert (Hn : stop_suffix (stops_ sb) ((em ++ pending_ sb) ++ f) = None).
      { destruct (stop_suffix (stops_ sb) ((em ++ pending_ sb) ++ f)) eqn:E; [|reflexivity].
        apply stop_suffix_some in E as (Hin & Hne & _).
        rewrite HL in H0. now apply (longest_zero _ H0) in Hin. }
      rewrite Hn. rewrite app_assoc.
      rewrite (IH (with_pending sb []) ((em ++ pending_ sb ++ f))); simpl.
      * now rewrite !app_nil_r, app_assoc.
      * assumption.
      * right. lia.
      * now rewrite app_nil_r, app_assoc.
      * assumption.
    + rewrite Heq in Hs. rewrite Hs.
      rewrite emitted_no_hit by lia. simpl.
      rewrite <- (app_assoc em (pending_ sb) f), Hb, (app_assoc em body stop), firstn_cut.
      now rewrite <- app_assoc.
    + rewrite Heq in Hs. rewrite Hs. rewrite app_assoc.
      rewrite (IH (with_pending sb kept) (em ++ out)); simpl.
      * now rewrite <- !app_assoc, Hb.
      * assumption.
      * destruct Ho as [-> | Ho]; [|right; lia].
        destruct Hem as [-> | Hem]; [now left|].
        right. simpl in Hb. rewrite <- Hb, length_app. lia.
      * rewrite <- !app_assoc, <- Hb, app_assoc. exact Hs.
      * assumption.
Qed.

(** A hit needs its stop string to occur in the text. *)
Lemma hit_count_no_occurrence (frags : list str) :
  forall sb,
    (forall s, In s (stops_ sb) -> s <> [] -> ~ occurs_in s (pending_ sb ++ concat frags)) ->
    hit_count sb frags = 0.
Proof.
  induction frags as [|f rest IH]; intros sb Hno; [reflexivity|].
  rewrite hit_count_cons. simpl in Hno.
  destruct (push_inv sb f) as [H0 | stop body H0 Hs Hb | out kept H0 Hs Hb Hk _]; simpl.
  - apply IH. simpl. intros s Hin Hne [a [b E]].
    apply (Hno s Hin Hne). exists ((pending_ sb ++ f) ++ a), b.
    now rewrite E, <- !app_assoc.
  - exfalso. apply stop_suffix_some in Hs as (Hin & Hne & _).
    apply (Hno stop Hin Hne). exists body, (concat rest).
    now rewrite app_assoc, Hb, <- app_assoc.
  - apply IH. simpl. intros s Hin Hne [a [b E]].
    apply (Hno s Hin Hne). exists (out ++ a), b.
    now rewrite app_assoc, Hb, <- !app_assoc, E.
Qed.

Lemma stop_suffix_first (pre post : list str) (stop body u : str) :
  stop <> [] -> u = body ++ stop ->
  (forall s b, In s pre -> s <> [] -> u <> b ++ s) ->
  stop_suffix (pre ++ stop :: post) u = Some stop.
Proof.
  intros Hne Hu Hpre. unfold stop_suffix.
  induction pre as [|x pre IH]; simpl.
  - apply empty_false in Hne. rewrite Hne. simpl.
    replace (is_suffix stop u) with true; [reflexivity|].
    symmetry. apply is_suffix_true. eauto.
  - destruct (empty x) eqn:Hx; simpl.
    + apply IH. intros s b Hin. apply Hpre. now right.
    + destruct (is_suffix x u) eqn:Hsx.
      * exfalso. apply is_suffix_true in Hsx as [b Hb].
        apply empty_false in Hx. exact (Hpre x b (or_introl eq_refl) Hx Hb).
      * apply IH. intros s b Hin. apply Hpre. now right.
Qed.

Lemma push_all_stops (frags : list str) :
  forall sb, stops_ (snd (push_all sb frags)) = stops_ sb
             /\ max_stop_ (snd (push_all sb frags)) = max_stop_ sb.
Proof.
  induction frags as [|f rest IH]; intro sb; simpl; [auto|].
  destruct (push_stops sb f) as [H1 H2]. destruct (push sb f) as [r sb1]. simpl in *.
  destruct (IH sb1) as [H3 H4]. destruct (push_all sb1 rest) as [rs sb2]. simpl in *.
  split; congruence.
Qed.

Lemma push_pending_bound (sb : StopBuffer) (piece : str) :
  1 <= max_stop_ sb -> length (pending_ (snd (push sb piece))) <= max_stop_ sb - 1.
Proof.
  intro H. destruct (push_inv sb piece); simpl; lia.
Qed.

(** ** Reading the raw text *)

Lemma stop_suffix_nil_text (stops : list str) : stop_suffix stops [] = None.
Proof.
  unfold stop_suffix. induction stops as [|s stops IH]; simpl; [reflexivity|].
  destruct s; simpl; exact IH.
Qed.

Lemma remove_first_stop_here (stops : list str) (seen rest s : str) :
  stop_suffix stops seen = Some s ->
  remove_first_stop stops seen rest = firstn (length seen - length s) seen ++ rest.
Proof. intro H. destruct rest; simpl; rewrite H; reflexivity. Qed.

(** A stop that is not at the end of what was read ends further on. *)
Lemma first_stop_end_from_later (stops : list str) (rest : str) :
  forall seen n,
    stop_suffix stops seen = None ->
    first_stop_end_from stops seen rest = Some n -> length seen < n.
Proof.
  induction rest as [|c rest IH]; intros seen n Hs H; simpl in H; rewrite Hs in H.
  - discriminate.
  - destruct (stop_suffix stops (seen ++ [c])) eqn:E.
    + destruct rest; simpl in H; rewrite E in H; injection H as <-;
        rewrite length_app; simpl; lia.
    + apply IH in H; [|exact E]. rewrite length_app in H. simpl in H. lia.
Qed.

Lemma push_ends_ge (frags : list str) :
  forall b n, In n (push_ends b frags) -> b <= n.
Proof.
  induction frags as [|f rest IH]; intros b n H; simpl in H; [contradiction|].
  destruct H as [<- | H]; [lia|]. apply IH in H. lia.
Qed.

(** Reading through a fragment inside which no stop ends. *)
Lemma read_fragment (stops : list str) (tail : str) (f : str) :
  forall seen,
    stop_suffix stops seen = None ->
    match first_stop_end_from stops seen (f ++ tail) with
    | Some n => length seen + length f <= n
    | None => True
    end ->
    remove_first_stop stops seen (f ++ tail) = remove_first_stop stops (seen ++ f) tail
    /\ first_stop_end_from stops seen (f ++ tail)
       = first_stop_end_from stops (seen ++ f) tail.
Proof.
  induction f as [|c f IH]; intros seen Hs Hb.
  - now rewrite app_nil_r.
  - simpl in Hb |- *. rewrite Hs in Hb |- *.
    replace (seen ++ c :: f) with ((seen ++ [c]) ++ f) by now rewrite <- app_assoc.
    destruct (stop_suffix stops (seen ++ [c])) eqn:E.
    + assert (Hf : f = []).
      { destruct (f ++ tail); simpl in Hb; rewrite E in Hb;
          rewrite length_app in Hb; simpl in Hb; destruct f; [reflexivity| | reflexivity |];
          simpl in Hb; lia. }
      subst f. now rewrite app_nil_r.
    + apply IH; [exact E|].
      destruct (first_stop_end_from stops (seen ++ [c]) (f ++ tail)); [|exact I].
      rewrite length_app. simpl. lia.
Qed.

(** When the first stop ends where a fragment ends, reading the text where
    the fragments end finds it. *)
Lemma stop_removed_at_push_raw (stops : list str) (frags : list str) :
  forall seen,
    stop_suffix stops seen = None ->
    match first_stop_end_from stops seen (concat frags) with
    | Some n => In n (push_ends (length seen) frags)
    | None => True
    end ->
    stop_removed_at_push stops seen frags = remove_first_stop stops seen (concat frags).
Proof.
  induction frags as [|f rest IH]; intros seen Hs Hb.
  - simpl. now rewrite Hs.
  - cbn [concat stop_removed_at_push push_ends] in *.
    destruct (@read_fragment stops (concat rest) f seen Hs) as [R1 R2].
    { destruct (first_stop_end_from stops seen (f ++ concat rest)); [|exact I].
      destruct Hb as [<- | Hb]; [lia|]. now apply push_ends_ge in Hb. }
    rewrite R1. rewrite R2 in Hb.
    destruct (stop_suffix stops (seen ++ f)) eqn:E.
    + symmetry. now apply remove_first_stop_here.
    + apply IH; [exact E|].
      destruct (first_stop_end_from stops (seen ++ f) (concat rest)) eqn:F; [|exact I].
      apply first_stop_end_from_later in F; [|exact E].
      rewrite length_app in *.
      destruct Hb as [<- | Hb]; [lia | exact Hb].
Qed.

(** ** Claims on the stop-sequence matcher *)

(** C1, as stated, fails. The matcher looks at the text as it stands after
    each push, so a stop string that ends inside a fragment goes out with the
    text: with the stop [X] the single fragment [aXb] is returned whole, no
    push reporting a hit, while the raw text with its first stop removed is
    [ab]. And a matcher pushed further after a hit cuts a stop string at every
    later hit too: the fragments [aX], [bX] give [ab], not [abX]. *)
Lemma C1_stop_inside_fragment_counterexample :
  (hit_count (StopBuffer_new [bytes "X"]) [bytes "aXb"] = 0
   /\ total_output [bytes "X"] [bytes "aXb"] = bytes "aXb"
   /\ first_stop_removed [bytes "X"] (concat [bytes "aXb"]) = bytes "ab"
   /\ total_output [bytes "X"] [bytes "aXb"]
      <> first_stop_removed [bytes "X"] (concat [bytes "aXb"]))
  /\ (total_output [bytes "X"] [bytes "aX"; bytes "bX"] = bytes "ab"
      /\ first_stop_removed [bytes "X"] (concat [bytes "aX"; bytes "bX"]) = bytes "abX"
      /\ total_output [bytes "X"] [bytes "aX"; bytes "bX"]
         <> first_stop_removed [bytes "X"] (concat [bytes "aX"; bytes "bX"])).
Proof.
  repeat split; try reflexivity; vm_compute; discriminate.
Qed.

(** C1 (amended): for every stop list and every sequence of fragments over
    which the matcher reports at most one hit and in which the first occurring
    configured stop string, if there is one, ends where a pushed fragment ends,
    the strings returned by the pushes followed by the final flush are the
    concatenation of the fragments with the first occurring configured stop
    suffix removed; and when no configured stop string with a character occurs
    anywhere in the concatenation, they are the concatenation unmodified. *)
Theorem C1_stop_matching (stops : list str) (frags : list str) :
  (hit_count (StopBuffer_new stops) frags <= 1 ->
   first_stop_ends_a_fragment stops frags ->
   total_output stops frags = first_stop_removed stops (concat frags))
  /\ ((forall s, In s stops -> s <> [] -> ~ occurs_in s (concat frags)) ->
      total_output stops frags = concat frags).
Proof.
  split.
  - intros H Hf. unfold total_output, first_stop_removed.
    rewrite <- (@stop_removed_at_push_raw stops frags [] (stop_suffix_nil_text stops) Hf).
    apply (@emitted_stop_removed_at_push frags (StopBuffer_new stops) []); simpl; auto.
    apply stop_suffix_nil_text.
  - intro H. unfold total_output. rewrite emitted_no_hit; [reflexivity|].
    apply hit_count_no_occurrence. exact H.
Qed.

Lemma C1_stop_matching_witness :
  hit_count (StopBuffer_new [bytes "STOP"]) [bytes "go S"; bytes "TO"; bytes "P"] <= 1
  /\ first_stop_ends_a_fragment [bytes "STOP"] [bytes "go S"; bytes "TO"; bytes "P"]
  /\ total_output [bytes "STOP"] [bytes "go S"; bytes "TO"; bytes "P"]
     = first_stop_removed [bytes "STOP"] (concat [bytes "go S"; bytes "TO"; bytes "P"])
  /\ total_output [bytes "STOP"] [bytes "go S"; bytes "TO"; bytes "P"] = bytes "go ".
Proof.
  assert (H : hit_count (StopBuffer_new [bytes "STOP"]) [bytes "go S"; bytes "TO"; bytes "P"] <= 1)
    by (vm_compute; apply le_n).
  assert (Hf : first_stop_ends_a_fragment [bytes "STOP"] [bytes "go S"; bytes "TO"; bytes "P"])
    by (vm_compute; auto).
  split; [exact H|]. split; [exact Hf|]. split.
  - exact (proj1 (C1_stop_matching [bytes "STOP"] [bytes "go S"; bytes "TO"; bytes "P"]) H Hf).
  - reflexivity.
Defined.

(** C5: with a longest stop string of [L >= 1] characters, after each push,
    whatever was pushed before it, the matcher holds at most [L - 1]
    characters. *)
Theorem C5_bounded_buffering (stops : list str) (before : list str) (piece : str) :
  1 <= longest stops ->
  length (pending_ (snd (push (snd (push_all (StopBuffer_new stops) before)) piece)))
  <= longest stops - 1.
Proof.
  intro HL. destruct (push_all_stops before (StopBuffer_new stops)) as [_ Hm].
  simpl in Hm. rewrite <- Hm. apply push_pending_bound. rewrite Hm. exact HL.
Qed.

Lemma C5_bounded_buffering_witness :
  1 <= longest [bytes "STOP"; bytes "</s>"]
  /\ length (pending_ (snd (push (snd (push_all (StopBuffer_new [bytes "STOP"; bytes "</s>"])
                                              [bytes "abcdefg"; bytes "hi"]))
                                 (bytes "jklmnop"))))
     <= longest [bytes "STOP"; bytes "</s>"] - 1.
Proof.
  assert (H : 1 <= longest [bytes "STOP"; bytes "</s>"]) by (vm_compute; lia).
  split; [exact H|].
  exact (C5_bounded_buffering [bytes "STOP"; bytes "</s>"]
           [bytes "abcdefg"; bytes "hi"] (bytes "jklmnop") H).
Defined.

(** C6: a push appends the fragment to the buffer. With no stop string of any
    length it returns the whole buffer and leaves the buffer empty. Otherwise
    the first stop string in configuration order that has a character and ends
    the buffer is reported as the hit, whatever longer stop string follows it
    in the list; the buffer without that ending is returned and the buffer is
    left empty. The stop list and the longest length stay as they are. *)
Theorem C6_push_first_match (sb : StopBuffer) (piece : str) :
  max_stop_ sb = longest (stops_ sb) ->
  (longest (stops_ sb) = 0 ->
   push sb piece
   = ({| emit := pending_ sb ++ piece; hit_stop := false; matched := [] |},
      {| stops_ := stops_ sb; max_stop_ := max_stop_ sb; pending_ := [] |}))
  /\ (forall pre stop post body,
         stops_ sb = pre ++ stop :: post ->
         stop <> [] ->
         pending_ sb ++ piece = body ++ stop ->
         (forall s b, In s pre -> s <> [] -> pending_ sb ++ piece <> b ++ s) ->
         push sb piece
         = ({| emit := body; hit_stop := true; matched := stop |},
            {| stops_ := stops_ sb; max_stop_ := max_stop_ sb; pending_ := [] |})).
Proof.
  intro HL. split.
  - intro H0. unfold push, with_pending. rewrite HL, H0. reflexivity.
  - intros pre stop post body Hst Hne Hu Hpre.
    pose proof (@stop_suffix_first pre post stop body _ Hne Hu Hpre) as Hs.
    rewrite <- Hst in Hs.
    destruct (push_inv sb piece) as [H0 | stop' body' H0 Hs' Hb | out kept H0 Hs' Hb Hk _].
    + exfalso. assert (Hin : In stop (stops_ sb)) by (rewrite Hst; apply in_elt).
      apply longest_ge in Hin. rewrite <- HL, H0 in Hin.
      destruct stop; [congruence | simpl in Hin; lia].
    + rewrite Hs in Hs'. injection Hs' as <-.
      rewrite Hu in Hb. apply app_inv_tail in Hb. now subst.
    + congruence.
Qed.

Lemma C6_push_first_match_witness :
  push {| stops_ := [bytes "b"; bytes "ab"]; max_stop_ := 2; pending_ := bytes "x" |}
       (bytes "ab")
  = ({| emit := bytes "xa"; hit_stop := true; matched := bytes "b" |},
     {| stops_ := [bytes "b"; bytes "ab"]; max_stop_ := 2; pending_ := [] |}).
Proof.
  refine (proj2 (@C6_push_first_match
                   {| stops_ := [bytes "b"; bytes "ab"]; max_stop_ := 2;
                      pending_ := bytes "x" |}
                   (bytes "ab") eq_refl)
                [] (bytes "b") [bytes "ab"] (bytes "xa") eq_refl _ eq_refl _).
  - discriminate.
  - intros s b [].
Defined.

(** ** Session lifecycle *)

Lemma unload_locked_fields (s : EngineState) :
  unload_locked s
  = {| model := None; ctx := None; n_ctx := n_ctx s; n_threads := n_threads s;
       n_gpu_layers := n_gpu_layers s; use_vulkan := use_vulkan s;
       metrics := EngineMetrics_init; stop_reason := StopReason.None;
       stop_sequence := []; should_abort := false |}.
Proof.
  destruct s as [m c ? ? ? ? ? ? ? ?]. unfold unload_locked. simpl.
  destruct c, m; reflexivity.
Qed.

(** C2, as stated, fails: the previous session is unloaded before the new model
    is read, so a load whose model handle cannot be constructed returns false
    and leaves the session without its handles and with its metrics reset. *)
Lemma C2_failed_load_counterexample :
  fst (loadModel (sample_runtime false true true) loaded_session
                 (Some (bytes "/m.gguf")) 4 4096 0 true) = false
  /\ snd (loadModel (sample_runtime false true true) loaded_session
                    (Some (bytes "/m.gguf")) 4 4096 0 true) <> loaded_session
  /\ model (g_state loaded_session) = Some 7%nat
  /\ model (g_state (snd (loadModel (sample_runtime false true true) loaded_session
                                    (Some (bytes "/m.gguf")) 4 4096 0 true))) = None
  /\ prompt_tokens (metrics (g_state loaded_session)) = 12%Z
  /\ prompt_tokens (metrics (g_state (snd (loadModel (sample_runtime false true true)
                       loaded_session (Some (bytes "/m.gguf")) 4 4096 0 true)))) = 0%Z.
Proof.
  repeat split; try reflexivity.
  intro H. apply (f_equal (fun g => model (g_state g))) in H. discriminate H.
Qed.

(** C2 (amended): loadModel fails with no mutation at all when the model file
    is missing. When the file is there and the model handle or the context
    handle fails to construct, it fails after the previous session has been
    unloaded: both handles are null, metrics and stop-state are reset, the
    cancellation flag is cleared and the backend is marked initialised; the
    recorded configuration is unchanged. *)
Theorem C2_load_failure (memory : Type) (rt : Runtime memory) (g : Globals)
        (path : option str) (nThreads nCtx nGpuLayers : Z) (useVulkan : bool) :
  (file_exists rt path = false ->
   loadModel rt g path nThreads nCtx nGpuLayers useVulkan = (false, g))
  /\ (forall p,
         path = Some p -> file_exists rt path = true ->
         llama_model_load_from_file rt p (load_mparams nGpuLayers useVulkan) = None
         \/ (exists mdl,
               llama_model_load_from_file rt p (load_mparams nGpuLayers useVulkan) = Some mdl
               /\ llama_init_from_model rt mdl (load_cparams rt nThreads nCtx useVulkan) = None) ->
         loadModel rt g path nThreads nCtx nGpuLayers useVulkan
         = (false,
            {| g_state :=
                 {| model := None; ctx := None;
                    n_ctx := n_ctx (g_state g); n_threads := n_threads (g_state g);
                    n_gpu_layers := n_gpu_layers (g_state g);
                    use_vulkan := use_vulkan (g_state g);
                    metrics := EngineMetrics_init; stop_reason := StopReason.None;
                    stop_sequence := []; should_abort := false |};
               g_backend_initialized := true |})).
Proof.
  split.
  - intro H. unfold loadModel. destruct path as [p|]; [|reflexivity]. now rewrite H.
  - intros p -> Hex Hfail. unfold loadModel. rewrite Hex. simpl.
    assert (Hg : with_state (ensure_backend_init g) (unload_locked (g_state (ensure_backend_init g)))
                 = {| g_state := unload_locked (g_state g); g_backend_initialized := true |}).
    { unfold ensure_backend_init, with_state. destruct (g_backend_initialized g) eqn:E; simpl.
      - now rewrite E.
      - reflexivity. }
    destruct Hfail as [Hm | [mdl [Hm Hc]]]; rewrite Hm; [|rewrite Hc];
      rewrite Hg, unload_locked_fields; reflexivity.
Qed.

Lemma C2_load_failure_witness :
  loadModel (sample_runtime true false true) loaded_session
            (Some (bytes "/m.gguf")) 4 4096 0 true
  = (false,
     {| g_state :=
          {| model := None; ctx := None; n_ctx := 4096; n_threads := 4;
             n_gpu_layers := 0; use_vulkan := true;
             metrics := EngineMetrics_init; stop_reason := StopReason.None;
             stop_sequence := []; should_abort := false |};
        g_backend_initialized := true |}).
Proof.
  refine (proj2 (C2_load_failure (sample_runtime true false true) loaded_session
                   (Some (bytes "/m.gguf")) 4 4096 0 true)
                (bytes "/m.gguf") eq_refl eq_refl _).
  right. exists 1%nat. split; reflexivity.
Defined.

(** ** One generation run *)

Lemma emit_chunk_delivers (stream : option StreamContext) (text : str) (done : bool)
      (o : ChunkOutcome) (calls : list Call) :
  delivers stream o = true -> fst (emit_chunk stream text done o calls) = true.
Proof.
  unfold delivers, emit_chunk. destruct stream as [s|]; [|reflexivity].
  destruct o; try discriminate. intros _.
  destruct (negb (live (callback s)) || negb (live (on_token s))); [reflexivity|].
  destruct (negb done && empty text); reflexivity.
Qed.

Lemma c_str_zero_free (s : str) : zero_free s = true -> c_str s = s.
Proof.
  induction s as [|c s IH]; simpl; [reflexivity|].
  destruct (Ascii.eqb c "000"); simpl; [discriminate|].
  intro H. now rewrite IH.
Qed.

Lemma zero_free_app (a b : str) : zero_free (a ++ b) = zero_free a && zero_free b.
Proof. apply forallb_app. Qed.

(** A push hands out and keeps bytes it was given, so no zero byte when it
    was given none. *)
Lemma push_zero_free (sb : StopBuffer) (piece : str) :
  zero_free (pending_ sb) = true -> zero_free piece = true ->
  zero_free (emit (fst (push sb piece))) = true
  /\ zero_free (pending_ (snd (push sb piece))) = true.
Proof.
  intros Hp Hf.
  assert (H : zero_free (pending_ sb ++ piece) = true)
    by (rewrite zero_free_app, Hp, Hf; reflexivity).
  destruct (push_inv sb piece) as [H0 | stop body H0 Hs Hb | out kept H0 Hs Hb Hk Ho];
    cbn [fst snd emit pending_ with_pending].
  - split; [exact H | reflexivity].
  - rewrite Hb, zero_free_app in H. apply andb_true_iff in H as [H _].
    split; [exact H | reflexivity].
  - rewrite Hb, zero_free_app in H. apply andb_true_iff in H as [H1 H2]. auto.
Qed.

Lemma emit_chunk_text (stream : option StreamContext) (text : str)
      (o : ChunkOutcome) (calls : list Call) :
  text <> [] -> Forall text_call calls ->
  Forall text_call (snd (emit_chunk stream text false o calls)).
Proof.
  intros Hne Hc. unfold emit_chunk. destruct stream as [s|]; [|exact Hc].
  destruct (negb (live (callback s)) || negb (live (on_token s))); [exact Hc|].
  destruct (negb false && empty text); [exact Hc|].
  destruct o; cbn [snd]; try exact Hc;
    (apply Forall_app; split; [exact Hc | constructor; [now exists text | constructor]]).
Qed.

Lemma emit_chunk_plain (stream : option StreamContext) (text : str)
      (o : ChunkOutcome) (calls : list Call) :
  text <> [] -> zero_free text = true -> Forall plain_call calls ->
  Forall plain_call (snd (emit_chunk stream text false o calls)).
Proof.
  intros Hne Hz Hc. unfold emit_chunk. destruct stream as [s|]; [|exact Hc].
  destruct (negb (live (callback s)) || negb (live (on_token s))); [exact Hc|].
  destruct (negb false && empty text); [exact Hc|].
  destruct o; cbn [snd]; try exact Hc;
    (apply Forall_app; split; [exact Hc | constructor; [|constructor]]);
    unfold plain_call; cbn [fst snd]; rewrite (c_str_zero_free _ Hz); auto.
Qed.

(** What one iteration leaves untouched, and what it may add to the calls. *)
Lemma decode_step_keeps (e : RunEnv) (stream : option StreamContext) (t0 : float)
      (i : nat) (l : LoopState) :
  let l' := fst (decode_step e stream t0 i l) in
  prompt_tokens (s_metrics (l_summary l')) = prompt_tokens (s_metrics (l_summary l))
  /\ context_used_pct (s_metrics (l_summary l')) = context_used_pct (s_metrics (l_summary l))
  /\ (Forall text_call (l_calls l) -> Forall text_call (l_calls l')).
Proof.
  unfold decode_step.
  destruct (abort_requested (steps e i)); [simpl; auto|].
  destruct (token_is_eog (steps e i)); [simpl; auto|].
  destruct (push (l_stop_buffer l) (piece_of (steps e i))) as [r sb].
  assert (Hcalls : Forall text_call (l_calls l) ->
                   Forall text_call
                     (snd (if negb (empty (emit r))
                           then emit_chunk stream (emit r) false
                                           (chunk_outcome (steps e i)) (l_calls l)
                           else (true, l_calls l)))).
  { intro H. destruct (empty (emit r)) eqn:He; simpl; [exact H|].
    apply emit_chunk_text; [now apply empty_false | exact H]. }
  destruct (if negb (empty (emit r)) then _ else _) as [delivered calls].
  simpl in Hcalls.
  destruct delivered; simpl; [|auto].
  destruct (generation_tokens (s_metrics (l_summary l)) =? 0)%Z;
    destruct (decode_status (steps e i) =? 0)%Z; simpl;
    destruct (hit_stop r); simpl; auto.
Qed.

Lemma decode_loop_keeps (e : RunEnv) (stream : option StreamContext) (t0 : float) (n : nat) :
  forall i l,
    let l' := decode_loop e stream t0 n i l in
    prompt_tokens (s_metrics (l_summary l')) = prompt_tokens (s_metrics (l_summary l))
    /\ context_used_pct (s_metrics (l_summary l')) = context_used_pct (s_metrics (l_summary l))
    /\ (Forall text_call (l_calls l) -> Forall text_call (l_calls l')).
Proof.
  induction n as [|n IH]; intros i l; simpl; [auto|].
  pose proof (decode_step_keeps e stream t0 i l) as Hs.
  destruct (decode_step e stream t0 i l) as [l1 brk]. simpl in Hs.
  destruct brk; [exact Hs|].
  destruct Hs as (H1 & H2 & H3). destruct (IH (S i) l1) as (K1 & K2 & K3).
  repeat split; [congruence | congruence | auto].
Qed.

Lemma append_out_zero_free (out : option str) (s : str) :
  zero_free_out out = true -> zero_free s = true -> zero_free_out (append_out out s) = true.
Proof.
  destruct out as [t|]; simpl; [|reflexivity].
  intros Ht Hs. now rewrite zero_free_app, Ht, Hs.
Qed.

(** With no zero byte in the text of the tokens, there is none in the text
    that is accumulated, and every text call has a character. *)
Lemma decode_step_plain (e : RunEnv) (stream : option StreamContext) (t0 : float)
      (i : nat) (l : LoopState) :
  zero_free (piece_of (steps e i)) = true ->
  zero_free (pending_ (l_stop_buffer l)) = true ->
  let l' := fst (decode_step e stream t0 i l) in
  zero_free (pending_ (l_stop_buffer l')) = true
  /\ (Forall plain_call (l_calls l) -> Forall plain_call (l_calls l'))
  /\ (zero_free_out (l_out_text l) = true -> zero_free_out (l_out_text l') = true).
Proof.
  intros Hz Hp. unfold decode_step.
  destruct (abort_requested (steps e i)); [simpl; auto|].
  destruct (token_is_eog (steps e i)); [simpl; auto|].
  destruct (push_zero_free (l_stop_buffer l) (piece_of (steps e i)) Hp Hz) as [Ze Zp].
  destruct (push (l_stop_buffer l) (piece_of (steps e i))) as [r sb]. cbn [fst snd] in Ze, Zp.
  assert (Hcalls : Forall plain_call (l_calls l) ->
                   Forall plain_call
                     (snd (if negb (empty (emit r))
                           then emit_chunk stream (emit r) false
                                           (chunk_outcome (steps e i)) (l_calls l)
                           else (true, l_calls l)))).
  { intro Hc. destruct (empty (emit r)) eqn:He; cbn [negb snd]; [exact Hc|].
    apply emit_chunk_plain; [now apply empty_false | exact Ze | exact Hc]. }
  assert (Hout : zero_free_out (l_out_text l) = true ->
                 zero_free_out (if negb (empty (emit r))
                                then append_out (l_out_text l) (emit r)
                                else l_out_text l) = true).
  { intro Ho. destruct (empty (emit r)); cbn [negb]; [exact Ho|].
    now apply append_out_zero_free. }
  destruct (if negb (empty (emit r)) then emit_chunk _ _ _ _ _ else _) as [delivered calls].
  cbn [snd] in Hcalls.
  destruct delivered; simpl; [|auto].
  destruct (generation_tokens (s_metrics (l_summary l)) =? 0)%Z;
    destruct (decode_status (steps e i) =? 0)%Z; simpl;
    destruct (hit_stop r); simpl; auto.
Qed.

Lemma decode_loop_plain (e : RunEnv) (stream : option StreamContext) (t0 : float) (n : nat) :
  zero_free_pieces e ->
  forall i l,
    zero_free (pending_ (l_stop_buffer l)) = true ->
    let l' := decode_loop e stream t0 n i l in
    zero_free (pending_ (l_stop_buffer l')) = true
    /\ (Forall plain_call (l_calls l) -> Forall plain_call (l_calls l'))
    /\ (zero_free_out (l_out_text l) = true -> zero_free_out (l_out_text l') = true).
Proof.
  intro Hz. induction n as [|n IH]; intros i l Hp; simpl; [auto|].
  pose proof (@decode_step_plain e stream t0 i l (Hz i) Hp) as Hs.
  destruct (decode_step e stream t0 i l) as [l1 brk]. cbn [fst] in Hs.
  destruct brk; [exact Hs|]. destruct Hs as (H1 & H2 & H3).
  destruct (IH (S i) l1 H1) as (K1 & K2 & K3). auto.
Qed.

(** An uneventful iteration without a hit goes on to the next one. *)
Lemma decode_step_uneventful (e : RunEnv) (stream : option StreamContext) (t0 : float)
      (i : nat) (l : LoopState) :
  uneventful stream (steps e i) = true ->
  hit_stop (fst (push (l_stop_buffer l) (piece_of (steps e i)))) = false ->
  let l' := fst (decode_step e stream t0 i l) in
  snd (decode_step e stream t0 i l) = false
  /\ l_stop_buffer l' = snd (push (l_stop_buffer l) (piece_of (steps e i)))
  /\ reason (l_summary l') = reason (l_summary l)
  /\ truncated (s_metrics (l_summary l')) = truncated (s_metrics (l_summary l))
  /\ generation_tokens (s_metrics (l_summary l'))
     = (generation_tokens (s_metrics (l_summary l)) + 1)%Z.
Proof.
  unfold uneventful. rewrite !andb_true_iff, !negb_true_iff.
  intros [[[Ha He] Hd] Hs] Hh. unfold decode_step. rewrite Ha, He.
  destruct (push (l_stop_buffer l) (piece_of (steps e i))) as [r sb]. simpl in Hh.
  pose proof (@emit_chunk_delivers stream (emit r) false _ (l_calls l) Hd) as Hok.
  destruct (empty (emit r)); simpl;
    [| destruct (emit_chunk stream (emit r) false (chunk_outcome (steps e i)) (l_calls l))
         as [delivered calls]; simpl in Hok; subst delivered; simpl];
    rewrite Hs, Hh; simpl;
    destruct (generation_tokens (s_metrics (l_summary l)) =? 0)%Z; simpl; auto.
Qed.

Lemma hit_count_zero_cons (sb : StopBuffer) (f : str) (rest : list str) :
  hit_count sb (f :: rest) = 0 ->
  hit_stop (fst (push sb f)) = false /\ hit_count (snd (push sb f)) rest = 0.
Proof.
  rewrite hit_count_cons. destruct (hit_stop (fst (push sb f))); simpl; [lia | auto].
Qed.

(** The loop runs all its iterations when each is uneventful and none hits a
    stop string. *)
Lemma decode_loop_uneventful (e : RunEnv) (stream : option StreamContext) (t0 : float)
      (n : nat) :
  forall i l,
    (forall j, i <= j < i + n -> uneventful stream (steps e j) = true) ->
    hit_count (l_stop_buffer l) (pieces e i n) = 0 ->
    let l' := decode_loop e stream t0 n i l in
    reason (l_summary l') = reason (l_summary l)
    /\ truncated (s_metrics (l_summary l')) = truncated (s_metrics (l_summary l))
    /\ generation_tokens (s_metrics (l_summary l'))
       = (generation_tokens (s_metrics (l_summary l)) + Z.of_nat n)%Z.
Proof.
  induction n as [|n IH]; intros i l Hq Hh; simpl.
  - repeat split. lia.
  - unfold pieces in Hh. simpl in Hh. apply hit_count_zero_cons in Hh as [Hh1 Hh2].
    assert (Hi : uneventful stream (steps e i) = true) by (apply Hq; lia).
    destruct (@decode_step_uneventful e stream t0 i l Hi Hh1) as (B & Hsb & Hr & Ht & Hg).
    destruct (decode_step e stream t0 i l) as [l1 brk]. simpl in *. subst brk.
    destruct (IH (S i) l1) as (K1 & K2 & K3).
    + intros j Hj. apply Hq. lia.
    + rewrite Hsb. exact Hh2.
    + repeat split; [congruence | congruence | lia].
Qed.

Lemma finish_summary (e : RunEnv) (req : GenerationRequest) (stream : option StreamContext)
      (g : Globals) (t0 t1 : float) (l : LoopState) :
  let b := finish e req stream g t0 t1 l in
  let m0 := s_metrics (l_summary l) in
  let m := s_metrics (b_summary b) in
  prompt_tokens m = prompt_tokens m0
  /\ generation_tokens m = generation_tokens m0
  /\ context_used_pct m
     = (if (0 <? n_ctx (g_state g))%Z
        then context_used (prompt_tokens m0) (generation_tokens m0) (n_ctx (g_state g))
        else context_used_pct m0)
  /\ truncated m
     = truncated m0 || StopReason.eqb (settled_reason req l) StopReason.MaxTokens
  /\ (delivers stream (tail_outcome e) = true -> reason (b_summary b) = settled_reason req l)
  /\ b_globals b = with_state g (set_should_abort (g_state g) (l_abort l)).
Proof.
  unfold finish, settled_reason, flush. cbv zeta.
  destruct (StopReason.eqb (reason (l_summary l)) StopReason.None) eqn:Hr; simpl.
  - destruct (max_tokens req <=? generation_tokens (s_metrics (l_summary l)))%Z; simpl;
      (destruct (empty (pending_ (l_stop_buffer l))); simpl;
       [ destruct stream; simpl; repeat split; reflexivity
       | pose proof (@emit_chunk_delivers stream (pending_ (l_stop_buffer l)) false
                       (tail_outcome e) (l_calls l)) as Hd;
         destruct (emit_chunk stream (pending_ (l_stop_buffer l)) false (tail_outcome e)
                              (l_calls l)) as [d c]; simpl in Hd;
         destruct d; simpl; destruct stream; simpl; repeat split; try reflexivity;
         intro Ht; specialize (Hd Ht); discriminate ]).
  - destruct (empty (pending_ (l_stop_buffer l))); simpl.
    + destruct stream; simpl; destruct (StopReason.eqb (reason (l_summary l)) StopReason.Error);
        simpl; repeat split; reflexivity.
    + destruct (StopReason.eqb (reason (l_summary l)) StopReason.Error) eqn:He; simpl.
      * destruct stream; simpl; rewrite ?He; simpl; repeat split; reflexivity.
      * pose proof (@emit_chunk_delivers stream (pending_ (l_stop_buffer l)) false
                       (tail_outcome e) (l_calls l)) as Hd.
        destruct (emit_chunk stream (pending_ (l_stop_buffer l)) false (tail_outcome e)
                             (l_calls l)) as [d c]; simpl in Hd.
        destruct d; simpl; rewrite ?He; simpl; destruct stream; simpl;
          repeat split; try reflexivity;
          intro Ht; specialize (Hd Ht); discriminate.
Qed.




(** ** Claims on generation *)




(** A run that gets to the decode loop is the loop followed by [finish]. *)
Lemma generate_body_reaches (e : RunEnv) (req : GenerationRequest)
      (stream : option StreamContext) (g : Globals) (out : option str) :
  reaches_decode e req g = true ->
  exists g1 t0 t1 l0,
    generate_body e req stream g out
    = finish e req stream g1 t0 t1
             (decode_loop e stream t0 (Z.to_nat (max_tokens req)) 0 l0)
    /\ n_ctx (g_state g1) = n_ctx (g_state g)
    /\ l_stop_buffer l0 = StopBuffer_new (stops req)
    /\ reason (l_summary l0) = StopReason.None
    /\ truncated (s_metrics (l_summary l0)) = false
    /\ generation_tokens (s_metrics (l_summary l0)) = 0%Z
    /\ context_used_pct (s_metrics (l_summary l0)) = 0%float.
Proof.
  unfold reaches_decode, generate_body. rewrite !andb_true_iff.
  intros [[[[[Hc Hm] Hv] Hp] Hf] Hs]. rewrite Hc, Hm, Hv, Hf, Hs. simpl.
  destruct (prepare_prompt_tokens e (full_prompt req)) as [n|]; [|discriminate].
  eexists _, _, _, _. split; [reflexivity|]. simpl. repeat split.
  unfold ensure_backend_init. destruct (g_backend_initialized g); reflexivity.
Qed.

(** A run that does not get there leaves the initial summary with [error]. *)
Lemma generate_body_fails_early (e : RunEnv) (req : GenerationRequest)
      (stream : option StreamContext) (g : Globals) (out : option str) :
  reaches_decode e req g = false ->
  b_summary (generate_body e req stream g out)
  = set_reason GenerationSummary_init StopReason.Error
  /\ b_return (generate_body e req stream g out) = false.
Proof.
  unfold reaches_decode, generate_body. intro H.
  destruct (live (ctx (g_state g))); [|simpl; auto].
  destruct (live (model (g_state g))); [|simpl; auto].
  simpl in *. destruct (vocab_available e); [|simpl; auto].
  simpl in *. destruct (prepare_prompt_tokens e (full_prompt req)); [|simpl; auto].
  simpl in *. destruct (prefill_status e =? 0)%Z; [|simpl; auto].
  simpl in *. rewrite H. simpl. auto.
Qed.

Lemma generate_internal_pct (e : RunEnv) (req : GenerationRequest)
      (stream : option StreamContext) (g : Globals) (out : option str) :
  (0 < n_ctx (g_state g))%Z -> reaches_decode e req g = true ->
  let m := s_metrics (r_summary (generate_internal e req stream g out)) in
  context_used_pct m
  = context_used (prompt_tokens m) (generation_tokens m) (n_ctx (g_state g)).
Proof.
  intros Hn Hr. cbv zeta. unfold generate_internal. simpl r_summary.
  destruct (generate_body_reaches e req stream g out Hr)
    as (g1 & t0 & t1 & l0 & -> & Hg & _).
  destruct (finish_summary e req stream g1 t0 t1
              (decode_loop e stream t0 (Z.to_nat (max_tokens req)) 0 l0))
    as (F1 & F2 & F3 & _).
  rewrite F3, F1, F2, Hg. apply Z.ltb_lt in Hn. rewrite Hn. reflexivity.
Qed.

Lemma generate_internal_commit (e : RunEnv) (req : GenerationRequest)
      (stream : option StreamContext) (g : Globals) (out : option str) :
  let r := generate_internal e req stream g out in
  metrics (g_state (r_globals r)) = s_metrics (r_summary r)
  /\ stop_reason (g_state (r_globals r)) = reason (r_summary r)
  /\ stop_sequence (g_state (r_globals r)) = s_stop_sequence (r_summary r).
Proof. unfold generate_internal. simpl. auto. Qed.

(** C8: every run commits its summary into the session: after
    [generate_internal] returns, on whatever path, the session's metrics, stop
    reason and matched stop text are those of the run's summary. A run that
    fails before the decode loop (no model or context among the causes)
    commits the reason [error] with the initial metrics, and such a run
    replaces the figures of the run before it. *)
Theorem C8_summary_committed (e : RunEnv) (req : GenerationRequest)
        (stream : option StreamContext) (g : Globals) (out : option str) :
  let r := generate_internal e req stream g out in
  (metrics (g_state (r_globals r)) = s_metrics (r_summary r)
   /\ stop_reason (g_state (r_globals r)) = reason (r_summary r)
   /\ stop_sequence (g_state (r_globals r)) = s_stop_sequence (r_summary r))
  /\ (reaches_decode e req g = false ->
      r_return r = false
      /\ stop_reason (g_state (r_globals r)) = StopReason.Error
      /\ metrics (g_state (r_globals r)) = EngineMetrics_init).
Proof.
  cbv zeta. split.
  - apply generate_internal_commit.
  - intro H. destruct (generate_body_fails_early e req stream g out H) as [Hs Hr].
    unfold generate_internal. simpl. rewrite Hs, Hr. auto.
Qed.

Lemma C8_summary_committed_witness :
  (reaches_decode (quiet_run 100 Delivered) (sample_request 5 []) fresh_session = false
   /\ stop_reason (g_state (r_globals (generate_internal (quiet_run 100 Delivered)
                      (sample_request 5 []) None fresh_session (Some [])))) = StopReason.Error)
  /\ (let r := generate_internal (decode_failure_run 100) (sample_request 5 [])
                                  None loaded_session (Some []) in
      r_return r = false
      /\ generation_tokens (s_metrics (r_summary r)) = 1%Z
      /\ metrics (g_state (r_globals r)) = s_metrics (r_summary r)
      /\ stop_reason (g_state (r_globals r)) = StopReason.Error).
Proof.
  split.
  - split; [reflexivity|].
    exact (proj1 (proj2 (proj2 (C8_summary_committed (quiet_run 100 Delivered)
                                  (sample_request 5 []) None fresh_session (Some []))
                               eq_refl))).
  - cbv zeta. split; [vm_compute; reflexivity|]. split; [vm_compute; reflexivity|]. split.
    + exact (proj1 (proj1 (C8_summary_committed (decode_failure_run 100)
                             (sample_request 5 []) None loaded_session (Some [])))).
    + vm_compute; reflexivity.
Defined.

(** ** State restore *)

(** C3, as stated, fails: the working memory is cleared before the blob is
    handed to the runtime, so a restore the runtime rejects returns false with
    the session record untouched but the working memory emptied. *)
Lemma C3_rejected_restore_counterexample :
  stateRestore (sample_runtime true true false) loaded_session
               [Byte.x01; Byte.x02] (Some [Byte.x2a])
  = (false, loaded_session, [])
  /\ snd (stateRestore (sample_runtime true true false) loaded_session
                       [Byte.x01; Byte.x02] (Some [Byte.x2a]))
     <> [Byte.x01; Byte.x02]
  /\ stateRestoreFrom (sample_runtime true true false) loaded_session
                      [Byte.x01; Byte.x02]
                      (Some {| direct_address := Some [Byte.x2a] |}) 1
     = (false, loaded_session, []).
Proof.
  split; [reflexivity|]. split; [|reflexivity].
  simpl. discriminate.
Qed.

(** Closes the side cases of the restore functions: the branch taken fixes
    the result, and the hypotheses of the other branches contradict it. *)
Ltac restore_tac :=
  cbn [fst snd negb]; repeat split; intros;
  repeat match goal with
         | H : _ /\ _ |- _ => destruct H
         | H : exists _, _ |- _ => destruct H
         | H : _ \/ _ |- _ => destruct H
         | H : Some _ = Some _ |- _ => injection H as H; subst
         | H : {| direct_address := _ |} = {| direct_address := _ |} |- _ =>
             injection H as H; subst
         end;
  try discriminate; try reflexivity; try congruence; try lia;
  try match goal with
      | E : llama_state_set_data _ _ _ _ = _, H : context [llama_state_set_data] |- _ =>
          rewrite E in H; cbn [fst snd] in H; try lia
      | E : llama_state_set_data _ _ _ _ = _ |- _ => rewrite E; reflexivity
      end.

(** C3 (amended): stateRestore and stateRestoreFrom return success exactly when
    a context is live, the buffer is non-null (for stateRestoreFrom: a direct
    buffer) and non-empty, and the runtime reports a non-zero number of bytes
    read. On every failure the session record (handles, configuration,
    metrics, stop-state) is unchanged; the working memory is unchanged when no
    context is live or the buffer is null or empty, and is what the runtime
    left of the cleared memory when it rejects the data. On success metrics
    and stop-state are reset and nothing else of the session record changes. *)
Theorem C3_state_restore (memory : Type) (rt : Runtime memory) (g : Globals) (mem : memory) :
  (forall jState,
      let r := stateRestore rt g mem jState in
      let ok := fst (fst r) in
      let g' := snd (fst r) in
      let mem' := snd r in
      (ok = true <->
       live (ctx (g_state g)) = true
       /\ exists buffer,
            jState = Some buffer /\ buffer <> []
            /\ (0 < snd (llama_state_set_data rt (llama_memory_clear rt mem false)
                                              buffer (Z.of_nat (length buffer))))%Z)
      /\ (ok = false -> g' = g)
      /\ (ok = false ->
          live (ctx (g_state g)) = false \/ jState = None \/ jState = Some [] ->
          mem' = mem)
      /\ (ok = true -> g' = with_state g (reset_metrics_locked (g_state g)))
      /\ (forall buffer,
             live (ctx (g_state g)) = true -> jState = Some buffer -> buffer <> [] ->
             mem' = fst (llama_state_set_data rt (llama_memory_clear rt mem false)
                                              buffer (Z.of_nat (length buffer)))))
  /\ (forall jBuffer len,
         let r := stateRestoreFrom rt g mem jBuffer len in
         let ok := fst (fst r) in
         let g' := snd (fst r) in
         let mem' := snd r in
         (ok = true <->
          live (ctx (g_state g)) = true
          /\ (0 < len)%Z
          /\ exists addr,
               jBuffer = Some {| direct_address := Some addr |}
               /\ (0 < snd (llama_state_set_data rt (llama_memory_clear rt mem false)
                                                 addr len))%Z)
         /\ (ok = false -> g' = g)
         /\ (ok = false ->
             live (ctx (g_state g)) = false \/ jBuffer = None \/ (len <= 0)%Z
             \/ jBuffer = Some {| direct_address := None |} ->
             mem' = mem)
         /\ (ok = true -> g' = with_state g (reset_metrics_locked (g_state g)))
         /\ (forall addr,
                live (ctx (g_state g)) = true -> (0 < len)%Z ->
                jBuffer = Some {| direct_address := Some addr |} ->
                mem' = fst (llama_state_set_data rt (llama_memory_clear rt mem false)
                                                 addr len))).
Proof.
  split.
  - intros jState. cbv zeta. unfold stateRestore.
    destruct jState as [buffer|]; [|restore_tac].
    destruct (live (ctx (g_state g))) eqn:Hl; [|restore_tac].
    destruct buffer as [|x buffer]; [restore_tac|].
    cbn [negb]. replace (Z.of_nat (length (x :: buffer)) <=? 0)%Z with false
      by (symmetry; apply Z.leb_gt; simpl length; lia).
    destruct (llama_state_set_data rt (llama_memory_clear rt mem false) (x :: buffer)
                                   (Z.of_nat (length (x :: buffer)))) as [m' read] eqn:Hd.
    destruct (0 <? read)%Z eqn:Hr;
      [apply Z.ltb_lt in Hr | apply Z.ltb_ge in Hr]; restore_tac.
    exists (x :: buffer). rewrite Hd. repeat split; [discriminate | exact Hr].
  - intros jBuffer len. cbv zeta. unfold stateRestoreFrom.
    destruct jBuffer as [[addr]|]; [|restore_tac].
    destruct (len <=? 0)%Z eqn:Hlen;
      [apply Z.leb_le in Hlen; restore_tac | apply Z.leb_gt in Hlen].
    cbn [direct_address].
    destruct addr as [addr|]; [|restore_tac].
    destruct (live (ctx (g_state g))) eqn:Hl; [|restore_tac].
    cbn [negb].
    destruct (llama_state_set_data rt (llama_memory_clear rt mem false) addr len)
      as [m' read] eqn:Hd.
    destruct (0 <? read)%Z eqn:Hr;
      [apply Z.ltb_lt in Hr | apply Z.ltb_ge in Hr]; restore_tac.
    exists addr. rewrite Hd. split; [reflexivity | exact Hr].
Qed.

Lemma C3_state_restore_witness :
  stateRestore (sample_runtime true true true) loaded_session [Byte.x01]
               (Some [Byte.x2a; Byte.x2b])
  = (true, with_state loaded_session (reset_metrics_locked (g_state loaded_session)),
     [Byte.x2a; Byte.x2b])
  /\ snd (fst (stateRestore (sample_runtime true true true) loaded_session [Byte.x01]
                            (Some [Byte.x2a; Byte.x2b])))
     = with_state loaded_session (reset_metrics_locked (g_state loaded_session)).
Proof.
  split; [reflexivity|].
  refine (proj1 (proj2 (proj2 (proj2
            (proj1 (C3_state_restore (sample_runtime true true true) loaded_session [Byte.x01])
                   (Some [Byte.x2a; Byte.x2b]))))) _).
  reflexivity.
Defined.

(** ** More on the stop-sequence matcher *)

Lemma stop_suffix_nil (stops : list str) : stop_suffix stops [] = None.
Proof.
  unfold stop_suffix. induction stops as [|s stops IH]; simpl; [reflexivity|].
  destruct s; simpl; exact IH.
Qed.

Lemma push_all_cons (sb : StopBuffer) (f : str) (rest : list str) :
  push_all sb (f :: rest)
  = (fst (push sb f) :: fst (push_all (snd (push sb f)) rest),
     snd (push_all (snd (push sb f)) rest)).
Proof.
  simpl. destruct (push sb f) as [r sb1]. simpl.
  destruct (push_all sb1 rest) as [rs sb2]. reflexivity.
Qed.

(** As long as no push hits, the matcher has handed out a beginning [em] of
    the text and holds the rest of it, and the text does not end with a
    configured stop string. *)
Lemma no_hit_state (frags : list str) :
  forall sb em,
    max_stop_ sb = longest (stops_ sb) ->
    (em = [] \/ max_stop_ sb - 1 <= length (pending_ sb)) ->
    stop_suffix (stops_ sb) (em ++ pending_ sb) = None ->
    hit_count sb frags = 0 ->
    let rs := fst (push_all sb frags) in
    let sb' := snd (push_all sb frags) in
    let em' := em ++ concat (map emit rs) in
    em' ++ pending_ sb' = em ++ pending_ sb ++ concat frags
    /\ (em' = [] \/ max_stop_ sb - 1 <= length (pending_ sb'))
    /\ stop_suffix (stops_ sb) (em' ++ pending_ sb') = None
    /\ stops_ sb' = stops_ sb /\ max_stop_ sb' = max_stop_ sb.
Proof.
  induction frags as [|f rest IH]; intros sb em HL Hem Hnone Hc; cbv zeta.
  - simpl. rewrite !app_nil_r. auto.
  - rewrite push_all_cons. cbn [fst snd map concat].
    apply hit_count_zero_cons in Hc as [Hh Hc].
    destruct (push_stops sb f) as [Hst Hmx].
    assert (Hle : forall x, In x (stops_ sb) -> length x <= max_stop_ sb)
      by (intros x Hx; rewrite HL; now apply longest_ge).
    pose proof (@stop_suffix_seen_held _ _ em (pending_ sb) f Hle Hem Hnone) as Heq.
    assert (Hstep : (em ++ emit (fst (push sb f))) ++ pending_ (snd (push sb f))
                    = (em ++ pending_ sb) ++ f
                    /\ (em ++ emit (fst (push sb f)) = []
                        \/ max_stop_ sb - 1 <= length (pending_ (snd (push sb f))))
                    /\ stop_suffix (stops_ sb) ((em ++ pending_ sb) ++ f) = None).
    { destruct (push_inv sb f) as [H0 | stop body H0 Hs Hb | out kept H0 Hs Hb Hk Ho];
        simpl in *; try discriminate.
      - rewrite app_nil_r, app_assoc. split; [reflexivity|]. split; [right; lia|].
        destruct (stop_suffix (stops_ sb) ((em ++ pending_ sb) ++ f)) eqn:E; [|reflexivity].
        apply stop_suffix_some in E as (Hin & Hne & _).
        rewrite HL in H0. now apply (longest_zero _ H0) in Hin.
      - rewrite Heq in Hs. split; [now rewrite <- !app_assoc, Hb|]. split; [|exact Hs].
        destruct Ho as [-> | Ho]; [|right; lia].
        destruct Hem as [-> | Hem]; [now left|].
        right. simpl in Hb. rewrite <- Hb, length_app. lia. }
    destruct Hstep as (S1 & S2 & S3).
    destruct (IH (snd (push sb f)) (em ++ emit (fst (push sb f)))) as (I1 & I2 & I3 & I4 & I5).
    + congruence.
    + rewrite Hmx. exact S2.
    + rewrite Hst, S1. exact S3.
    + exact Hc.
    + rewrite Hst, Hmx in *.
      rewrite (app_assoc em (emit (fst (push sb f)))).
      repeat split; try assumption.
      rewrite I1, app_assoc, S1. now rewrite <- !app_assoc.
Qed.

(** The push that follows pushes without a hit, read against the whole text. *)
Lemma push_after_quiet (stops : list str) (frags : list str) (piece : str) :
  hit_count (StopBuffer_new stops) frags = 0 ->
  let rs := fst (push_all (StopBuffer_new stops) frags) in
  let r := fst (push (snd (push_all (StopBuffer_new stops) frags)) piece) in
  match stop_suffix stops (concat frags ++ piece) with
  | Some s =>
      hit_stop r = true /\ matched r = s
      /\ (concat (map emit rs) ++ emit r) ++ s = concat frags ++ piece
  | None => hit_stop r = false /\ matched r = []
  end.
Proof.
  intro Hc. cbv zeta.
  destruct (@no_hit_state frags (StopBuffer_new stops) [] eq_refl (or_introl eq_refl)
              (stop_suffix_nil stops) Hc) as (I1 & I2 & I3 & I4 & I5).
  cbn [app pending_ StopBuffer_new stops_ max_stop_] in *.
  set (sb := snd (push_all (StopBuffer_new stops) frags)) in *.
  set (em := concat (map emit (fst (push_all (StopBuffer_new stops) frags)))) in *.
  assert (Hle : forall x, In x stops -> length x <= longest stops)
    by (intros x Hx; now apply longest_ge).
  pose proof (@stop_suffix_seen_held _ _ em (pending_ sb) piece Hle I2 I3) as Heq.
  rewrite I1 in Heq. rewrite <- Heq.
  destruct (push_inv sb piece) as [H0 | stop body H0 Hs Hb | out kept H0 Hs Hb Hk Ho];
    rewrite ?I4 in *; simpl.
  - destruct (stop_suffix stops (pending_ sb ++ piece)) eqn:E; [|auto].
    apply stop_suffix_some in E as (Hin & Hne & _).
    rewrite I5 in H0. now apply (longest_zero _ H0) in Hin.
  - rewrite Hs. repeat split. rewrite <- I1, <- !app_assoc. f_equal. now symmetry.
  - rewrite Hs. auto.
Qed.

(** X1: before any hit, whether a push reports a hit depends only on the whole
    text pushed so far, not on how it was cut into fragments: the push hits
    exactly when that text ends with a non-empty configured stop string, and
    it reports the first such stop in configuration order. *)
Theorem matcher_detects_by_text (stops : list str) (frags : list str) (piece : str) :
  hit_count (StopBuffer_new stops) frags = 0 ->
  let r := fst (push (snd (push_all (StopBuffer_new stops) frags)) piece) in
  match stop_suffix stops (concat frags ++ piece) with
  | Some s => hit_stop r = true /\ matched r = s
  | None => hit_stop r = false /\ matched r = []
  end.
Proof.
  intro Hc. cbv zeta. pose proof (@push_after_quiet stops frags piece Hc) as H.
  cbv zeta in H. destruct (stop_suffix stops (concat frags ++ piece)); tauto.
Qed.

Lemma matcher_detects_by_text_witness :
  hit_count (StopBuffer_new [bytes "STOP"]) [bytes "a S"; bytes "T"] = 0
  /\ hit_stop (fst (push (snd (push_all (StopBuffer_new [bytes "STOP"]) [bytes "a S"; bytes "T"]))
                         (bytes "OP"))) = true
  /\ matched (fst (push (snd (push_all (StopBuffer_new [bytes "STOP"]) [bytes "a S"; bytes "T"]))
                        (bytes "OP"))) = bytes "STOP".
Proof.
  split; [reflexivity|].
  exact (@matcher_detects_by_text [bytes "STOP"] [bytes "a S"; bytes "T"] (bytes "OP") eq_refl).
Defined.

(** X2: as long as no push hits, the matcher holds exactly the last [L - 1]
    characters of the text pushed so far (all of it while it is shorter) and
    has returned everything before them, in order; [L] is the longest stop. *)
Theorem matcher_holds_last_chars (stops : list str) (frags : list str) :
  hit_count (StopBuffer_new stops) frags = 0 ->
  let raw := concat frags in
  let held := length raw - (longest stops - 1) in
  concat (map emit (fst (push_all (StopBuffer_new stops) frags))) = firstn held raw
  /\ pending_ (snd (push_all (StopBuffer_new stops) frags)) = skipn held raw.
Proof.
  intro Hc. cbv zeta.
  destruct (@no_hit_state frags (StopBuffer_new stops) [] eq_refl (or_introl eq_refl)
              (stop_suffix_nil stops) Hc) as (I1 & I2 & _ & _ & I5).
  cbn [app pending_ StopBuffer_new stops_ max_stop_] in *.
  set (sb := snd (push_all (StopBuffer_new stops) frags)) in *.
  set (em := concat (map emit (fst (push_all (StopBuffer_new stops) frags)))) in *.
  assert (Hb : length (pending_ sb) <= longest stops - 1).
  { destruct frags as [|f rest] using rev_ind.
    - subst sb. simpl. lia.
    - clear IHrest. destruct (longest stops) as [|L] eqn:HL.
      + (* nothing is ever held *)
        subst sb. clear - HL.
        assert (G : forall fs sb0, max_stop_ sb0 = 0 -> pending_ sb0 = [] ->
                      pending_ (snd (push_all sb0 fs)) = []).
        { induction fs as [|f0 fs IH]; intros sb0 H0 Hp; [exact Hp|].
          rewrite push_all_cons. cbn [snd]. apply IH.
          - now rewrite (proj2 (push_stops sb0 f0)).
          - unfold push. rewrite H0. reflexivity. }
        rewrite G; simpl; auto.
      + subst sb.
        assert (E : snd (push_all (StopBuffer_new stops) (rest ++ [f]))
                    = snd (push (snd (push_all (StopBuffer_new stops) rest)) f)).
        { generalize (StopBuffer_new stops). clear. induction rest as [|a rest IH]; intro sb0.
          - simpl. destruct (push sb0 f); reflexivity.
          - rewrite <- app_comm_cons, !push_all_cons. cbn [snd]. apply IH. }
        rewrite E.
        pose proof (@push_pending_bound (snd (push_all (StopBuffer_new stops) rest)) f) as B.
        rewrite (proj2 (push_all_stops rest (StopBuffer_new stops))) in B.
        simpl in B. rewrite HL in B. apply B. lia. }
  assert (Hlen : length (concat frags) = length em + length (pending_ sb))
    by (rewrite <- I1, length_app; reflexivity).
  assert (Hem : length em = length (concat frags) - (longest stops - 1)).
  { destruct I2 as [E | I2]; [rewrite E in *; simpl in *; lia | lia]. }
  rewrite <- Hem, <- I1. split.
  - rewrite firstn_app, Nat.sub_diag, firstn_all. simpl. now rewrite app_nil_r.
  - rewrite skipn_app, Nat.sub_diag, skipn_all. reflexivity.
Qed.

Lemma matcher_holds_last_chars_witness :
  hit_count (StopBuffer_new [bytes "STOP"]) [bytes "hello"; bytes " wor"] = 0
  /\ concat (map emit (fst (push_all (StopBuffer_new [bytes "STOP"]) [bytes "hello"; bytes " wor"])))
     = bytes "hello "
  /\ pending_ (snd (push_all (StopBuffer_new [bytes "STOP"]) [bytes "hello"; bytes " wor"]))
     = bytes "wor".
Proof.
  split; [reflexivity|].
  exact (@matcher_holds_last_chars [bytes "STOP"] [bytes "hello"; bytes " wor"] eq_refl).
Defined.

(** ** The summary of a run *)

Lemma reason_eqb_eq (a b : StopReason.t) : StopReason.eqb a b = true <-> a = b.
Proof. destruct a, b; simpl; split; intro; congruence. Qed.

Lemma reason_eqb_neq (a b : StopReason.t) : StopReason.eqb a b = false <-> a <> b.
Proof. destruct a, b; simpl; split; intro; congruence. Qed.

Lemma push_hit_matched (sb : StopBuffer) (piece : str) :
  hit_stop (fst (push sb piece)) = true ->
  In (matched (fst (push sb piece))) (stops_ sb)
  /\ matched (fst (push sb piece)) <> []
  /\ pending_ (snd (push sb piece)) = [].
Proof.
  destruct (push_inv sb piece) as [H0 | stop body H0 Hs Hb | out kept H0 Hs Hb Hk Ho];
    simpl; try discriminate.
  intros _. apply stop_suffix_some in Hs as (Hin & Hne & _). auto.
Qed.

(** One iteration: it either goes on, with the reason still unset and one more
    token counted, or leaves the loop with a reason. *)
Lemma decode_step_consistent (e : RunEnv) (req : GenerationRequest)
      (stream : option StreamContext) (t0 : float) (i : nat) (l : LoopState) :
  summary_consistent req l ->
  reason (l_summary l) = StopReason.None ->
  let l' := fst (decode_step e stream t0 i l) in
  let g0 := generation_tokens (s_metrics (l_summary l)) in
  let g1 := generation_tokens (s_metrics (l_summary l')) in
  summary_consistent req l'
  /\ (if snd (decode_step e stream t0 i l)
      then reason (l_summary l') <> StopReason.None /\ (g0 <= g1 <= g0 + 1)%Z
      else reason (l_summary l') = StopReason.None /\ g1 = (g0 + 1)%Z).
Proof.
  intros (Hst & Hmax & Htr & Hseq & Hss) Hr. unfold decode_step, summary_consistent.
  rewrite Hr in *.
  assert (Hs0 : s_stop_sequence (l_summary l) = []) by (apply Hseq; discriminate).
  assert (Ht0 : truncated (s_metrics (l_summary l)) = false).
  { destruct (truncated (s_metrics (l_summary l))); [|reflexivity].
    specialize (Htr eq_refl). discriminate. }
  destruct (abort_requested (steps e i)).
  { simpl. repeat split; auto; try discriminate; try lia. }
  destruct (token_is_eog (steps e i)).
  { simpl. rewrite Ht0. repeat split; auto; try discriminate; try lia. }
  pose proof (push_stops (l_stop_buffer l) (piece_of (steps e i))) as [Hps _].
  pose proof (@push_hit_matched (l_stop_buffer l) (piece_of (steps e i))) as Hhit.
  destruct (push (l_stop_buffer l) (piece_of (steps e i))) as [r sb]. simpl in Hps, Hhit.
  destruct (if negb (empty (emit r)) then _ else _) as [delivered calls].
  destruct delivered; simpl.
  2:{ rewrite Ht0. repeat split; auto; try discriminate; try lia; congruence. }
  destruct (generation_tokens (s_metrics (l_summary l)) =? 0)%Z;
    destruct (decode_status (steps e i) =? 0)%Z; simpl;
    try (repeat split; auto; try discriminate; try lia; congruence);
    destruct (hit_stop r); simpl; rewrite ?Ht0, ?Hr;
    try (repeat split; auto; try discriminate; try lia; congruence);
    destruct (Hhit eq_refl) as (Hin & Hne & Hp); rewrite Hst in Hin;
    repeat split; auto; try discriminate; try lia; try congruence.
Qed.

Lemma decode_loop_consistent (e : RunEnv) (req : GenerationRequest)
      (stream : option StreamContext) (t0 : float) (n : nat) :
  forall i l,
    summary_consistent req l ->
    reason (l_summary l) = StopReason.None ->
    let l' := decode_loop e stream t0 n i l in
    let g0 := generation_tokens (s_metrics (l_summary l)) in
    let g1 := generation_tokens (s_metrics (l_summary l')) in
    summary_consistent req l'
    /\ ((reason (l_summary l') = StopReason.None /\ g1 = (g0 + Z.of_nat n)%Z)
        \/ (reason (l_summary l') <> StopReason.None /\ (g0 <= g1 <= g0 + Z.of_nat n)%Z)).
Proof.
  induction n as [|n IH]; intros i l Hc Hr; cbv zeta.
  - simpl. split; [exact Hc|]. left. split; [exact Hr | lia].
  - cbn [decode_loop].
    pose proof (decode_step_consistent e stream t0 i Hc Hr) as Hs. cbv zeta in Hs.
    destruct (decode_step e stream t0 i l) as [l1 brk]. cbn [fst snd] in Hs.
    destruct Hs as [Hc1 Hb]. destruct brk.
    + split; [exact Hc1|]. right. split; [tauto | lia].
    + destruct Hb as [Hr1 Hg1].
      destruct (IH (S i) l1 Hc1 Hr1) as [Hc2 Hd]. cbv zeta in Hd.
      split; [exact Hc2|]. rewrite Hg1 in Hd.
      destruct Hd as [[A B] | [A B]]; [left | right]; split; auto; lia.
Qed.

(** What [finish] makes of the state the loop leaves. *)
Lemma finish_outcome (e : RunEnv) (req : GenerationRequest) (stream : option StreamContext)
      (g : Globals) (t0 t1 : float) (l : LoopState) :
  let b := finish e req stream g t0 t1 l in
  s_stop_sequence (b_summary b) = s_stop_sequence (l_summary l)
  /\ success (b_summary b) = negb (StopReason.eqb (reason (b_summary b)) StopReason.Error)
  /\ b_return b = success (b_summary b)
  /\ (reason (b_summary b) = settled_reason req l
      \/ (reason (b_summary b) = StopReason.Error /\ pending_ (l_stop_buffer l) <> [])).
Proof.
  unfold finish, flush. cbv zeta. fold (settled_reason req l).
  set (summary := if StopReason.eqb (reason (l_summary l)) StopReason.None then _ else _).
  assert (Hsum : reason summary = settled_reason req l
                 /\ s_stop_sequence summary = s_stop_sequence (l_summary l)).
  { unfold summary, settled_reason.
    destruct (StopReason.eqb (reason (l_summary l)) StopReason.None); auto. }
  destruct Hsum as [Hr Hs]. clearbody summary.
  destruct (empty (pending_ (l_stop_buffer l))) eqn:He; simpl.
  - destruct stream; simpl;
      destruct (StopReason.eqb (reason summary) StopReason.Error) eqn:E; simpl;
      rewrite ?E; simpl; repeat split; rewrite ?E; auto.
  - apply empty_false in He.
    destruct (StopReason.eqb (reason summary) StopReason.Error) eqn:E; simpl.
    + destruct stream; simpl; rewrite ?E; simpl; repeat split; rewrite ?E; auto.
    + destruct (emit_chunk stream (pending_ (l_stop_buffer l)) false (tail_outcome e)
                           (l_calls l)) as [d c].
      destruct d; simpl; rewrite ?E; simpl; destruct stream; simpl;
        repeat split; rewrite ?E; auto.
Qed.

(** A run that gets to the decode loop, with the state the loop starts from. *)
Lemma generate_body_decode (e : RunEnv) (req : GenerationRequest)
      (stream : option StreamContext) (g : Globals) (out : option str) :
  reaches_decode e req g = true ->
  exists n_prompt l0,
    prepare_prompt_tokens e (full_prompt req) = Some n_prompt
    /\ generate_body e req stream g out
       = finish e req stream
                (with_state (ensure_backend_init g)
                            (set_should_abort (g_state (ensure_backend_init g)) false))
                (ms_of_us (t_start_us e)) (ms_of_us (t_decode_start_us e))
                (decode_loop e stream (ms_of_us (t_start_us e))
                             (Z.to_nat (max_tokens req)) 0 l0)
    /\ l_stop_buffer l0 = StopBuffer_new (stops req)
    /\ l_out_text l0 = out /\ l_calls l0 = [] /\ l_abort l0 = false
    /\ reason (l_summary l0) = StopReason.None
    /\ s_stop_sequence (l_summary l0) = []
    /\ truncated (s_metrics (l_summary l0)) = false
    /\ generation_tokens (s_metrics (l_summary l0)) = 0%Z
    /\ prompt_tokens (s_metrics (l_summary l0)) = n_prompt.
Proof.
  unfold reaches_decode, generate_body. rewrite !andb_true_iff.
  intros [[[[[Hc Hm] Hv] Hp] Hf] Hs]. rewrite Hc, Hm, Hv, Hf, Hs. simpl.
  destruct (prepare_prompt_tokens e (full_prompt req)) as [n|]; [|discriminate].
  eexists n, _. split; [reflexivity|]. split; [reflexivity|]. simpl. repeat split.
Qed.

Lemma initial_consistent (req : GenerationRequest) (l0 : LoopState) :
  l_stop_buffer l0 = StopBuffer_new (stops req) ->
  reason (l_summary l0) = StopReason.None ->
  s_stop_sequence (l_summary l0) = [] ->
  truncated (s_metrics (l_summary l0)) = false ->
  summary_consistent req l0.
Proof.
  intros Hb Hr Hs Ht. unfold summary_consistent. cbv zeta. rewrite Hb, Hr, Hs, Ht. simpl.
  repeat split; try discriminate; auto; intro; discriminate.
Qed.

(** Everything the later statements need of the summary of a run. *)
Lemma run_summary_facts (e : RunEnv) (req : GenerationRequest)
      (stream : option StreamContext) (g : Globals) (out : option str) :
  let r := generate_internal e req stream g out in
  let s := r_summary r in
  reason s <> StopReason.None
  /\ r_return r = negb (StopReason.eqb (reason s) StopReason.Error)
  /\ success s = r_return r
  /\ (0 <= generation_tokens (s_metrics s) <= Z.max 0 (max_tokens req))%Z
  /\ (s_stop_sequence s <> [] -> reason s = StopReason.StopSequence)
  /\ (reason s = StopReason.StopSequence ->
      In (s_stop_sequence s) (stops req) /\ s_stop_sequence s <> [])
  /\ (truncated (s_metrics s) = true ->
      reason s = StopReason.MaxTokens \/ reason s = StopReason.Error)
  /\ (reason s = StopReason.MaxTokens ->
      truncated (s_metrics s) = true
      /\ generation_tokens (s_metrics s) = Z.max 0 (max_tokens req)).
Proof.
  cbv zeta. unfold generate_internal. cbn [r_summary r_return].
  destruct (reaches_decode e req g) eqn:Hreach.
  2:{ destruct (generate_body_fails_early e req stream g out Hreach) as [-> ->]. simpl.
      repeat split; try discriminate; try lia; auto; intro H; try discriminate; congruence. }
  destruct (generate_body_decode e req stream g out Hreach)
    as (np & l0 & _ & -> & Hb & _ & _ & _ & Hr0 & Hs0 & Ht0 & Hg0 & _).
  pose proof (initial_consistent req l0 Hb Hr0 Hs0 Ht0) as Hc0.
  destruct (@decode_loop_consistent e req stream (ms_of_us (t_start_us e))
              (Z.to_nat (max_tokens req)) 0 l0 Hc0 Hr0) as [Hc Hd].
  cbv zeta in Hd. rewrite Hg0 in Hd.
  set (l := decode_loop e stream (ms_of_us (t_start_us e)) (Z.to_nat (max_tokens req)) 0 l0) in *.
  set (g1 := with_state _ _).
  destruct (finish_outcome e req stream g1 (ms_of_us (t_start_us e))
              (ms_of_us (t_decode_start_us e)) l) as (F1 & F2 & F3 & F4).
  destruct (finish_summary e req stream g1 (ms_of_us (t_start_us e))
              (ms_of_us (t_decode_start_us e)) l) as (_ & G2 & _ & G4 & _ & _).
  cbv zeta in F1, F2, F3, F4, G2, G4.
  set (b := finish e req stream g1 (ms_of_us (t_start_us e)) (ms_of_us (t_decode_start_us e)) l) in *.
  destruct Hc as (Hst & Hmax & Htr & Hseq & Hss).
  assert (Hn : Z.of_nat (Z.to_nat (max_tokens req)) = Z.max 0 (max_tokens req)) by lia.
  rewrite Hn in Hd.
  assert (Hset : (reason (l_summary l) = StopReason.None
                  /\ settled_reason req l = StopReason.MaxTokens
                  /\ generation_tokens (s_metrics (l_summary l)) = Z.max 0 (max_tokens req))
                 \/ (reason (l_summary l) <> StopReason.None
                     /\ settled_reason req l = reason (l_summary l))).
  { unfold settled_reason. destruct Hd as [[A B] | [A B]].
    - left. rewrite A. simpl. split; [reflexivity|]. split; [|exact B].
      replace (max_tokens req <=? _)%Z with true; [reflexivity|].
      symmetry. apply Z.leb_le. lia.
    - right. split; [exact A|]. apply reason_eqb_neq in A. now rewrite A. }
  rewrite F3, F2, F1, G2, G4.
  assert (Hgen : (0 <= generation_tokens (s_metrics (l_summary l)) <= Z.max 0 (max_tokens req))%Z)
    by (destruct Hd as [[_ B] | [_ B]]; lia).
  split.
  { destruct F4 as [-> | [-> _]]; [|discriminate].
    destruct Hset as [(_ & -> & _) | (A & ->)]; [discriminate | exact A]. }
  split; [reflexivity|]. split; [reflexivity|]. split; [exact Hgen|].
  split.
  { intro Hne. assert (Hrs : reason (l_summary l) = StopReason.StopSequence).
    { destruct (reason (l_summary l)) eqn:E; try reflexivity;
        exfalso; apply Hne, Hseq; discriminate. }
    destruct (Hss Hrs) as (_ & _ & Hp).
    destruct F4 as [-> | [_ Hp']]; [|contradiction].
    destruct Hset as [(A & _) | (_ & ->)]; [congruence | exact Hrs]. }
  split.
  { intro Hf. assert (Hrs : reason (l_summary l) = StopReason.StopSequence).
    { destruct F4 as [F4 | [F4 _]]; [|congruence]. rewrite F4 in Hf.
      destruct Hset as [(_ & A & _) | (_ & A)]; congruence. }
    destruct (Hss Hrs) as (A & B & _). auto. }
  split.
  { intro Ht. apply orb_true_iff in Ht as [Ht | Ht].
    - specialize (Htr Ht). right.
      destruct F4 as [-> | [-> _]]; [|reflexivity].
      destruct Hset as [(A & _) | (_ & ->)]; congruence.
    - apply reason_eqb_eq in Ht. destruct F4 as [-> | [-> _]]; auto. }
  { intro Hf. destruct F4 as [F4 | [F4 _]]; [|congruence]. rewrite F4 in Hf.
    destruct Hset as [(_ & A & B) | (_ & A)].
    - rewrite A. simpl. rewrite orb_true_r. auto.
    - rewrite A in Hf. contradiction. }
Qed.

(** X3: every run ends in a terminal state: its stop reason is one of eos,
    stop_sequence, max_tokens and error, never none; and the run returns true,
    and flags its summary a success, exactly when the reason is not error. *)
Theorem run_ends_in_terminal_state (e : RunEnv) (req : GenerationRequest)
        (stream : option StreamContext) (g : Globals) (out : option str) :
  let r := generate_internal e req stream g out in
  reason (r_summary r) <> StopReason.None
  /\ r_return r = negb (StopReason.eqb (reason (r_summary r)) StopReason.Error)
  /\ success (r_summary r) = r_return r
  /\ stop_reason (g_state (r_globals r)) <> StopReason.None.
Proof.
  cbv zeta. destruct (run_summary_facts e req stream g out) as (A & B & C & _).
  repeat split; assumption.
Qed.

(** X4: a run never generates more tokens than its budget: the count is
    between 0 and [max_tokens] (0 for a negative budget), and through the entry
    point [generate] it is at most [max(1, maxTokens)]. *)
Theorem token_budget_respected (e : RunEnv) (req : GenerationRequest)
        (stream : option StreamContext) (g : Globals) (out : option str)
        (jPrompt jSystem : option str) (temperature topP : float) (topK maxTokens : Z)
        (jStop : option (list (option str))) :
  (0 <= generation_tokens (s_metrics (r_summary (generate_internal e req stream g out)))
   <= Z.max 0 (max_tokens req))%Z
  /\ (0 <= generation_tokens
             (metrics (g_state (snd (generate e g jPrompt jSystem temperature topP topK
                                              maxTokens jStop))))
      <= Z.max 1 maxTokens)%Z.
Proof.
  split.
  - apply run_summary_facts.
  - unfold generate.
    set (req' := build_request jPrompt jSystem temperature topP topK maxTokens jStop).
    destruct (run_summary_facts e req' None g (Some [])) as (_ & _ & _ & H & _).
    destruct (generate_internal_commit e req' None g (Some [])) as (Hm & _).
    cbv zeta in H, Hm.
    assert (Hmax : max_tokens req' = Z.max 1 maxTokens) by reflexivity.
    destruct (negb (r_return (generate_internal e req' None g (Some [])))); cbn [snd];
      rewrite Hm; lia.
Qed.

(** X5: the matched stop text is recorded exactly for the reason
    stop_sequence: it is empty for every other reason, and for stop_sequence
    it is one of the configured stop strings and not empty. *)
Theorem stop_text_iff_stop_sequence (e : RunEnv) (req : GenerationRequest)
        (stream : option StreamContext) (g : Globals) (out : option str) :
  let s := r_summary (generate_internal e req stream g out) in
  (reason s = StopReason.StopSequence <-> s_stop_sequence s <> [])
  /\ (reason s = StopReason.StopSequence -> In (s_stop_sequence s) (stops req)).
Proof.
  cbv zeta. destruct (run_summary_facts e req stream g out) as (_ & _ & _ & _ & A & B & _).
  split; [split|]; intro H; [apply B, H | apply A, H | apply B, H].
Qed.

(** X6: the truncated flag goes with the reasons max_tokens and error only: a
    run that ends with eos or stop_sequence is never flagged truncated, and a
    run that ends with max_tokens always is, with as many tokens generated as
    the budget allows. *)
Theorem truncated_only_on_budget_or_error (e : RunEnv) (req : GenerationRequest)
        (stream : option StreamContext) (g : Globals) (out : option str) :
  let s := r_summary (generate_internal e req stream g out) in
  (truncated (s_metrics s) = true ->
   reason s = StopReason.MaxTokens \/ reason s = StopReason.Error)
  /\ (reason s = StopReason.MaxTokens ->
      truncated (s_metrics s) = true
      /\ generation_tokens (s_metrics s) = Z.max 0 (max_tokens req)).
Proof.
  cbv zeta.
  destruct (run_summary_facts e req stream g out) as (_ & _ & _ & _ & _ & _ & A & B).
  auto.
Qed.

(** ** How a run leaves the decode loop *)

Lemma append_out_app (out : option str) (a b : str) :
  append_out (append_out out a) b = append_out out (a ++ b).
Proof. destruct out; simpl; [now rewrite app_assoc | reflexivity]. Qed.

Lemma append_out_nil (out : option str) : append_out out [] = out.
Proof. destruct out; simpl; [now rewrite app_nil_r | reflexivity]. Qed.

Lemma decode_step_quiet (e : RunEnv) (stream : option StreamContext) (t0 : float)
      (i : nat) (l : LoopState) :
  uneventful stream (steps e i) = true ->
  hit_stop (fst (push (l_stop_buffer l) (piece_of (steps e i)))) = false ->
  let r := fst (push (l_stop_buffer l) (piece_of (steps e i))) in
  let l' := fst (decode_step e stream t0 i l) in
  l_out_text l' = append_out (l_out_text l) (emit r)
  /\ s_stop_sequence (l_summary l') = s_stop_sequence (l_summary l)
  /\ l_abort l' = false
  /\ l_calls l' = calls_after stream (emit r) (l_calls l).
Proof.
  unfold uneventful. rewrite !andb_true_iff, !negb_true_iff.
  intros [[[Ha He] Hd] Hs] Hh. cbv zeta. unfold decode_step. rewrite Ha, He.
  destruct (push (l_stop_buffer l) (piece_of (steps e i))) as [r sb]. cbn [fst] in *.
  assert (Hc : (if negb (empty (emit r))
                then emit_chunk stream (emit r) false (chunk_outcome (steps e i)) (l_calls l)
                else (true, l_calls l))
               = (true, calls_after stream (emit r) (l_calls l))).
  { unfold calls_after, emit_chunk, delivers, valid_stream in *.
    destruct (empty (emit r)) eqn:Hem; simpl.
    - destruct stream as [s|]; [|reflexivity]. now rewrite andb_false_r.
    - destruct stream as [s|]; [|reflexivity].
      destruct (chunk_outcome (steps e i)); try discriminate.
      destruct (live (callback s)), (live (on_token s)); reflexivity. }
  rewrite Hc. cbn [negb]. rewrite Hs, Hh. cbn [negb].
  destruct (empty (emit r)) eqn:Hem; cbn [negb fst];
    destruct (generation_tokens (s_metrics (l_summary l)) =? 0)%Z; simpl;
    repeat split; try reflexivity.
  all: apply empty_true in Hem; rewrite Hem; symmetry; apply append_out_nil.
Qed.

Lemma pieces_S (e : RunEnv) (i n : nat) :
  pieces e i (S n) = piece_of (steps e i) :: pieces e (S i) n.
Proof. reflexivity. Qed.


(** The loop through [k] uneventful iterations without a hit. *)
Lemma decode_loop_prefix (e : RunEnv) (stream : option StreamContext) (t0 : float) (k : nat) :
  forall m i l,
    (forall j, i <= j < i + k -> uneventful stream (steps e j) = true) ->
    hit_count (l_stop_buffer l) (pieces e i k) = 0 ->
    let lk := decode_loop e stream t0 k i l in
    let rs := fst (push_all (l_stop_buffer l) (pieces e i k)) in
    decode_loop e stream t0 (k + m) i l = decode_loop e stream t0 m (i + k) lk
    /\ l_stop_buffer lk = snd (push_all (l_stop_buffer l) (pieces e i k))
    /\ l_out_text lk = append_out (l_out_text l) (concat (map emit rs))
    /\ l_calls lk = calls_after_all stream rs (l_calls l)
    /\ s_stop_sequence (l_summary lk) = s_stop_sequence (l_summary l)
    /\ (k <> 0 -> l_abort lk = false).
Proof.
  induction k as [|k IH]; intros m i l Hq Hh; cbv zeta.
  - simpl. rewrite Nat.add_0_r, append_out_nil. repeat split. congruence.
  - rewrite pieces_S in *. apply hit_count_zero_cons in Hh as [Hh1 Hh2].
    assert (Hi : uneventful stream (steps e i) = true) by (apply Hq; lia).
    destruct (@decode_step_uneventful e stream t0 i l Hi Hh1) as (B & Hsb & _).
    destruct (@decode_step_quiet e stream t0 i l Hi Hh1) as (Q1 & Q2 & Q3 & Q4).
    rewrite push_all_cons. cbn [fst snd map concat calls_after_all].
    cbn [Nat.add decode_loop].
    destruct (decode_step e stream t0 i l) as [l1 brk]. cbn [fst snd] in *. subst brk.
    destruct (IH m (S i) l1) as (I1 & I2 & I3 & I4 & I5 & I6).
    + intros j Hj. apply Hq. lia.
    + rewrite Hsb. exact Hh2.
    + rewrite Hsb in *. replace (i + S k) with (S i + k) by lia.
      repeat split.
      * exact I1.
      * exact I2.
      * rewrite I3, Q1. apply append_out_app.
      * rewrite I4, Q4. reflexivity.
      * congruence.
      * intros _. destruct k; [exact Q3 | apply I6; discriminate].
Qed.

(** The text [finish] leaves in the accumulation buffer. *)
Lemma finish_out_text (e : RunEnv) (req : GenerationRequest) (stream : option StreamContext)
      (g : Globals) (t0 t1 : float) (l : LoopState) :
  let b := finish e req stream g t0 t1 l in
  (settled_reason req l = StopReason.Error -> b_out_text b = l_out_text l)
  /\ (settled_reason req l <> StopReason.Error ->
      delivers stream (tail_outcome e) = true ->
      b_out_text b = append_out (l_out_text l) (pending_ (l_stop_buffer l))).
Proof.
  unfold finish, flush. cbv zeta. fold (settled_reason req l).
  set (summary := if StopReason.eqb (reason (l_summary l)) StopReason.None then _ else _).
  assert (Hr : reason summary = settled_reason req l).
  { unfold summary, settled_reason.
    destruct (StopReason.eqb (reason (l_summary l)) StopReason.None); auto. }
  clearbody summary. rewrite <- Hr.
  destruct (StopReason.eqb (reason summary) StopReason.Error) eqn:E.
  - split; [intros _ | intro Hs; apply reason_eqb_neq in Hs; congruence].
    destruct (empty (pending_ (l_stop_buffer l))); simpl; rewrite ?E; simpl;
      destruct stream; simpl; rewrite ?E; reflexivity.
  - split; [intro Hs; apply reason_eqb_eq in Hs; congruence | intros _ Hd].
    destruct (empty (pending_ (l_stop_buffer l))) eqn:He; simpl; rewrite ?E; simpl.
    + apply empty_true in He. rewrite He, append_out_nil.
      destruct stream; simpl; rewrite ?E; reflexivity.
    + pose proof (@emit_chunk_delivers stream (pending_ (l_stop_buffer l)) false
                    (tail_outcome e) (l_calls l) Hd) as Hok.
      destruct (emit_chunk stream (pending_ (l_stop_buffer l)) false (tail_outcome e)
                           (l_calls l)) as [d c]. cbn [fst] in Hok. subst d. simpl.
      rewrite ?E. destruct stream; simpl; rewrite ?E; reflexivity.
Qed.

(** The loop when its iteration [k] leaves it after [k] quiet ones. *)
Lemma decode_loop_leaves_at (e : RunEnv) (stream : option StreamContext) (t0 : float)
      (n k : nat) (l : LoopState) :
  k < n ->
  (forall j, j < k -> uneventful stream (steps e j) = true) ->
  hit_count (l_stop_buffer l) (pieces e 0 k) = 0 ->
  snd (decode_step e stream t0 k (decode_loop e stream t0 k 0 l)) = true ->
  decode_loop e stream t0 n 0 l
  = fst (decode_step e stream t0 k (decode_loop e stream t0 k 0 l)).
Proof.
  intros Hk Hq Hh Hb.
  destruct (@decode_loop_prefix e stream t0 k (n - k) 0 l) as (P & _).
  { intros j Hj. apply Hq. lia. }
  { exact Hh. }
  replace (k + (n - k)) with n in P by lia. rewrite P.
  destruct (n - k) as [|m] eqn:E; [lia|]. cbn [decode_loop Nat.add].
  destruct (decode_step e stream t0 k (decode_loop e stream t0 k 0 l)) as [l1 brk].
  cbn [fst snd] in *. now subst brk.
Qed.

(** The state of a run after [k] quiet iterations. *)
Lemma run_after_quiet_prefix (e : RunEnv) (req : GenerationRequest)
      (stream : option StreamContext) (t0 : float) (k : nat) (l0 : LoopState) :
  quiet_prefix e req stream k ->
  l_stop_buffer l0 = StopBuffer_new (stops req) ->
  let lk := decode_loop e stream t0 k 0 l0 in
  let rs := fst (push_all (StopBuffer_new (stops req)) (pieces e 0 k)) in
  l_stop_buffer lk = snd (push_all (StopBuffer_new (stops req)) (pieces e 0 k))
  /\ l_out_text lk = append_out (l_out_text l0) (concat (map emit rs))
  /\ l_calls lk = calls_after_all stream rs (l_calls l0)
  /\ reason (l_summary lk) = reason (l_summary l0)
  /\ truncated (s_metrics (l_summary lk)) = truncated (s_metrics (l_summary l0))
  /\ generation_tokens (s_metrics (l_summary lk))
     = (generation_tokens (s_metrics (l_summary l0)) + Z.of_nat k)%Z
  /\ s_stop_sequence (l_summary lk) = s_stop_sequence (l_summary l0)
  /\ concat (map emit rs) ++ pending_ (l_stop_buffer lk) = concat (pieces e 0 k).
Proof.
  intros [Hq Hh] Hb. cbv zeta.
  destruct (@decode_loop_prefix e stream t0 k 0 0 l0) as (_ & P2 & P3 & P4 & P5 & _).
  { intros j Hj. apply Hq. lia. }
  { rewrite Hb. exact Hh. }
  destruct (@decode_loop_uneventful e stream t0 k 0 l0) as (U1 & U2 & U3).
  { intros j Hj. apply Hq. lia. }
  { rewrite Hb. exact Hh. }
  rewrite Hb in *. repeat split; try assumption.
  rewrite P2. pose proof (emitted_no_hit (pieces e 0 k) (StopBuffer_new (stops req)) Hh) as E.
  unfold emitted in E. destruct (push_all (StopBuffer_new (stops req)) (pieces e 0 k)).
  exact E.
Qed.

(** X7: a run whose first [k] iterations are uneventful and hit no stop, and
    whose next sampled token ends the generation, stops with reason eos and
    succeeds (the held-back tail being delivered): it counts [k] generated
    tokens, is not truncated, and its text is every fragment generated before
    the end token, the part the matcher still held included. *)
Theorem eos_accounting (e : RunEnv) (req : GenerationRequest)
        (stream : option StreamContext) (g : Globals) (out : option str) (k : nat) :
  reaches_decode e req g = true ->
  quiet_prefix e req stream k ->
  k < Z.to_nat (max_tokens req) ->
  abort_requested (steps e k) = false ->
  token_is_eog (steps e k) = true ->
  delivers stream (tail_outcome e) = true ->
  let r := generate_internal e req stream g out in
  reason (r_summary r) = StopReason.Eos
  /\ r_return r = true
  /\ generation_tokens (s_metrics (r_summary r)) = Z.of_nat k
  /\ truncated (s_metrics (r_summary r)) = false
  /\ r_out_text r = append_out out (concat (pieces e 0 k)).
Proof.
  intros Hreach Hq Hk Ha He Hd. cbv zeta. unfold generate_internal.
  cbn [r_summary r_return r_out_text].
  destruct (generate_body_decode e req stream g out Hreach)
    as (np & l0 & _ & -> & Hb & Hout & _ & _ & Hr0 & _ & Ht0 & Hg0 & _).
  set (t0 := ms_of_us (t_start_us e)).
  destruct (@run_after_quiet_prefix e req stream t0 k l0 Hq Hb)
    as (K1 & K2 & _ & K4 & K5 & K6 & _ & K8).
  set (lk := decode_loop e stream t0 k 0 l0) in *.
  assert (Hstep : decode_step e stream t0 k lk
                  = ({| l_summary := set_reason (l_summary lk) StopReason.Eos;
                        l_stop_buffer := l_stop_buffer lk; l_out_text := l_out_text lk;
                        l_calls := l_calls lk; l_abort := false |}, true)).
  { unfold decode_step. rewrite Ha, He. reflexivity. }
  rewrite (@decode_loop_leaves_at e stream t0 (Z.to_nat (max_tokens req)) k l0 Hk
             (proj1 Hq)); [| rewrite Hb; exact (proj2 Hq) | fold lk; now rewrite Hstep].
  fold lk. rewrite Hstep. cbn [fst].
  set (l1 := {| l_summary := set_reason (l_summary lk) StopReason.Eos;
                l_stop_buffer := l_stop_buffer lk; l_out_text := l_out_text lk;
                l_calls := l_calls lk; l_abort := false |}).
  set (g1 := with_state _ _).
  assert (Hs : settled_reason req l1 = StopReason.Eos) by reflexivity.
  destruct (finish_summary e req stream g1 t0 (ms_of_us (t_decode_start_us e)) l1)
    as (_ & F2 & _ & F4 & F5 & _).
  destruct (finish_outcome e req stream g1 t0 (ms_of_us (t_decode_start_us e)) l1)
    as (_ & O2 & O3 & _).
  destruct (finish_out_text e req stream g1 t0 (ms_of_us (t_decode_start_us e)) l1)
    as (_ & T2).
  cbv zeta in *. rewrite O3, O2, (F5 Hd), F2, F4, Hs, T2; [| rewrite Hs; discriminate | exact Hd].
  subst l1. cbn [l_summary set_reason s_metrics l_out_text l_stop_buffer].
  rewrite K5, K6, Ht0, Hg0, K2, Hout, append_out_app, K8.
  repeat split.
Qed.

Lemma eos_accounting_witness :
  let r := generate_internal (event_run 2 eos_step) (sample_request 8 [bytes "STOP"])
                             None loaded_session (Some []) in
  reason (r_summary r) = StopReason.Eos
  /\ r_return r = true
  /\ generation_tokens (s_metrics (r_summary r)) = 2%Z
  /\ truncated (s_metrics (r_summary r)) = false
  /\ r_out_text r = Some (bytes "aa").
Proof.
  cbv zeta.
  refine (@eos_accounting (event_run 2 eos_step) (sample_request 8 [bytes "STOP"]) None
            loaded_session (Some []) 2 eq_refl _ _ eq_refl eq_refl eq_refl).
  - split; [|reflexivity]. intros i Hi.
    destruct i as [|[|i]]; [reflexivity | reflexivity | lia].
  - vm_compute. lia.
Defined.



(** X9: a run that sees the cancellation flag set at the top of iteration [k],
    after [k] uneventful iterations without a hit, stops with reason error and
    returns false: it is flagged truncated, counts the [k] tokens generated
    before, and leaves the flag set in the session. *)
Theorem abort_accounting (e : RunEnv) (req : GenerationRequest)
        (stream : option StreamContext) (g : Globals) (out : option str) (k : nat) :
  reaches_decode e req g = true ->
  quiet_prefix e req stream k ->
  k < Z.to_nat (max_tokens req) ->
  abort_requested (steps e k) = true ->
  let r := generate_internal e req stream g out in
  reason (r_summary r) = StopReason.Error
  /\ r_return r = false
  /\ truncated (s_metrics (r_summary r)) = true
  /\ generation_tokens (s_metrics (r_summary r)) = Z.of_nat k
  /\ should_abort (g_state (r_globals r)) = true.
Proof.
  intros Hreach Hq Hk Ha. cbv zeta. unfold generate_internal.
  cbn [r_summary r_return r_globals].
  destruct (generate_body_decode e req stream g out Hreach)
    as (np & l0 & _ & -> & Hb & Hout & _ & _ & Hr0 & _ & Ht0 & Hg0 & _).
  set (t0 := ms_of_us (t_start_us e)).
  destruct (@run_after_quiet_prefix e req stream t0 k l0 Hq Hb)
    as (_ & _ & _ & _ & _ & K6 & _ & _).
  set (lk := decode_loop e stream t0 k 0 l0) in *.
  assert (Hstep : decode_step e stream t0 k lk
                  = ({| l_summary :=
                          set_metrics (set_reason (l_summary lk) StopReason.Error)
                            (set_truncated (s_metrics (set_reason (l_summary lk)
                                                                   StopReason.Error)) true);
                        l_stop_buffer := l_stop_buffer lk; l_out_text := l_out_text lk;
                        l_calls := l_calls lk; l_abort := true |}, true)).
  { unfold decode_step. rewrite Ha. reflexivity. }
  rewrite (@decode_loop_leaves_at e stream t0 (Z.to_nat (max_tokens req)) k l0 Hk
             (proj1 Hq)); [| rewrite Hb; exact (proj2 Hq) | fold lk; now rewrite Hstep].
  fold lk. rewrite Hstep. cbn [fst].
  set (l1 := {| l_summary := _; l_stop_buffer := l_stop_buffer lk; l_out_text := l_out_text lk;
                l_calls := l_calls lk; l_abort := true |}).
  set (g1 := with_state _ _).
  assert (Hs : settled_reason req l1 = StopReason.Error) by reflexivity.
  destruct (finish_summary e req stream g1 t0 (ms_of_us (t_decode_start_us e)) l1)
    as (_ & F2 & _ & F4 & _ & F6).
  destruct (finish_outcome e req stream g1 t0 (ms_of_us (t_decode_start_us e)) l1)
    as (_ & O2 & O3 & O4).
  cbv zeta in *.
  assert (Hfin : reason (b_summary (finish e req stream g1 t0
                                           (ms_of_us (t_decode_start_us e)) l1))
                 = StopReason.Error) by (destruct O4 as [-> | [-> _]]; auto).
  rewrite O3, O2, Hfin, F2, F4, F6. subst l1. cbn.
  rewrite K6, Hg0. repeat split.
Qed.

Lemma abort_accounting_witness :
  let r := generate_internal (event_run 2 abort_step) (sample_request 8 [bytes "STOP"])
                             None loaded_session (Some []) in
  reason (r_summary r) = StopReason.Error
  /\ r_return r = false
  /\ truncated (s_metrics (r_summary r)) = true
  /\ generation_tokens (s_metrics (r_summary r)) = 2%Z
  /\ should_abort (g_state (r_globals r)) = true.
Proof.
  cbv zeta.
  refine (@abort_accounting (event_run 2 abort_step) (sample_request 8 [bytes "STOP"]) None
            loaded_session (Some []) 2 eq_refl _ _ eq_refl).
  - split; [|reflexivity]. intros i Hi.
    destruct i as [|[|i]]; [reflexivity | reflexivity | lia].
  - vm_compute. lia.
Defined.

(** X10: when the decode of the token sampled in iteration [k] fails, after
    [k] uneventful iterations without a hit, the run stops with reason error,
    returns false and is flagged truncated; the token whose decode failed is
    counted, so the count is [k + 1]. *)
Theorem decode_failure_accounting (e : RunEnv) (req : GenerationRequest)
        (stream : option StreamContext) (g : Globals) (out : option str) (k : nat) :
  reaches_decode e req g = true ->
  quiet_prefix e req stream k ->
  k < Z.to_nat (max_tokens req) ->
  abort_requested (steps e k) = false ->
  token_is_eog (steps e k) = false ->
  delivers stream (chunk_outcome (steps e k)) = true ->
  decode_status (steps e k) <> 0%Z ->
  let r := generate_internal e req stream g out in
  reason (r_summary r) = StopReason.Error
  /\ r_return r = false
  /\ truncated (s_metrics (r_summary r)) = true
  /\ generation_tokens (s_metrics (r_summary r)) = Z.of_nat (S k).
Proof.
  intros Hreach Hq Hk Ha He Hd Hdec. cbv zeta. unfold generate_internal.
  cbn [r_summary r_return].
  destruct (generate_body_decode e req stream g out Hreach)
    as (np & l0 & _ & -> & Hb & Hout & _ & _ & Hr0 & _ & Ht0 & Hg0 & _).
  set (t0 := ms_of_us (t_start_us e)).
  destruct (@run_after_quiet_prefix e req stream t0 k l0 Hq Hb)
    as (_ & _ & _ & _ & _ & K6 & _ & _).
  set (lk := decode_loop e stream t0 k 0 l0) in *.
  assert (Hstep : snd (decode_step e stream t0 k lk) = true
                  /\ let l1 := fst (decode_step e stream t0 k lk) in
                     reason (l_summary l1) = StopReason.Error
                     /\ truncated (s_metrics (l_summary l1)) = true
                     /\ generation_tokens (s_metrics (l_summary l1))
                        = (generation_tokens (s_metrics (l_summary lk)) + 1)%Z).
  { unfold decode_step. rewrite Ha, He. apply Z.eqb_neq in Hdec.
    destruct (push (l_stop_buffer lk) (piece_of (steps e k))) as [r sb].
    pose proof (@emit_chunk_delivers stream (emit r) false (chunk_outcome (steps e k))
                  (l_calls lk) Hd) as Hok.
    destruct (empty (emit r)); cbn [negb].
    - rewrite Hdec. cbn [negb].
      destruct (generation_tokens (s_metrics (l_summary lk)) =? 0)%Z; simpl; auto.
    - destruct (emit_chunk stream (emit r) false (chunk_outcome (steps e k)) (l_calls lk))
        as [d c]. cbn [fst] in Hok. subst d. cbn [negb]. rewrite Hdec. cbn [negb].
      destruct (generation_tokens (s_metrics (l_summary lk)) =? 0)%Z; simpl; auto. }
  destruct Hstep as (Hbrk & S1 & S2 & S3). cbv zeta in *.
  rewrite (@decode_loop_leaves_at e stream t0 (Z.to_nat (max_tokens req)) k l0 Hk
             (proj1 Hq)); [| rewrite Hb; exact (proj2 Hq) | exact Hbrk].
  fold lk. set (l1 := fst (decode_step e stream t0 k lk)) in *.
  set (g1 := with_state _ _).
  assert (Hs : settled_reason req l1 = StopReason.Error)
    by (unfold settled_reason; rewrite S1; reflexivity).
  destruct (finish_summary e req stream g1 t0 (ms_of_us (t_decode_start_us e)) l1)
    as (_ & F2 & _ & F4 & _ & _).
  destruct (finish_outcome e req stream g1 t0 (ms_of_us (t_decode_start_us e)) l1)
    as (_ & O2 & O3 & O4).
  cbv zeta in *.
  assert (Hfin : reason (b_summary (finish e req stream g1 t0
                                           (ms_of_us (t_decode_start_us e)) l1))
                 = StopReason.Error) by (destruct O4 as [-> | [-> _]]; auto).
  rewrite O3, O2, Hfin, F2, F4, S2, S3, K6, Hg0. repeat split. lia.
Qed.

Lemma decode_failure_accounting_witness :
  let r := generate_internal (event_run 2 decode_failure_step)
                             (sample_request 8 [bytes "STOP"]) None loaded_session (Some []) in
  reason (r_summary r) = StopReason.Error
  /\ r_return r = false
  /\ truncated (s_metrics (r_summary r)) = true
  /\ generation_tokens (s_metrics (r_summary r)) = 3%Z.
Proof.
  cbv zeta.
  refine (@decode_failure_accounting (event_run 2 decode_failure_step)
            (sample_request 8 [bytes "STOP"]) None loaded_session (Some []) 2
            eq_refl _ _ eq_refl eq_refl eq_refl _).
  - split; [|reflexivity]. intros i Hi.
    destruct i as [|[|i]]; [reflexivity | reflexivity | lia].
  - vm_compute. lia.
  - discriminate.
Defined.

(** X11: reaching the token budget loses no text: when all [maxTokens]
    iterations are uneventful and none hits a stop, and the tail is delivered,
    the text of the run is the concatenation of every generated fragment, the
    characters the matcher was still holding back included. *)
Theorem budget_exhaustion_keeps_text (e : RunEnv) (req : GenerationRequest)
        (stream : option StreamContext) (g : Globals) (out : option str) :
  reaches_decode e req g = true ->
  quiet_prefix e req stream (Z.to_nat (max_tokens req)) ->
  delivers stream (tail_outcome e) = true ->
  r_out_text (generate_internal e req stream g out)
  = append_out out (concat (pieces e 0 (Z.to_nat (max_tokens req)))).
Proof.
  intros Hreach Hq Hd. unfold generate_internal. cbn [r_out_text].
  destruct (generate_body_decode e req stream g out Hreach)
    as (np & l0 & _ & -> & Hb & Hout & _ & _ & Hr0 & _ & Ht0 & Hg0 & _).
  set (t0 := ms_of_us (t_start_us e)).
  destruct (@run_after_quiet_prefix e req stream t0 _ l0 Hq Hb)
    as (_ & K2 & _ & K4 & _ & K6 & _ & K8).
  set (l := decode_loop e stream t0 (Z.to_nat (max_tokens req)) 0 l0) in *.
  set (g1 := with_state _ _).
  assert (Hs : settled_reason req l = StopReason.MaxTokens).
  { unfold settled_reason. rewrite K4, Hr0. simpl.
    replace (max_tokens req <=? _)%Z with true; [reflexivity|].
    symmetry. apply Z.leb_le. rewrite K6, Hg0. lia. }
  destruct (finish_out_text e req stream g1 t0 (ms_of_us (t_decode_start_us e)) l)
    as (_ & T2).
  cbv zeta in T2. rewrite T2; [| rewrite Hs; discriminate | exact Hd].
  now rewrite K2, Hout, append_out_app, K8.
Qed.

Lemma budget_exhaustion_keeps_text_witness :
  r_out_text (generate_internal (quiet_run 3 Delivered) (sample_request 5 [bytes "STOP"])
                                None loaded_session (Some []))
  = append_out (Some []) (concat (pieces (quiet_run 3 Delivered) 0 5)).
Proof.
  refine (@budget_exhaustion_keeps_text (quiet_run 3 Delivered)
            (sample_request 5 [bytes "STOP"]) None loaded_session (Some [])
            eq_refl _ eq_refl).
  split; [|reflexivity]. intros i _. reflexivity.
Defined.

(** ** Batch and streaming runs *)

Lemma emit_chunk_taken (s : StreamContext) (text : str) (done : bool) (calls : list Call) :
  valid_stream s = true -> (done = true \/ text <> []) ->
  emit_chunk (Some s) text done Delivered calls = (true, calls ++ [(c_str text, done)]).
Proof.
  unfold valid_stream, emit_chunk. intros H Hd. apply andb_true_iff in H as [-> ->].
  cbn [negb orb]. destruct Hd as [-> | Hne]; [reflexivity|].
  apply empty_false in Hne. rewrite Hne. now rewrite andb_false_r.
Qed.

Lemma chunks_snoc (chunks : list str) (out : option str) (calls : list Call) (text : str) :
  out = Some (concat chunks) -> calls = map chunk_call chunks ->
  append_out out text = Some (concat (chunks ++ [text]))
  /\ calls ++ [(c_str text, false)] = map chunk_call (chunks ++ [text]).
Proof.
  intros -> ->. rewrite concat_app, map_app. simpl. now rewrite app_nil_r.
Qed.

Lemma decode_step_batch_stream (e : RunEnv) (s : StreamContext) (t0 : float) (i : nat)
      (l1 l2 : LoopState) :
  valid_stream s = true ->
  chunk_outcome (steps e i) = Delivered ->
  same_progress l1 l2 ->
  snd (decode_step e None t0 i l1) = snd (decode_step e (Some s) t0 i l2)
  /\ same_progress (fst (decode_step e None t0 i l1)) (fst (decode_step e (Some s) t0 i l2)).
Proof.
  intros Hv Ho (Hs & Hb & Ha & chunks & Ht & Hc). unfold decode_step, same_progress.
  rewrite Ho, <- Hs, <- Hb.
  destruct (abort_requested (steps e i)); [simpl; repeat split; eauto|].
  destruct (token_is_eog (steps e i)); [simpl; repeat split; eauto|].
  destruct (push (l_stop_buffer l1) (piece_of (steps e i))) as [r sb].
  destruct (empty (emit r)) eqn:He; cbn [negb].
  - destruct (generation_tokens (s_metrics (l_summary l1)) =? 0)%Z;
      destruct (decode_status (steps e i) =? 0)%Z; cbn [negb];
      destruct (hit_stop r); simpl; repeat split; eauto.
  - apply empty_false in He.
    rewrite (@emit_chunk_taken s (emit r) false (l_calls l2) Hv (or_intror He)).
    cbn [negb].
    destruct (chunks_snoc chunks (emit r) Ht Hc) as [Hout Hcalls].
    destruct (generation_tokens (s_metrics (l_summary l1)) =? 0)%Z;
      destruct (decode_status (steps e i) =? 0)%Z; cbn [negb];
      destruct (hit_stop r); simpl; repeat split; eauto.
Qed.

Lemma decode_loop_batch_stream (e : RunEnv) (s : StreamContext) (t0 : float) (n : nat) :
  valid_stream s = true ->
  (forall i, chunk_outcome (steps e i) = Delivered) ->
  forall i l1 l2,
    same_progress l1 l2 ->
    same_progress (decode_loop e None t0 n i l1) (decode_loop e (Some s) t0 n i l2).
Proof.
  intros Hv Ho. induction n as [|n IH]; intros i l1 l2 H; [exact H|].
  cbn [decode_loop].
  destruct (@decode_step_batch_stream e s t0 i l1 l2 Hv (Ho i) H) as [Hb Hp].
  destruct (decode_step e None t0 i l1) as [l1' b1].
  destruct (decode_step e (Some s) t0 i l2) as [l2' b2]. cbn [fst snd] in *. subst b2.
  destruct b1; [exact Hp | now apply IH].
Qed.

Lemma finish_batch_stream (e : RunEnv) (req : GenerationRequest) (s : StreamContext)
      (g : Globals) (t0 t1 : float) (l1 l2 : LoopState) :
  valid_stream s = true ->
  tail_outcome e = Delivered -> done_outcome e = Delivered ->
  same_progress l1 l2 ->
  let b1 := finish e req None g t0 t1 l1 in
  let b2 := finish e req (Some s) g t0 t1 l2 in
  b_summary b1 = b_summary b2 /\ b_globals b1 = b_globals b2 /\ b_return b1 = b_return b2
  /\ exists chunks,
       b_out_text b1 = Some (concat chunks)
       /\ b_calls b2
          = if b_dismissed b2 then map chunk_call chunks ++ [done_call]
            else map chunk_call chunks.
Proof.
  intros Hv Hto Hdo (Hs & Hb & Ha & chunks & Ht & Hcl). unfold finish, flush. cbv zeta.
  rewrite Hto, Hdo, <- Hs, <- Hb, <- Ha.
  set (summary := if StopReason.eqb (reason (l_summary l1)) StopReason.None then _ else _).
  set (m := {| prompt_tokens := _ |}).
  destruct (negb (empty (pending_ (l_stop_buffer l1)))
            && negb (StopReason.eqb (reason (set_metrics summary m)) StopReason.Error)) eqn:Hc.
  - apply andb_true_iff in Hc as [Hne Herr]. apply negb_true_iff, empty_false in Hne.
    rewrite (@emit_chunk_taken s _ false (l_calls l2) Hv (or_intror Hne)).
    cbn [negb fst snd]. cbn [reason set_metrics] in Herr |- *. rewrite Herr.
    rewrite (@emit_chunk_taken s [] true _ Hv (or_introl eq_refl)).
    destruct (chunks_snoc chunks (pending_ (l_stop_buffer l1)) Ht Hcl) as [Hout Hcalls].
    rewrite Hout, Hcalls. cbn -[concat map app]. rewrite ?Herr.
    repeat split; try reflexivity. eexists. split; reflexivity.
  - cbn [reason set_metrics].
    destruct (negb (StopReason.eqb (reason summary) StopReason.Error)) eqn:Herr.
    + rewrite (@emit_chunk_taken s [] true _ Hv (or_introl eq_refl)).
      rewrite Ht, Hcl. cbn -[concat map app]. rewrite ?Herr.
      repeat split; try reflexivity. eexists. split; reflexivity.
    + rewrite Ht, Hcl. cbn -[concat map app]. rewrite ?Herr.
      repeat split; try reflexivity. eexists. split; reflexivity.
Qed.

Lemma generate_internal_batch_stream (e : RunEnv) (req : GenerationRequest)
      (s : StreamContext) (g : Globals) :
  valid_stream s = true -> all_delivered e ->
  let rb := generate_internal e req None g (Some []) in
  let rs := generate_internal e req (Some s) g None in
  r_summary rb = r_summary rs /\ r_globals rb = r_globals rs /\ r_return rb = r_return rs
  /\ exists chunks,
       r_out_text rb = Some (concat chunks)
       /\ r_calls rs = map chunk_call chunks ++ [done_call].
Proof.
  intros Hv (Hc & Ht & Hd). cbv zeta.
  assert (Hb : let b1 := generate_body e req None g (Some []) in
               let b2 := generate_body e req (Some s) g None in
               b_summary b1 = b_summary b2 /\ b_globals b1 = b_globals b2
               /\ b_return b1 = b_return b2
               /\ exists chunks,
                    b_out_text b1 = Some (concat chunks)
                    /\ b_calls b2
                       = if b_dismissed b2 then map chunk_call chunks ++ [done_call]
                         else map chunk_call chunks).
  { cbv zeta. unfold generate_body.
    destruct (negb (live (ctx (g_state g))) || negb (live (model (g_state g))));
      [simpl; repeat split; exists []; split; reflexivity|]. cbv zeta.
    destruct (negb (vocab_available e));
      [simpl; repeat split; exists []; split; reflexivity|].
    destruct (prepare_prompt_tokens e (full_prompt req));
      [|simpl; repeat split; exists []; split; reflexivity].
    destruct (negb (prefill_status e =? 0)%Z);
      [simpl; repeat split; exists []; split; reflexivity|].
    destruct (negb (sampler_available e));
      [simpl; repeat split; exists []; split; reflexivity|].
    apply finish_batch_stream; try assumption.
    apply decode_loop_batch_stream; try assumption.
    repeat split. exists []. split; reflexivity. }
  cbv zeta in Hb. destruct Hb as (B1 & B2 & B3 & chunks & B4 & B5).
  unfold generate_internal. cbn [r_summary r_globals r_return r_out_text r_calls].
  rewrite B1, B2, B3, B4, B5. repeat split. exists chunks. split; [reflexivity|].
  destruct (b_dismissed (generate_body e req (Some s) g None)); [reflexivity|].
  rewrite Hd, (@emit_chunk_taken s [] true _ Hv (or_introl eq_refl)). reflexivity.
Qed.

(** The text a run accumulates has no zero byte when the tokens have none. *)
Lemma finish_out_zero_free (e : RunEnv) (req : GenerationRequest)
      (stream : option StreamContext) (g : Globals) (t0 t1 : float) (l : LoopState) :
  zero_free (pending_ (l_stop_buffer l)) = true ->
  zero_free_out (l_out_text l) = true ->
  zero_free_out (b_out_text (finish e req stream g t0 t1 l)) = true.
Proof.
  intros Hp Ho. unfold finish, flush. cbv zeta.
  set (summary := if StopReason.eqb (reason (l_summary l)) StopReason.None then _ else _).
  set (m := {| prompt_tokens := _ |}).
  pose proof (@append_out_zero_free _ _ Ho Hp) as Ha.
  destruct (negb (empty (pending_ (l_stop_buffer l)))
            && negb (StopReason.eqb (reason (set_metrics summary m)) StopReason.Error)).
  - destruct (emit_chunk stream (pending_ (l_stop_buffer l)) false (tail_outcome e)
                         (l_calls l)) as [d c].
    destruct d; cbn [negb reason set_reason set_metrics];
      destruct stream;
      try destruct (negb (StopReason.eqb (reason summary) StopReason.Error));
      cbn [b_out_text negb StopReason.eqb]; assumption.
  - cbn [reason set_metrics]. destruct stream;
      try destruct (negb (StopReason.eqb (reason summary) StopReason.Error));
      cbn [b_out_text]; assumption.
Qed.

Lemma generate_internal_out_zero_free (e : RunEnv) (req : GenerationRequest)
      (stream : option StreamContext) (g : Globals) (out : option str) :
  zero_free_pieces e -> zero_free_out out = true ->
  zero_free_out (r_out_text (generate_internal e req stream g out)) = true.
Proof.
  intros Hz Ho. unfold generate_internal. cbn [r_out_text]. unfold generate_body.
  destruct (negb (live (ctx (g_state g))) || negb (live (model (g_state g))));
    [exact Ho|]. cbv zeta.
  destruct (negb (vocab_available e)); [exact Ho|].
  destruct (prepare_prompt_tokens e (full_prompt req)); [|exact Ho].
  destruct (negb (prefill_status e =? 0)%Z); [exact Ho|].
  destruct (negb (sampler_available e)); [exact Ho|].
  match goal with
  | |- context [decode_loop e stream ?t0 ?n 0 ?l0] =>
      destruct (@decode_loop_plain e stream t0 n Hz 0 l0 eq_refl) as (P1 & _ & P3)
  end.
  apply finish_out_zero_free; [exact P1 | apply P3; exact Ho].
Qed.

(** ** C strings of chunks *)

Lemma c_str_app (a b : str) :
  c_str (a ++ b) = if zero_free a then a ++ c_str b else c_str a.
Proof.
  induction a as [|c a IH]; simpl; [reflexivity|].
  destruct (Ascii.eqb c "000"); simpl; [reflexivity|].
  rewrite IH. destruct (zero_free a); reflexivity.
Qed.

(** A text cut at its first zero byte is the beginning of its chunks each cut
    at theirs. *)
Lemma c_str_concat_prefix (chunks : list str) :
  exists rest, concat (map c_str chunks) = c_str (concat chunks) ++ rest.
Proof.
  induction chunks as [|ch chunks [rest IH]]; simpl; [now exists []|].
  rewrite c_str_app. destruct (zero_free ch) eqn:E.
  - exists rest. now rewrite (c_str_zero_free _ E), IH, app_assoc.
  - now exists (concat (map c_str chunks)).
Qed.

Lemma map_c_str_zero_free (chunks : list str) :
  zero_free (concat chunks) = true -> map c_str chunks = chunks.
Proof.
  induction chunks as [|ch chunks IH]; simpl; [reflexivity|].
  rewrite zero_free_app. intro H. apply andb_true_iff in H as [H1 H2].
  now rewrite (c_str_zero_free _ H1), IH.
Qed.

Lemma streamed_text_chunks (chunks : list str) :
  streamed_text (map chunk_call chunks ++ [done_call]) = concat (map c_str chunks).
Proof.
  unfold streamed_text. rewrite map_app, concat_app, map_map. simpl.
  now rewrite app_nil_r.
Qed.

(** X12: when the sink takes every chunk, [generate] and [generateStream]
    called with the same arguments in the same circumstances leave the same
    session behind and go through the same chunks of text. The callback of
    [generateStream] receives each chunk as a C string, and [generate] returns
    the concatenation of the chunks as one C string, so what [generate]
    returns is the beginning of the concatenation of what the callback
    receives; it is all of it when no token of the run has a zero byte in its
    text. A run that ends in error makes [generate] return the empty string
    whatever was streamed. *)
Theorem batch_is_concatenated_stream (e : RunEnv) (g : Globals)
        (jPrompt jSystem : option str) (temperature topP : float) (topK maxTokens : Z)
        (jStop : option (list (option str))) (cb m : nat) :
  all_delivered e ->
  let batch := generate e g jPrompt jSystem temperature topP topK maxTokens jStop in
  let streaming :=
    generateStream e g jPrompt jSystem temperature topP topK maxTokens jStop
                   (Some cb) (Some m) in
  let failed := StopReason.eqb (stop_reason (g_state (snd batch))) StopReason.Error in
  snd batch = snd streaming
  /\ (exists chunks,
         fst streaming = map (fun chunk => (c_str chunk, false)) chunks ++ [([], true)]
         /\ fst batch = if failed then [] else c_str (concat chunks))
  /\ (exists rest, streamed_text (fst streaming) = fst batch ++ rest)
  /\ (zero_free_pieces e ->
      fst batch = if failed then [] else streamed_text (fst streaming)).
Proof.
  intros Ha. cbv zeta.
  set (req := build_request jPrompt jSystem temperature topP topK maxTokens jStop).
  set (s := {| env := Some 0; callback := Some cb; on_token := Some m |}).
  destruct (@generate_internal_batch_stream e req s g eq_refl Ha)
    as (R1 & R2 & R3 & chunks & R4 & R5).
  destruct (run_summary_facts e req None g (Some [])) as (_ & Hret & _).
  destruct (generate_internal_commit e req None g (Some [])) as (_ & Hsr & _).
  pose proof (@generate_internal_out_zero_free e req None g (Some [])) as Hzf.
  cbv zeta in *.
  assert (Hs : generateStream e g jPrompt jSystem temperature topP topK maxTokens jStop
                              (Some cb) (Some m)
               = (r_calls (generate_internal e req (Some s) g None),
                  r_globals (generate_internal e req (Some s) g None))) by reflexivity.
  assert (Hb : generate e g jPrompt jSystem temperature topP topK maxTokens jStop
               = if negb (r_return (generate_internal e req None g (Some [])))
                 then ([], r_globals (generate_internal e req None g (Some [])))
                 else (c_str (match r_out_text (generate_internal e req None g (Some [])) with
                              | Some t => t
                              | None => []
                              end), r_globals (generate_internal e req None g (Some []))))
    by reflexivity.
  rewrite Hs, Hb, Hret, negb_involutive. cbn [fst snd].
  rewrite R4 in Hzf |- *. rewrite R5, streamed_text_chunks.
  destruct (StopReason.eqb (reason (r_summary (generate_internal e req None g (Some []))))
                           StopReason.Error) eqn:E; cbn [fst snd]; rewrite Hsr, E.
  - split; [exact R2|]. split; [exists chunks; split; reflexivity|].
    split; [now exists (concat (map c_str chunks)) | reflexivity].
  - split; [exact R2|]. split; [exists chunks; split; reflexivity|].
    split; [apply c_str_concat_prefix|].
    intro Hz. specialize (Hzf Hz eq_refl). cbn [zero_free_out] in Hzf.
    now rewrite (c_str_zero_free _ Hzf), (map_c_str_zero_free _ Hzf).
Qed.

Lemma batch_is_concatenated_stream_witness :
  all_delivered (quiet_run 3 Delivered)
  /\ fst (generate (quiet_run 3 Delivered) loaded_session (Some (bytes "hi")) None
                   0 0 40 3 (Some [Some (bytes "STOP")]))
     = streamed_text
         (fst (generateStream (quiet_run 3 Delivered) loaded_session (Some (bytes "hi")) None
                              0 0 40 3 (Some [Some (bytes "STOP")]) (Some 1) (Some 2))).
Proof.
  assert (H : all_delivered (quiet_run 3 Delivered)) by (repeat split).
  split; [exact H|].
  exact (proj2 (proj2 (proj2 (@batch_is_concatenated_stream (quiet_run 3 Delivered)
                                loaded_session (Some (bytes "hi")) None 0 0 40 3
                                (Some [Some (bytes "STOP")]) 1 2 H)))
               (fun _ => eq_refl)).
Defined.

(** ** Cancellation *)


(** ** The session across operations *)

(** What a run does to the globals: the backend may become initialised, the
    flag may change, and the summary is committed. *)
Lemma generate_internal_globals (e : RunEnv) (req : GenerationRequest)
      (stream : option StreamContext) (g : Globals) (out : option str) :
  let r := generate_internal e req stream g out in
  exists (b a : bool),
    r_globals r
    = {| g_state :=
           {| model := model (g_state g); ctx := ctx (g_state g);
              n_ctx := n_ctx (g_state g); n_threads := n_threads (g_state g);
              n_gpu_layers := n_gpu_layers (g_state g);
              use_vulkan := use_vulkan (g_state g);
              metrics := s_metrics (r_summary r); stop_reason := reason (r_summary r);
              stop_sequence := s_stop_sequence (r_summary r); should_abort := a |};
         g_backend_initialized := b |}
    /\ (g_backend_initialized g = true -> b = true)
    /\ (live (ctx (g_state g)) && live (model (g_state g)) = true -> b = true).
Proof.
  cbv zeta. unfold generate_internal. cbn [r_globals r_summary].
  assert (Hb : exists (b a : bool),
             b_globals (generate_body e req stream g out)
             = {| g_state := set_should_abort (g_state g) a; g_backend_initialized := b |}
             /\ (g_backend_initialized g = true -> b = true)
             /\ (live (ctx (g_state g)) && live (model (g_state g)) = true -> b = true)).
  { assert (He : forall a, with_state (ensure_backend_init g)
                             (set_should_abort (g_state (ensure_backend_init g)) a)
                           = {| g_state := set_should_abort (g_state g) a;
                                g_backend_initialized := true |}).
    { intro a. unfold ensure_backend_init, with_state.
      destruct (g_backend_initialized g) eqn:E; simpl; [now rewrite E | reflexivity]. }
    unfold generate_body.
    destruct (live (ctx (g_state g))) eqn:Hc; cbn [negb orb andb].
    2:{ exists (g_backend_initialized g), (should_abort (g_state g)). simpl.
        destruct g as [[] ?]; simpl. repeat split; auto; discriminate. }
    destruct (live (model (g_state g))) eqn:Hm; cbn [negb orb andb].
    2:{ exists (g_backend_initialized g), (should_abort (g_state g)). simpl.
        destruct g as [[] ?]; simpl. repeat split; auto; discriminate. }
    cbv zeta.
    destruct (negb (vocab_available e));
      [exists true, false; rewrite <- He; simpl; auto|].
    destruct (prepare_prompt_tokens e (full_prompt req));
      [|exists true, false; rewrite <- He; simpl; auto].
    destruct (negb (prefill_status e =? 0)%Z);
      [exists true, false; rewrite <- He; simpl; auto|].
    destruct (negb (sampler_available e));
      [exists true, false; rewrite <- He; simpl; auto|].
    match goal with
    | |- context [finish e req stream ?g1 ?t0 ?t1 ?l] =>
        destruct (finish_summary e req stream g1 t0 t1 l) as (_ & _ & _ & _ & _ & F);
        cbv zeta in F; rewrite F; exists true, (l_abort l)
    end.
    rewrite (He false). simpl. auto. }
  destruct Hb as (b & a & Hg & H1 & H2). exists b, a. rewrite Hg. simpl. auto.
Qed.

Lemma reset_metrics_fields (s : EngineState) :
  reset_metrics_locked s
  = {| model := model s; ctx := ctx s; n_ctx := n_ctx s; n_threads := n_threads s;
       n_gpu_layers := n_gpu_layers s; use_vulkan := use_vulkan s;
       metrics := EngineMetrics_init; stop_reason := StopReason.None;
       stop_sequence := []; should_abort := false |}.
Proof. reflexivity. Qed.

(** The three outcomes of [loadModel]. *)
Lemma loadModel_cases (memory : Type) (rt : Runtime memory) (g : Globals)
      (path : option str) (nThreads nCtx nGpuLayers : Z) (useVulkan : bool) :
  loadModel rt g path nThreads nCtx nGpuLayers useVulkan = (false, g)
  \/ loadModel rt g path nThreads nCtx nGpuLayers useVulkan
     = (false, {| g_state := unload_locked (g_state g); g_backend_initialized := true |})
  \/ exists p mdl c,
       path = Some p /\ stat_regular rt p = true
       /\ llama_model_load_from_file rt p (load_mparams nGpuLayers useVulkan) = Some mdl
       /\ llama_init_from_model rt mdl (load_cparams rt nThreads nCtx useVulkan) = Some c
       /\ loadModel rt g path nThreads nCtx nGpuLayers useVulkan
          = (true,
             {| g_state :=
                  {| model := Some mdl; ctx := Some c; n_ctx := Z.max 512 nCtx;
                     n_threads := Z.max 1 nThreads;
                     n_gpu_layers := if useVulkan then nGpuLayers else 0;
                     use_vulkan := useVulkan; metrics := EngineMetrics_init;
                     stop_reason := StopReason.None; stop_sequence := [];
                     should_abort := false |};
                g_backend_initialized := true |}).
Proof.
  unfold loadModel. destruct path as [p|]; [|now left].
  cbn [file_exists]. destruct (stat_regular rt p) eqn:Hs; cbn [negb]; [|now left].
  cbv zeta.
  assert (Hg : forall s, with_state (ensure_backend_init g) s
                         = {| g_state := s; g_backend_initialized := true |}).
  { intro s. unfold ensure_backend_init, with_state.
    destruct (g_backend_initialized g) eqn:E; simpl; [now rewrite E | reflexivity]. }
  assert (Hu : unload_locked (g_state (ensure_backend_init g)) = unload_locked (g_state g)).
  { unfold ensure_backend_init. destruct (g_backend_initialized g); reflexivity. }
  destruct (llama_model_load_from_file rt p (load_mparams nGpuLayers useVulkan)) as [mdl|] eqn:Hm;
    [|right; left; now rewrite Hg, Hu].
  destruct (llama_init_from_model rt mdl (load_cparams rt nThreads nCtx useVulkan)) as [c|] eqn:Hc;
    [|right; left; now rewrite Hg, Hu].
  right. right. exists p, mdl, c. repeat split; try assumption.
  rewrite Hg, Hu, unload_locked_fields. f_equal. f_equal.
  unfold load_cparams. destruct useVulkan; reflexivity.
Qed.

Lemma stateRestore_globals (memory : Type) (rt : Runtime memory) (g : Globals)
      (mem : memory) (jState : option (list Byte.byte)) :
  snd (fst (stateRestore rt g mem jState)) = g
  \/ (live (ctx (g_state g)) = true
      /\ snd (fst (stateRestore rt g mem jState))
         = with_state g (reset_metrics_locked (g_state g))).
Proof.
  unfold stateRestore. destruct jState as [buffer|]; [|now left].
  destruct (live (ctx (g_state g))); cbn [negb]; [|now left].
  destruct (Z.of_nat (length buffer) <=? 0)%Z; [now left|].
  destruct (llama_state_set_data rt (llama_memory_clear rt mem false) buffer
                                 (Z.of_nat (length buffer))) as [m read].
  destruct (0 <? read)%Z; [right | left]; auto.
Qed.

Lemma stateRestoreFrom_globals (memory : Type) (rt : Runtime memory) (g : Globals)
      (mem : memory) (jBuffer : option ByteBuffer) (len : Z) :
  snd (fst (stateRestoreFrom rt g mem jBuffer len)) = g
  \/ (live (ctx (g_state g)) = true
      /\ snd (fst (stateRestoreFrom rt g mem jBuffer len))
         = with_state g (reset_metrics_locked (g_state g))).
Proof.
  unfold stateRestoreFrom. destruct jBuffer as [[addr]|]; [|now left].
  destruct (len <=? 0)%Z; [now left|]. cbn [direct_address].
  destruct addr as [addr|]; [|now left].
  destruct (live (ctx (g_state g))); cbn [negb]; [|now left].
  destruct (llama_state_set_data rt (llama_memory_clear rt mem false) addr len) as [m read].
  destruct (0 <? read)%Z; [right | left]; auto.
Qed.

Lemma well_formed_reset (g : Globals) :
  well_formed g -> well_formed (with_state g (reset_metrics_locked (g_state g))).
Proof.
  unfold well_formed. cbn. intros (H1 & H2 & H3 & H4 & H5 & _).
  repeat split; auto; try lia; try discriminate. intro H. congruence.
Qed.

(** X14: whatever sequence of entry-point calls a session has been through,
    with whatever arguments and runtime answers: the context handle is set
    exactly when the model handle is; the recorded context length is at least
    512 and the thread count at least 1 (so the context-usage division is
    always defined); no GPU layers are recorded with the accelerated backend
    off; a loaded model implies an initialised backend; the matched stop text
    is non-empty exactly for the reason stop_sequence; and the truncated flag
    only goes with the reasons max_tokens and error. *)
Theorem reachable_sessions_well_formed (memory : Type) (rt : Runtime memory) (g : Globals) :
  reachable rt g -> well_formed g.
Proof.
  induction 1 as [ | g Hr IH | g path nT nC nG uv Hr IH | g Hr IH
                 | g e req stream out Hr IH | g mem js Hr IH | g mem jb len Hr IH
                 | g mem cd Hr IH | g Hr IH ].
  - unfold well_formed. cbn. repeat split; try lia; try discriminate; auto.
    intro H. congruence.
  - unfold init, ensure_backend_init. destruct (g_backend_initialized g) eqn:E; [exact IH|].
    unfold well_formed in *. cbn. tauto.
  - destruct (loadModel_cases rt g path nT nC nG uv)
      as [-> | [-> | (p & mdl & c & _ & _ & _ & _ & ->)]]; cbn [snd].
    + exact IH.
    + rewrite unload_locked_fields. unfold well_formed in *. cbn.
      destruct IH as (_ & H2 & H3 & H4 & _).
      repeat split; auto; try discriminate. intro H. congruence.
    + unfold well_formed. cbn. repeat split; try lia; try discriminate; auto.
      * intros ->. reflexivity.
      * intro H. congruence.
  - unfold unload, with_state. rewrite unload_locked_fields. unfold well_formed in *. cbn.
    destruct IH as (_ & H2 & H3 & H4 & _).
    repeat split; auto; try discriminate. intro H. congruence.
  - destruct (generate_internal_globals e req stream g out) as (b & a & -> & Hb1 & Hb2).
    destruct (run_summary_facts e req stream g out)
      as (_ & _ & _ & Hg & Hs1 & Hs2 & Ht & _).
    unfold well_formed in *. cbn.
    destruct IH as (H1 & H2 & H3 & H4 & H5 & _).
    repeat split; auto; try lia;
      first [ intro Hm; apply Hb1, H5, Hm | intro Hx; apply Hs2, Hx | apply Hg ].
  - destruct (stateRestore_globals rt g mem js) as [-> | [_ ->]];
      [exact IH | now apply well_formed_reset].
  - destruct (stateRestoreFrom_globals rt g mem jb len) as [-> | [_ ->]];
      [exact IH | now apply well_formed_reset].
  - unfold stateClear. destruct (negb (live (ctx (g_state g)))); cbn [fst];
      [exact IH | now apply well_formed_reset].
  - unfold abort, well_formed in *. cbn. exact IH.
Qed.

Lemma reachable_sessions_well_formed_witness :
  well_formed
    (r_globals
       (generate_internal (quiet_run 3 Delivered) (sample_request 4 [bytes "STOP"]) None
          (snd (loadModel (sample_runtime true true true) fresh_session
                          (Some (bytes "/m.gguf")) 0 0 7 false))
          (Some []))).
Proof.
  apply (@reachable_sessions_well_formed _ (sample_runtime true true true)).
  apply reach_generate. apply reach_loadModel. apply reach_start.
Defined.

(** X15: loadModel succeeds exactly when the path is not null, names a regular
    file, and the runtime constructs both the model and the context from the
    parameters built for them; the session then holds exactly the two new
    handles, the clamped configuration (no GPU layers with the accelerated
    backend off), reset metrics and stop-state and a cleared flag, whatever it
    held before. *)
Theorem loadModel_success (memory : Type) (rt : Runtime memory) (g : Globals)
        (path : option str) (nThreads nCtx nGpuLayers : Z) (useVulkan : bool) :
  (fst (loadModel rt g path nThreads nCtx nGpuLayers useVulkan) = true <->
   exists p mdl c,
     path = Some p /\ stat_regular rt p = true
     /\ llama_model_load_from_file rt p (load_mparams nGpuLayers useVulkan) = Some mdl
     /\ llama_init_from_model rt mdl (load_cparams rt nThreads nCtx useVulkan) = Some c)
  /\ forall p mdl c,
       path = Some p -> stat_regular rt p = true ->
       llama_model_load_from_file rt p (load_mparams nGpuLayers useVulkan) = Some mdl ->
       llama_init_from_model rt mdl (load_cparams rt nThreads nCtx useVulkan) = Some c ->
       snd (loadModel rt g path nThreads nCtx nGpuLayers useVulkan)
       = {| g_state :=
              {| model := Some mdl; ctx := Some c; n_ctx := Z.max 512 nCtx;
                 n_threads := Z.max 1 nThreads;
                 n_gpu_layers := if useVulkan then nGpuLayers else 0;
                 use_vulkan := useVulkan; metrics := EngineMetrics_init;
                 stop_reason := StopReason.None; stop_sequence := [];
                 should_abort := false |};
            g_backend_initialized := true |}.
Proof.
  split.
  - split.
    + intro H.
      destruct (loadModel_cases rt g path nThreads nCtx nGpuLayers useVulkan)
        as [E | [E | (p & mdl & c & H1 & H2 & H3 & H4 & _)]];
        [rewrite E in H; discriminate | rewrite E in H; discriminate |].
      exists p, mdl, c. auto.
    + intros (p & mdl & c & -> & H2 & H3 & H4). unfold loadModel. cbn [file_exists].
      rewrite H2. cbn [negb]. cbv zeta. rewrite H3, H4. reflexivity.
  - intros p mdl c -> H2 H3 H4.
    destruct (loadModel_cases rt g (Some p) nThreads nCtx nGpuLayers useVulkan)
      as [E | [E | (p' & mdl' & c' & H1' & _ & H3' & H4' & E)]].
    + exfalso. unfold loadModel in E. cbn [file_exists] in E. rewrite H2 in E.
      cbn [negb] in E. cbv zeta in E. rewrite H3, H4 in E. discriminate.
    + exfalso. unfold loadModel in E. cbn [file_exists] in E. rewrite H2 in E.
      cbn [negb] in E. cbv zeta in E. rewrite H3, H4 in E. discriminate.
    + injection H1' as <-. rewrite H3 in H3'. injection H3' as <-.
      rewrite H4 in H4'. injection H4' as <-. rewrite E. reflexivity.
Qed.

Lemma loadModel_success_witness :
  snd (loadModel (sample_runtime true true true) loaded_session (Some (bytes "/m.gguf"))
                 0 100 9 false)
  = {| g_state :=
         {| model := Some 1; ctx := Some 2; n_ctx := 512; n_threads := 1;
            n_gpu_layers := 0; use_vulkan := false; metrics := EngineMetrics_init;
            stop_reason := StopReason.None; stop_sequence := []; should_abort := false |};
       g_backend_initialized := true |}.
Proof.
  exact (proj2 (loadModel_success (sample_runtime true true true) loaded_session
                  (Some (bytes "/m.gguf")) 0 100 9 false)
               (bytes "/m.gguf") 1 2 eq_refl eq_refl eq_refl eq_refl).
Defined.

(** X16: the batch sizes loadModel asks the runtime for are never zero and
    nest: [16 <= n_ubatch <= n_batch <= n_ctx], with [n_batch] at most 2048 on
    the accelerated backend and 512 on the CPU, whatever context length and
    thread count are requested (in the range of a [jint]). *)
Theorem load_batch_sizes_nest (memory : Type) (rt : Runtime memory)
        (nThreads nCtx : Z) (useVulkan : bool) :
  let p := load_cparams rt nThreads nCtx useVulkan in
  (16 <= cp_n_ubatch p <= cp_n_batch p)%Z
  /\ (cp_n_batch p <= cp_n_ctx p)%Z
  /\ (cp_n_batch p <= if useVulkan then 2048 else 512)%Z
  /\ (64 <= cp_n_batch p)%Z
  /\ cp_n_threads_batch p = cp_n_threads p
  /\ (1 <= cp_n_threads p)%Z.
Proof.
  cbv zeta. unfold load_cparams.
  assert (H512 : (512 <= Z.max 512 nCtx)%Z) by lia.
  set (n := Z.max 512 nCtx) in *.
  assert (H4 : (128 <= n / 4 <= n)%Z).
  { split; [apply Z.div_le_lower_bound; lia|]. apply Z.div_le_upper_bound; lia. }
  assert (H8 : (64 <= n / 8 <= n)%Z).
  { split; [apply Z.div_le_lower_bound; lia|]. apply Z.div_le_upper_bound; lia. }
  destruct useVulkan; cbn.
  - set (b := Z.min 2048 (n / 4)). assert (Hb : (128 <= b <= 2048)%Z) by (subst b; lia).
    assert (Hq : (32 <= b / 4 <= b)%Z).
    { split; [apply Z.div_le_lower_bound; lia|]. apply Z.div_le_upper_bound; lia. }
    repeat split; try lia.
  - set (b := Z.min 512 (n / 8)). assert (Hb : (64 <= b <= 512)%Z) by (subst b; lia).
    assert (Hq : (16 <= b / 4 <= b)%Z).
    { split; [apply Z.div_le_lower_bound; lia|]. apply Z.div_le_upper_bound; lia. }
    repeat split; try lia.
Qed.



(** X18: only a successful loadModel changes the recorded configuration, and
    only loadModel and unload change the handles: init, unload, a failed
    loadModel, every generation run, both restores, stateClear and abort leave
    context length, thread count, GPU layer count and backend flag as they
    were, and all of these but unload and loadModel leave the two handles as
    they were. *)
Theorem configuration_changes_only_on_load (memory : Type) (rt : Runtime memory)
        (g : Globals) (mem : memory) :
  let same_config g' := configuration (g_state g') = configuration (g_state g) in
  let same_handles g' :=
    model (g_state g') = model (g_state g) /\ ctx (g_state g') = ctx (g_state g) in
  (same_config (init g) /\ same_handles (init g))
  /\ same_config (unload g)
  /\ (forall path nThreads nCtx nGpuLayers useVulkan,
         fst (loadModel rt g path nThreads nCtx nGpuLayers useVulkan) = false ->
         same_config (snd (loadModel rt g path nThreads nCtx nGpuLayers useVulkan)))
  /\ (forall e req stream out,
         same_config (r_globals (generate_internal e req stream g out))
         /\ same_handles (r_globals (generate_internal e req stream g out)))
  /\ (forall jState,
         same_config (snd (fst (stateRestore rt g mem jState)))
         /\ same_handles (snd (fst (stateRestore rt g mem jState))))
  /\ (forall jBuffer len,
         same_config (snd (fst (stateRestoreFrom rt g mem jBuffer len)))
         /\ same_handles (snd (fst (stateRestoreFrom rt g mem jBuffer len))))
  /\ (forall clearData,
         same_config (fst (stateClear rt g mem clearData))
         /\ same_handles (fst (stateClear rt g mem clearData)))
  /\ (same_config (abort g) /\ same_handles (abort g)).
Proof.
  cbv zeta. unfold configuration.
  split.
  { unfold init, ensure_backend_init. destruct (g_backend_initialized g); cbn; auto. }
  split.
  { unfold unload, with_state. cbn [g_state]. rewrite unload_locked_fields. reflexivity. }
  split.
  { intros path nT nC nG uv H.
    destruct (loadModel_cases rt g path nT nC nG uv) as [E | [E | (p & m & c & _ & _ & _ & _ & E)]];
      rewrite E in *; cbn [fst snd] in *; [reflexivity | | discriminate].
    cbn [g_state]. rewrite unload_locked_fields. reflexivity. }
  split.
  { intros e req stream out.
    destruct (generate_internal_globals e req stream g out) as (b & a & -> & _).
    cbn. auto. }
  split.
  { intro js. destruct (stateRestore_globals rt g mem js) as [-> | [_ ->]]; cbn; auto. }
  split.
  { intros jb len.
    destruct (stateRestoreFrom_globals rt g mem jb len) as [-> | [_ ->]]; cbn; auto. }
  split.
  { intro cd. unfold stateClear. destruct (negb (live (ctx (g_state g)))); cbn; auto. }
  unfold abort. cbn. auto.
Qed.

(** ** JSON string escaping *)

Lemma unescape_escape_char (c : ascii) (r : str) :
  unescape_json (escape_char c ++ r) = option_map (cons c) (unescape_json r).
Proof.
  destruct c as [[] [] [] [] [] [] [] []]; reflexivity.
Qed.

Lemma escape_char_check (c : ascii) :
  forallb (fun b => 32 <=? nat_of_ascii b) (escape_char c)
  && (1 <=? length (escape_char c)) && (length (escape_char c) <=? 6) = true.
Proof.
  destruct c as [[] [] [] [] [] [] [] []]; vm_compute; reflexivity.
Qed.

Lemma escape_char_shape (c : ascii) :
  Forall (fun b => 32 <= nat_of_ascii b) (escape_char c)
  /\ 1 <= length (escape_char c) <= 6.
Proof.
  pose proof (escape_char_check c) as H.
  apply andb_true_iff in H as [H H3]. apply andb_true_iff in H as [H1 H2].
  apply Nat.leb_le in H2, H3. split; [|lia].
  apply Forall_forall. intros b Hb.
  rewrite forallb_forall in H1. apply Nat.leb_le. now apply H1.
Qed.

(** X19: escape_json loses nothing and emits only what a JSON string body may
    hold: reading its output back gives the input, so two different strings
    never escape to the same text; the output has no byte below 0x20 (a quote
    or backslash appears only behind a backslash, or the reader would refuse
    it); and it is at least as long as the input and at most six times as
    long. *)
Theorem escape_json_round_trip (s : str) :
  unescape_json (escape_json s) = Some s
  /\ Forall (fun b => 32 <= nat_of_ascii b) (escape_json s)
  /\ length s <= length (escape_json s) <= 6 * length s
  /\ forall t, escape_json s = escape_json t -> s = t.
Proof.
  assert (Hrt : forall u, unescape_json (escape_json u) = Some u).
  { induction u as [|c u IH]; [reflexivity|].
    cbn [escape_json]. rewrite unescape_escape_char, IH. reflexivity. }
  split; [apply Hrt|]. split; [|split].
  - induction s as [|c s IH]; cbn [escape_json]; [constructor|].
    apply Forall_app. split; [apply escape_char_shape | exact IH].
  - induction s as [|c s IH]; cbn [escape_json]; [simpl; lia|].
    rewrite length_app. pose proof (escape_char_shape c) as [_ H]. simpl length. lia.
  - intros t H. apply (f_equal unescape_json) in H. rewrite !Hrt in H. congruence.
Qed.

(** ** Case-insensitive search *)

Lemma tolower_idempotent (c : ascii) : tolower (tolower c) = tolower c.
Proof. destruct c as [[] [] [] [] [] [] [] []]; reflexivity. Qed.

Lemma same_letter_iff (a b : ascii) : same_letter a b = true <-> tolower a = tolower b.
Proof. unfold same_letter. apply Ascii.eqb_eq. Qed.

Lemma matches_here_iff (needle text : str) :
  matches_here needle text = true
  <-> exists m rest, text = m ++ rest /\ map tolower m = map tolower needle.
Proof.
  revert text. induction needle as [|x needle IH]; intros text.
  - simpl. split; [intros _; exists [], text; auto | auto].
  - destruct text as [|y text]; simpl.
    + split; [discriminate|]. intros (m & rest & H & Hm).
      destruct m; [discriminate | discriminate].
    + rewrite andb_true_iff, same_letter_iff, IH. split.
      * intros (Hxy & m & rest & -> & Hm). exists (y :: m), rest. simpl. split; congruence.
      * intros (m & rest & H & Hm). destruct m as [|z m]; [discriminate|].
        simpl in *. injection H as <- ->. injection Hm as Hz Hm. eauto.
Qed.

Lemma search_from_iff (haystack needle : str) :
  needle <> [] ->
  (search_from haystack needle = true
   <-> exists a m b, haystack = a ++ m ++ b /\ map tolower m = map tolower needle).
Proof.
  intro Hne. induction haystack as [|c h IH].
  - simpl. split; [discriminate|]. intros (a & m & b & H & Hm).
    destruct a; [|discriminate]. destruct m; [|discriminate].
    destruct needle; [congruence | discriminate].
  - cbn [search_from]. rewrite orb_true_iff, matches_here_iff, IH. split.
    + intros [(m & rest & H & Hm) | (a & m & b & H & Hm)].
      * exists [], m, rest. auto.
      * exists (c :: a), m, b. simpl. split; congruence.
    + intros (a & m & b & H & Hm). destruct a as [|c' a].
      * left. exists m, b. auto.
      * right. simpl in H. injection H as <- ->. eauto.
Qed.

Lemma map_tolower_idempotent (s : str) : map tolower (map tolower s) = map tolower s.
Proof. rewrite map_map. apply map_ext. apply tolower_idempotent. Qed.

Lemma contains_case_insensitive_helper (h n : str) :
  contains_case_insensitive h n = true
  <-> n <> [] /\ exists a m b, h = a ++ m ++ b /\ map tolower m = map tolower n.
Proof.
  unfold contains_case_insensitive. destruct (empty n) eqn:He.
  - apply empty_true in He. split; [discriminate | tauto].
  - apply empty_false in He. rewrite (search_from_iff h He). tauto.
Qed.

(** X20: contains_case_insensitive answers true exactly when the needle is not
    empty and some stretch of the haystack equals it up to the case of ASCII
    letters; in particular an empty needle is never found, and the answer does
    not change when either text is put in lower case. *)
Theorem contains_case_insensitive_spec (haystack needle : str) :
  (contains_case_insensitive haystack needle = true
   <-> needle <> []
       /\ exists a m b, haystack = a ++ m ++ b /\ map tolower m = map tolower needle)
  /\ contains_case_insensitive (map tolower haystack) needle
     = contains_case_insensitive haystack needle
  /\ contains_case_insensitive haystack (map tolower needle)
     = contains_case_insensitive haystack needle.
Proof.
  pose proof contains_case_insensitive_helper as Hspec.
  split; [apply Hspec|]. split; apply eq_true_iff_eq; rewrite !Hspec.
  - split; intros (Hne & a & m & b & H & Hm); (split; [exact Hne|]).
    + assert (Hl : length haystack = length (a ++ m ++ b))
        by (rewrite <- H; now rewrite length_map).
      exists (firstn (length a) haystack),
             (firstn (length m) (skipn (length a) haystack)),
             (skipn (length m) (skipn (length a) haystack)).
      split; [now rewrite firstn_skipn, firstn_skipn|].
      rewrite <- Hm, <- map_tolower_idempotent. f_equal.
      rewrite <- firstn_map, <- skipn_map, H.
      rewrite skipn_app, Nat.sub_diag, skipn_all. simpl.
      rewrite firstn_app, Nat.sub_diag, firstn_all. simpl. now rewrite app_nil_r.
    + exists (map tolower a), (map tolower m), (map tolower b).
      rewrite H, !map_app. split; [reflexivity|]. now rewrite map_tolower_idempotent.
  - split; intros (Hne & a & m & b & H & Hm).
    + split; [destruct needle; [simpl in Hne; congruence | discriminate]|].
      exists a, m, b. split; [exact H|]. now rewrite Hm, map_tolower_idempotent.
    + split; [destruct needle; [congruence | discriminate]|].
      exists a, m, b. split; [exact H|]. now rewrite Hm, map_tolower_idempotent.
Qed.

(** ** Model metadata probe *)

Lemma probe_json_not_empty_object (m : ModelProbe) : probe_json m <> bytes "{}".
Proof. unfold probe_json, json_key. simpl. discriminate. Qed.

(** X21: detect_model_metadata answers the empty object [{}] exactly when the
    path is null, the file is missing or not a regular file, or the runtime
    cannot load the model; it changes nothing of the session beyond
    initialising the backend; and a model whose chat template (with its
    fallback key) holds [<think>] in any letter case is reported with
    ["reasoning":true]. *)
Theorem detect_model_metadata_spec (memory : Type) (rt : Runtime memory)
        (models : nat -> ModelProbe) (g : Globals) (path : option str) :
  let r := detect_model_metadata rt models g path in
  (fst r = bytes "{}" <->
   file_exists rt path = false
   \/ exists p, path = Some p
                /\ llama_model_load_from_file rt p
                     {| mp_n_gpu_layers := 0; mp_use_mmap := true; mp_use_mlock := false |}
                   = None)
  /\ g_state (snd r) = g_state g
  /\ (forall p mdl a t b,
         path = Some p -> file_exists rt path = true ->
         llama_model_load_from_file rt p
           {| mp_n_gpu_layers := 0; mp_use_mmap := true; mp_use_mlock := false |} = Some mdl ->
         probe_chat_template (models mdl) = a ++ t ++ b ->
         map tolower t = bytes "<think>" ->
         occurs_in (json_key "reasoning" ++ bytes "true") (fst r)).
Proof.
  cbv zeta. unfold detect_model_metadata.
  destruct path as [p|].
  2:{ cbn. repeat split; auto. intros ? ? ? ? ? H. discriminate. }
  cbn [file_exists]. destruct (stat_regular rt p) eqn:Hs; cbn [negb].
  2:{ cbn. repeat split; auto. intros ? ? ? ? ? _ H. discriminate. }
  cbv zeta.
  assert (Hg : g_state (ensure_backend_init g) = g_state g)
    by (unfold ensure_backend_init; destruct (g_backend_initialized g); reflexivity).
  destruct (llama_model_load_from_file rt p _) as [mdl|] eqn:Hm; cbn [fst snd].
  - split; [|split; [exact Hg|]].
    + split.
      * intro H. exfalso. exact (probe_json_not_empty_object H).
      * intros [H | (p' & H1 & H2)]; [discriminate|].
        injection H1 as <-. congruence.
    + intros p' mdl' a t b H1 _ H2 Ht Hl. injection H1 as <-.
      rewrite Hm in H2. injection H2 as <-.
      assert (Hr : probe_reasoning (models mdl) = true).
      { unfold probe_reasoning.
        assert (Hc : contains_case_insensitive (probe_chat_template (models mdl))
                                               (bytes "<think>") = true).
        { apply contains_case_insensitive_helper. split; [discriminate|].
          exists a, t, b. split; [exact Ht|]. rewrite Hl. reflexivity. }
        rewrite Hc. now rewrite !orb_true_r. }
      unfold occurs_in.
      exists (bytes "{"
              ++ json_key "arch"
              ++ json_string (read_meta_value (models mdl) "general.architecture")
              ++ bytes ","
              ++ json_key "nCtxTrain" ++ decimal (n_ctx_train (models mdl)) ++ bytes ","
              ++ json_key "nLayer" ++ decimal (n_layer (models mdl)) ++ bytes ","
              ++ json_key "nEmbd" ++ decimal (probe_n_embd (models mdl)) ++ bytes ","
              ++ json_key "nVocab"
              ++ decimal (match vocab_n_tokens (models mdl) with Some n => n | None => 0%Z end)
              ++ bytes ","
              ++ json_key "chatTemplate" ++ json_string (probe_chat_template (models mdl))
              ++ bytes ","
              ++ json_key "tokenizerModel"
              ++ json_string (read_meta_value (models mdl) "tokenizer.ggml.model")
              ++ bytes ","),
             (bytes ","
              ++ json_key "tags" ++ json_string (read_meta_value (models mdl) "general.tags")
              ++ bytes "}").
      unfold probe_json. rewrite Hr.
      generalize (json_key "reasoning"), (json_key "tags"), (json_key "tokenizerModel"),
        (json_key "chatTemplate"), (json_key "nVocab"), (json_key "nEmbd"),
        (json_key "nLayer"), (json_key "nCtxTrain"), (json_key "arch"),
        (bytes ","), (bytes "{"), (bytes "}"), (bytes "true").
      intros. rewrite <- !app_assoc. reflexivity.
  - split; [|split; [exact Hg|]].
    + split; [|reflexivity]. intros _. right. exists p. auto.
    + intros p' mdl' a t b H1 _ H2. injection H1 as <-. rewrite Hm in H2. discriminate.
Qed.

Lemma detect_model_metadata_spec_witness :
  occurs_in (json_key "reasoning" ++ bytes "true")
            (fst (detect_model_metadata (sample_runtime true true true)
                                        (fun _ => sample_probe) fresh_session
                                        (Some (bytes "/m.gguf")))).
Proof.
  refine (proj2 (proj2 (@detect_model_metadata_spec _ (sample_runtime true true true)
                          (fun _ => sample_probe) fresh_session (Some (bytes "/m.gguf"))))
                (bytes "/m.gguf") 1 (bytes "x") (bytes "<Think>") (bytes "y")
                eq_refl eq_refl eq_refl _ _).
  - vm_compute. reflexivity.
  - vm_compute. reflexivity.
Defined.

(** X22: against a runtime that answers metadata reads as [snprintf] does,
    read_meta_value returns the whole value whatever its length (the second
    read with a buffer of the reported length plus one gets what the 2048-byte
    buffer could not hold), and the empty string for a missing key. *)
Theorem read_meta_value_complete (m : ModelProbe) (lookup : str -> option str)
        (key : string) :
  (forall k size, meta_val_str m k size = snprintf_like lookup k size) ->
  read_meta_value m key = match lookup (bytes key) with
                          | Some v => v
                          | None => []
                          end.
Proof.
  intro H. unfold read_meta_value. rewrite H. unfold snprintf_like at 1.
  destruct (lookup (bytes key)) as [v|] eqn:Hk; [|reflexivity].
  replace (Z.of_nat (length v) <? 0)%Z with false by (symmetry; apply Z.ltb_ge; lia).
  destruct (2048 <=? Z.of_nat (length v))%Z eqn:E.
  - rewrite H. unfold snprintf_like. rewrite Hk. cbn [snd]. apply firstn_all2. lia.
  - apply Z.leb_gt in E. apply firstn_all2. lia.
Qed.

Lemma read_meta_value_complete_witness :
  read_meta_value sample_probe "general.architecture" = bytes "llama".
Proof.
  exact (@read_meta_value_complete sample_probe _ "general.architecture"
           (fun k size => eq_refl)).
Defined.

(** ** Token counting *)



(** ** Embeddings *)

Lemma embed_loop_nth (e : RunEnv) (x : EmbedEnv) (texts : list (option str)) :
  forall i k jt,
    nth_error texts k = Some jt ->
    nth_error (embed_loop e x i texts) k = Some (embed_item e x (i + k) jt).
Proof.
  induction texts as [|t texts IH]; intros i k jt H.
  - destruct k; discriminate.
  - destruct k as [|k]; simpl in *.
    + injection H as ->. now rewrite Nat.add_0_r.
    + rewrite (IH (S i) k jt H). f_equal. f_equal. lia.
Qed.

Lemma embed_loop_length (e : RunEnv) (x : EmbedEnv) (texts : list (option str)) :
  forall i, length (embed_loop e x i texts) = length texts.
Proof. induction texts as [|t texts IH]; intro i; simpl; [reflexivity | now rewrite IH]. Qed.

(** X24: with a model loaded and the embeddings context built, embed returns
    exactly one vector per input text, in input order, and the vector at a
    position depends on the answers for that text alone: a text that fails to
    tokenize, has no tokens or fails to encode gets the empty vector and the
    others are unaffected; every vector is empty or has [n_embd] entries
    (the runtime's buffers holding at least that many). *)
Theorem embed_one_vector_per_text (e : RunEnv) (x : EmbedEnv) (g : Globals)
        (texts : list (option str)) :
  live (ctx (g_state g)) = true -> live (model (g_state g)) = true ->
  float_array_class x = true -> live (embed_context x) = true ->
  length (embed e x g (Some texts)) = length texts
  /\ (forall k jt, nth_error texts k = Some jt ->
                   nth_error (embed e x g (Some texts)) k = Some (embed_item e x k jt))
  /\ (forall k jt,
         prepare_prompt_tokens e (jstring_to_utf8 jt) = None
         \/ prepare_prompt_tokens e (jstring_to_utf8 jt) = Some 0%Z
         \/ encode_status x k <> 0%Z ->
         embed_item e x k jt = [])
  /\ ((forall k emb, embeddings_of x k = Some emb -> Z.to_nat (n_embd x) <= length emb) ->
      Forall (fun v => v = [] \/ length v = Z.to_nat (n_embd x)) (embed e x g (Some texts))).
Proof.
  intros Hc Hm Hf Hx. unfold embed. rewrite Hc, Hm, Hf, Hx. cbn [negb orb].
  split; [apply embed_loop_length|]. split; [intros k jt H; exact (embed_loop_nth e x texts 0 k H)|].
  split.
  - intros k jt H. unfold embed_item. cbv zeta.
    destruct H as [-> | [-> | H]]; [reflexivity | reflexivity |].
    destruct (prepare_prompt_tokens e (jstring_to_utf8 jt)); [|reflexivity].
    destruct (z =? 0)%Z; [reflexivity|]. apply Z.eqb_neq in H. now rewrite H.
  - intro Hb. generalize 0. induction texts as [|t texts IH]; intro i; simpl; constructor.
    + unfold embed_item. cbv zeta.
      destruct (prepare_prompt_tokens e (jstring_to_utf8 t)); [|now left].
      destruct (z =? 0)%Z; [now left|].
      destruct (negb (encode_status x i =? 0)%Z); [now left|].
      destruct (embeddings_of x i) as [emb|] eqn:E; [|now left].
      destruct (0 <? n_embd x)%Z; [|now left].
      right. rewrite length_firstn. specialize (Hb i emb E). lia.
    + apply IH.
Qed.

Lemma embed_one_vector_per_text_witness :
  embed (quiet_run 3 Delivered) sample_embed_env loaded_session
        (Some [Some (bytes "a"); Some (bytes "b"); None])
  = [[1%float; 2%float]; []; [1%float; 2%float]]
  /\ length (embed (quiet_run 3 Delivered) sample_embed_env loaded_session
                   (Some [Some (bytes "a"); Some (bytes "b"); None])) = 3.
Proof.
  split; [reflexivity|].
  exact (proj1 (@embed_one_vector_per_text (quiet_run 3 Delivered) sample_embed_env
                  loaded_session [Some (bytes "a"); Some (bytes "b"); None]
                  eq_refl eq_refl eq_refl eq_refl)).
Defined.

(** ** State size and capture *)

(** X25: stateSize and stateCaptureInto always return a value between 0 and
    2^31 - 1, whatever the runtime reports, so the result never wraps to a
    negative [jint]; and stateCaptureInto never asks the runtime to write more
    than the capacity of the caller's buffer (nor more than the state holds),
    for every state smaller than 2^63 bytes. *)
Theorem state_size_results_bounded (memory : Type) (get_size : memory -> Z)
        (get_data : memory -> Z -> list Byte.byte * Z) (g : Globals) (mem : memory)
        (jBuffer : option ByteBuffer) (capacity : Z) :
  (0 <= stateSize get_size g mem <= 2147483647)%Z
  /\ (0 <= stateCaptureInto get_size get_data g mem jBuffer capacity <= 2147483647)%Z
  /\ (forall total, (0 < capacity)%Z -> (0 <= total < 2 ^ 63)%Z ->
                    (0 <= capture_request capacity total <= capacity)%Z
                    /\ (capture_request capacity total <= total)%Z).
Proof.
  assert (Hsat : forall z, (0 <= size_t z)%Z /\ (0 <= saturate_jint (size_t z) <= 2147483647)%Z).
  { intro z. unfold saturate_jint, size_t.
    pose proof (Z.mod_pos_bound z (2 ^ 64) ltac:(lia)) as Hb.
    destruct (2147483647 <? z mod 2 ^ 64)%Z eqn:E;
      [apply Z.ltb_lt in E | apply Z.ltb_ge in E]; lia. }
  split; [|split].
  - unfold stateSize. destruct (negb (live (ctx (g_state g)))); [lia|]. cbv zeta.
    destruct (size_t (get_size mem) =? 0)%Z; [lia | apply Hsat].
  - unfold stateCaptureInto. destruct jBuffer as [b|]; [|lia].
    destruct (direct_address b); [|lia].
    destruct (capacity <=? 0)%Z; [lia|].
    destruct (negb (live (ctx (g_state g)))); [lia|]. cbv zeta.
    destruct (size_t (get_size mem) =? 0)%Z; [lia | apply Hsat].
  - intros total Hc Ht. unfold capture_request, jlong_of_size, size_t.
    replace (total <? 2 ^ 63)%Z with true by (symmetry; apply Z.ltb_lt; lia).
    destruct (capacity <? total)%Z eqn:E;
      [apply Z.ltb_lt in E | apply Z.ltb_ge in E]; rewrite Z.mod_small; lia.
Qed.

(** ** Claims on the summary of a run *)

Lemma int_wrap_small (z : Z) :
  (-2147483648 <= z <= 2147483647)%Z -> int_wrap z = z.
Proof. intro H. unfold int_wrap. rewrite Z.mod_small; lia. Qed.

Lemma prepare_prompt_tokens_nonneg (e : RunEnv) (text : str) (n : Z) :
  prepare_prompt_tokens e text = Some n -> (0 <= n)%Z.
Proof.
  unfold prepare_prompt_tokens. cbv zeta.
  set (a := if (llama_tokenize e text (length text + 8) <? 0)%Z then _ else _).
  destruct (a <? 0)%Z eqn:E; [discriminate|].
  intro H. injection H as <-. now apply Z.ltb_ge in E.
Qed.

(** When handing a chunk of text to the sink fails. *)
Lemma emit_chunk_fails (stream : option StreamContext) (text : str) (o : ChunkOutcome)
      (calls : list Call) :
  fst (emit_chunk stream text false o calls) = false
  <-> text <> []
      /\ exists st, stream = Some st /\ valid_stream st = true /\ o <> Delivered.
Proof.
  unfold emit_chunk, valid_stream. destruct stream as [s|].
  - destruct (live (callback s)) eqn:Hc, (live (on_token s)) eqn:Ho;
      cbn [negb orb andb fst].
    + destruct text as [|c text]; cbn [empty fst].
      * split; [discriminate | intros [H _]; congruence].
      * destruct o; cbn [fst]; split; try discriminate; try reflexivity.
        -- intros _. split; [discriminate|]. exists s. rewrite Hc, Ho.
           repeat split; discriminate.
        -- intros (_ & st & _ & _ & H). congruence.
        -- intros _. split; [discriminate|]. exists s. rewrite Hc, Ho.
           repeat split; discriminate.
    + split; [discriminate|].
      intros (_ & st & E & H & _). injection E as <-. rewrite Hc, Ho in H. discriminate.
    + split; [discriminate|].
      intros (_ & st & E & H & _). injection E as <-. rewrite Hc, Ho in H. discriminate.
    + split; [discriminate|].
      intros (_ & st & E & H & _). injection E as <-. rewrite Hc, Ho in H. discriminate.
  - cbn [fst]. split; [discriminate | intros (_ & st & E & _); discriminate].
Qed.

(** The reason a run ends with: the one settled after the loop, unless the
    flushed tail is to be handed over and that fails. *)
Lemma finish_reason (e : RunEnv) (req : GenerationRequest) (stream : option StreamContext)
      (g : Globals) (t0 t1 : float) (l : LoopState) :
  reason (b_summary (finish e req stream g t0 t1 l))
  = if negb (empty (pending_ (l_stop_buffer l)))
       && negb (StopReason.eqb (settled_reason req l) StopReason.Error)
       && negb (fst (emit_chunk stream (pending_ (l_stop_buffer l)) false
                                (tail_outcome e) (l_calls l)))
    then StopReason.Error
    else settled_reason req l.
Proof.
  unfold finish, flush. cbv zeta.
  set (summary := if StopReason.eqb (reason (l_summary l)) StopReason.None then _ else _).
  assert (Hr : reason summary = settled_reason req l).
  { unfold summary, settled_reason.
    destruct (StopReason.eqb (reason (l_summary l)) StopReason.None); auto. }
  clearbody summary. rewrite <- Hr.
  destruct (empty (pending_ (l_stop_buffer l))) eqn:He; simpl.
  - destruct stream; simpl;
      destruct (StopReason.eqb (reason summary) StopReason.Error) eqn:E; simpl;
      rewrite ?E; reflexivity.
  - destruct (StopReason.eqb (reason summary) StopReason.Error) eqn:E; simpl.
    + apply reason_eqb_eq in E. destruct stream; simpl; rewrite E; reflexivity.
    + destruct (emit_chunk stream (pending_ (l_stop_buffer l)) false (tail_outcome e)
                           (l_calls l)) as [d c].
      destruct d; simpl; rewrite ?E; simpl; destruct stream; simpl; rewrite ?E; reflexivity.
Qed.

(** C7, as stated, fails: the text the matcher still holds when the loop is
    over is handed to the callback after the reason has been settled, and when
    that fails the reason becomes [error]. Here the stop string is [ab], both
    iterations produce [a] and run clean, so one [a] is still held after the
    loop, and its string cannot be allocated: the run ends with [error],
    flagged truncated, with both tokens counted. *)
Lemma C7_undelivered_tail_counterexample :
  reaches_decode tail_failure_run (sample_request 2 [bytes "ab"]) loaded_session = true
  /\ (forall i, i < 2 -> uneventful (Some sample_stream) (steps tail_failure_run i) = true)
  /\ hit_count (StopBuffer_new [bytes "ab"]) (pieces tail_failure_run 0 2) = 0
  /\ reason (r_summary (generate_internal tail_failure_run (sample_request 2 [bytes "ab"])
                                          (Some sample_stream) loaded_session None))
     = StopReason.Error
  /\ truncated (s_metrics (r_summary (generate_internal tail_failure_run
                                        (sample_request 2 [bytes "ab"])
                                        (Some sample_stream) loaded_session None))) = true
  /\ generation_tokens (s_metrics (r_summary (generate_internal tail_failure_run
                                                (sample_request 2 [bytes "ab"])
                                                (Some sample_stream) loaded_session None)))
     = 2%Z
  /\ reason (r_summary (generate_internal tail_failure_run (sample_request 2 [bytes "ab"])
                                          (Some sample_stream) loaded_session None))
     <> StopReason.MaxTokens.
Proof.
  split; [reflexivity|]. split; [intros i _; reflexivity|]. split; [reflexivity|].
  split; [vm_compute; reflexivity|]. split; [vm_compute; reflexivity|].
  split; [vm_compute; reflexivity|]. vm_compute. discriminate.
Qed.

(** C7 (amended): when the decode loop runs all [maxTokens] iterations, none of
    them with an abort, an end-of-generation token, a failed delivery or a
    failed decode, and no push hits a stop string, the summary is flagged
    truncated and counts exactly [maxTokens] generated tokens, and its reason
    is [max_tokens], unless the text the matcher still holds after the loop is
    not empty and cannot be handed to a valid streaming callback: then, and
    only then, the reason is [error]. *)
Theorem C7_truncation_accounting (e : RunEnv) (req : GenerationRequest)
        (stream : option StreamContext) (g : Globals) (out : option str) :
  reaches_decode e req g = true ->
  (0 <= max_tokens req)%Z ->
  (forall i, i < Z.to_nat (max_tokens req) -> uneventful stream (steps e i) = true) ->
  hit_count (StopBuffer_new (stops req)) (pieces e 0 (Z.to_nat (max_tokens req))) = 0 ->
  let s := r_summary (generate_internal e req stream g out) in
  let tail :=
    pending_ (snd (push_all (StopBuffer_new (stops req))
                            (pieces e 0 (Z.to_nat (max_tokens req))))) in
  truncated (s_metrics s) = true
  /\ generation_tokens (s_metrics s) = max_tokens req
  /\ (reason s = StopReason.MaxTokens \/ reason s = StopReason.Error)
  /\ (reason s = StopReason.Error
      <-> tail <> []
          /\ exists st, stream = Some st /\ valid_stream st = true
                        /\ tail_outcome e <> Delivered).
Proof.
  intros Hr Hmax Hq Hh. cbv zeta. unfold generate_internal. cbn [r_summary].
  destruct (generate_body_reaches e req stream g out Hr)
    as (g1 & t0 & t1 & l0 & -> & _ & Hsb & Hr0 & Ht0 & Hg0 & _).
  set (n := Z.to_nat (max_tokens req)) in *.
  destruct (@decode_loop_uneventful e stream t0 n 0 l0) as (K1 & K2 & K3).
  { intros j Hj. apply Hq. lia. }
  { rewrite Hsb. exact Hh. }
  destruct (@decode_loop_prefix e stream t0 n 0 0 l0) as (_ & P2 & _).
  { intros j Hj. apply Hq. lia. }
  { rewrite Hsb. exact Hh. }
  cbv zeta in K1, K2, K3, P2.
  set (l := decode_loop e stream t0 n 0 l0) in *.
  assert (Hs : settled_reason req l = StopReason.MaxTokens).
  { unfold settled_reason. rewrite K1, Hr0. simpl.
    replace (max_tokens req <=? _)%Z with true; [reflexivity|].
    symmetry. apply Z.leb_le. rewrite K3, Hg0. subst n. lia. }
  destruct (finish_summary e req stream g1 t0 t1 l) as (_ & F2 & _ & F4 & _ & _).
  pose proof (finish_reason e req stream g1 t0 t1 l) as FR.
  cbv zeta in F2, F4. rewrite Hs, P2, Hsb in FR. cbn [StopReason.eqb negb andb] in FR.
  rewrite andb_true_r in FR.
  pose proof (emit_chunk_fails stream
                (pending_ (snd (push_all (StopBuffer_new (stops req)) (pieces e 0 n))))
                (tail_outcome e) (l_calls l)) as EF.
  rewrite F4, F2, Hs, K3, Hg0, FR. cbn [StopReason.eqb]. rewrite orb_true_r.
  split; [reflexivity|]. split; [subst n; lia|].
  destruct (fst (emit_chunk stream _ false (tail_outcome e) (l_calls l))) eqn:E.
  - rewrite andb_false_r. split; [now left|]. split; [discriminate|].
    intro H. apply EF in H. discriminate.
  - destruct (proj1 EF eq_refl) as [Hne Hst].
    apply empty_false in Hne. rewrite Hne. cbn [negb andb].
    split; [now right|]. split; [intros _|reflexivity].
    split; [now apply empty_false | exact Hst].
Qed.

Lemma C7_truncation_accounting_witness :
  let s := r_summary (generate_internal (quiet_run 100 Delivered) (sample_request 5 [bytes "STOP"])
                                        (Some sample_stream) loaded_session None) in
  truncated (s_metrics s) = true
  /\ generation_tokens (s_metrics s) = 5%Z
  /\ (reason s = StopReason.MaxTokens \/ reason s = StopReason.Error)
  /\ (reason s = StopReason.Error
      <-> pending_ (snd (push_all (StopBuffer_new [bytes "STOP"])
                                  (pieces (quiet_run 100 Delivered) 0 5))) <> []
          /\ exists st, Some sample_stream = Some st /\ valid_stream st = true
                        /\ Delivered <> Delivered).
Proof.
  apply (@C7_truncation_accounting (quiet_run 100 Delivered) (sample_request 5 [bytes "STOP"])
           (Some sample_stream) loaded_session None).
  - reflexivity.
  - simpl. lia.
  - intros i _. reflexivity.
  - reflexivity.
Defined.

(** ** Context usage *)

(** The counts of a run that gets to its metrics are not negative. *)
Lemma run_counts_nonneg (e : RunEnv) (req : GenerationRequest)
      (stream : option StreamContext) (g : Globals) (out : option str) :
  reaches_decode e req g = true ->
  let m := s_metrics (r_summary (generate_internal e req stream g out)) in
  (0 <= prompt_tokens m)%Z /\ (0 <= generation_tokens m)%Z.
Proof.
  intro Hr. cbv zeta. split.
  - unfold generate_internal. cbn [r_summary].
    destruct (generate_body_decode e req stream g out Hr)
      as (np & l0 & Hp & -> & _ & _ & _ & _ & _ & _ & _ & _ & Hn).
    match goal with
    | |- context [finish e req stream ?g1 ?t0 ?t1 ?l] =>
        destruct (finish_summary e req stream g1 t0 t1 l) as (F1 & _)
    end.
    cbv zeta in F1. rewrite F1.
    match goal with
    | |- context [decode_loop e stream ?t0 ?n 0 l0] =>
        destruct (decode_loop_keeps e stream t0 n 0 l0) as (K & _)
    end.
    cbv zeta in K. rewrite K, Hn. now apply prepare_prompt_tokens_nonneg in Hp.
  - apply run_summary_facts.
Qed.

(** C9, as stated, fails: the two counts are [int]s and are added as [int]s,
    so their sum does not go beyond 2^31 - 1. A prompt of 2147483647 tokens
    and one generated token make the sum wrap around to -2147483648, and with
    a context length of 4096 the reported percentage is -52428800, where the
    formula gives 52428800. *)
Lemma C9_int_overflow_counterexample :
  reaches_decode (quiet_run 2147483647 Delivered) (sample_request 1 []) loaded_session = true
  /\ n_ctx (g_state loaded_session) = 4096%Z
  /\ prompt_tokens (s_metrics (r_summary (generate_internal (quiet_run 2147483647 Delivered)
                       (sample_request 1 []) None loaded_session (Some [])))) = 2147483647%Z
  /\ generation_tokens (s_metrics (r_summary (generate_internal
                       (quiet_run 2147483647 Delivered)
                       (sample_request 1 []) None loaded_session (Some [])))) = 1%Z
  /\ context_used_pct (s_metrics (r_summary (generate_internal
                       (quiet_run 2147483647 Delivered)
                       (sample_request 1 []) None loaded_session (Some []))))
     = (-52428800)%float
  /\ context_used_formula 2147483647 1 4096 = 52428800%float
  /\ context_used_pct (s_metrics (r_summary (generate_internal
                       (quiet_run 2147483647 Delivered)
                       (sample_request 1 []) None loaded_session (Some []))))
     <> context_used_formula 2147483647 1 4096.
Proof.
  split; [reflexivity|]. split; [reflexivity|]. split; [vm_compute; reflexivity|].
  split; [vm_compute; reflexivity|]. split; [vm_compute; reflexivity|].
  split; [vm_compute; reflexivity|].
  intro H. apply (f_equal (fun x => PrimFloat.ltb x 0)) in H. vm_compute in H.
  discriminate H.
Qed.

(** C9 (amended): a run that gets to its metrics with a configured context
    length > 0, and whose two counts sum to at most 2^31 - 1, reports
    [(prompt_tokens + generated_tokens) * 100 / context_length] in double
    arithmetic; a run that fails before that reports 0 with both counts at 0;
    with a context length that is not > 0 the percentage stays 0. For 4096,
    100 and 50 the value is 3.662109375, and a run with these figures reports
    it. *)
Theorem C9_context_usage (e : RunEnv) (req : GenerationRequest)
        (stream : option StreamContext) (g : Globals) (out : option str) :
  let m := s_metrics (r_summary (generate_internal e req stream g out)) in
  let n := n_ctx (g_state g) in
  ((0 < n)%Z -> reaches_decode e req g = true ->
   (prompt_tokens m + generation_tokens m <= 2147483647)%Z ->
   context_used_pct m
   = PrimFloat.div
       (PrimFloat.mul (double_of_int (prompt_tokens m + generation_tokens m)) 100)
       (double_of_int n))
  /\ ((0 < n)%Z -> reaches_decode e req g = false ->
      context_used_pct m = 0%float /\ prompt_tokens m = 0%Z /\ generation_tokens m = 0%Z)
  /\ ((n <= 0)%Z -> context_used_pct m = 0%float)
  /\ PrimFloat.div (PrimFloat.mul (double_of_int (100 + 50)) 100) (double_of_int 4096)
     = 3.662109375%float
  /\ context_used_pct
       (s_metrics (r_summary (generate_internal (quiet_run 100 Delivered) (sample_request 50 [])
                                                None loaded_session (Some []))))
     = 3.662109375%float.
Proof.
  cbv zeta.
  split; [|split; [|split; [|split; vm_compute; reflexivity]]].
  - intros Hn Hr Hb.
    destruct (run_counts_nonneg e req stream g out Hr) as [Hp Hg]. cbv zeta in Hp, Hg.
    rewrite (generate_internal_pct e req stream g out Hn Hr).
    unfold context_used, int_add. rewrite int_wrap_small by lia. reflexivity.
  - intros _ Hr. unfold generate_internal. cbn [r_summary].
    destruct (generate_body_fails_early e req stream g out Hr) as [-> _].
    repeat split.
  - intro Hn. unfold generate_internal. cbn [r_summary].
    destruct (reaches_decode e req g) eqn:Hr.
    + destruct (generate_body_reaches e req stream g out Hr)
        as (g1 & t0 & t1 & l0 & -> & Hg & _ & _ & _ & _ & Hp).
      destruct (finish_summary e req stream g1 t0 t1
                  (decode_loop e stream t0 (Z.to_nat (max_tokens req)) 0 l0))
        as (_ & _ & F3 & _).
      rewrite F3, Hg. replace (0 <? n_ctx (g_state g))%Z with false
        by (symmetry; apply Z.ltb_ge; exact Hn).
      destruct (decode_loop_keeps e stream t0 (Z.to_nat (max_tokens req)) 0 l0)
        as (_ & K & _).
      rewrite K. exact Hp.
    + destruct (generate_body_fails_early e req stream g out Hr) as [-> _]. reflexivity.
Qed.

Lemma C9_context_usage_witness :
  let m := s_metrics (r_summary (generate_internal (quiet_run 100 Delivered)
                                   (sample_request 50 []) None loaded_session (Some []))) in
  context_used_pct m
  = PrimFloat.div
      (PrimFloat.mul (double_of_int (prompt_tokens m + generation_tokens m)) 100)
      (double_of_int (n_ctx (g_state loaded_session))).
Proof.
  refine (proj1 (C9_context_usage (quiet_run 100 Delivered) (sample_request 50 [])
                   None loaded_session (Some [])) _ eq_refl _).
  - simpl. lia.
  - vm_compute. discriminate.
Defined.

(** C10: after a successful loadModel the session records the clamped values,
    [max(512, nCtx)] and [max(1, nThreads)]; the metrics object shows them, and
    a later run that gets to its metrics divides by that context length: the
    percentage it reports, and the metrics object shows, is the [int] sum of
    its two counts times 100 over [max(512, nCtx)], in double arithmetic. *)
Theorem C10_clamped_configuration (memory : Type) (rt : Runtime memory) (g : Globals)
        (path : option str) (nThreads nCtx nGpuLayers : Z) (useVulkan : bool) :
  fst (loadModel rt g path nThreads nCtx nGpuLayers useVulkan) = true ->
  let g' := snd (loadModel rt g path nThreads nCtx nGpuLayers useVulkan) in
  n_ctx (g_state g') = Z.max 512 nCtx
  /\ n_threads (g_state g') = Z.max 1 nThreads
  /\ member "nCtx" (metrics_json g') = Some (JInt (Z.max 512 nCtx))
  /\ member "nThreads" (metrics_json g') = Some (JInt (Z.max 1 nThreads))
  /\ forall e req stream out,
       reaches_decode e req g' = true ->
       let m := s_metrics (r_summary (generate_internal e req stream g' out)) in
       let pct :=
         PrimFloat.div
           (PrimFloat.mul
              (double_of_int (int_wrap (prompt_tokens m + generation_tokens m))) 100)
           (double_of_int (Z.max 512 nCtx)) in
       context_used_pct m = pct
       /\ member "contextUsedPct"
                 (metrics_json (r_globals (generate_internal e req stream g' out)))
          = Some (JDouble pct)
       /\ ((prompt_tokens m + generation_tokens m <= 2147483647)%Z ->
           context_used_pct m
           = PrimFloat.div
               (PrimFloat.mul (double_of_int (prompt_tokens m + generation_tokens m)) 100)
               (double_of_int (Z.max 512 nCtx))).
Proof.
  intro Hok. cbv zeta.
  assert (Hg : exists mdl c,
             snd (loadModel rt g path nThreads nCtx nGpuLayers useVulkan)
             = with_state (ensure_backend_init g)
                 (reset_metrics_locked
                    (set_config
                       (set_handles (unload_locked (g_state (ensure_backend_init g)))
                                    (Some mdl) (Some c))
                       (cp_n_ctx (load_cparams rt nThreads nCtx useVulkan))
                       (cp_n_threads (load_cparams rt nThreads nCtx useVulkan))
                       (if useVulkan then nGpuLayers else 0) useVulkan))).
  { unfold loadModel in *. destruct path as [p|]; [|discriminate].
    destruct (negb (file_exists rt (Some p))); [discriminate|]. cbv zeta in *.
    destruct (llama_model_load_from_file rt p (load_mparams nGpuLayers useVulkan))
      as [mdl|]; [|discriminate].
    destruct (llama_init_from_model rt mdl (load_cparams rt nThreads nCtx useVulkan))
      as [c|]; [|discriminate].
    now exists mdl, c. }
  destruct Hg as (mdl & c & ->).
  assert (Hc : cp_n_ctx (load_cparams rt nThreads nCtx useVulkan) = Z.max 512 nCtx)
    by (unfold load_cparams; destruct useVulkan; reflexivity).
  assert (Ht : cp_n_threads (load_cparams rt nThreads nCtx useVulkan) = Z.max 1 nThreads)
    by (unfold load_cparams; destruct useVulkan; reflexivity).
  rewrite Hc, Ht.
  set (g' := with_state _ _).
  assert (Hn : n_ctx (g_state g') = Z.max 512 nCtx) by reflexivity.
  split; [exact Hn|]. split; [reflexivity|]. split; [reflexivity|]. split; [reflexivity|].
  intros e req stream out Hr.
  assert (Hpos : (0 < n_ctx (g_state g'))%Z) by (rewrite Hn; lia).
  pose proof (generate_internal_pct e req stream g' out Hpos Hr) as Hp.
  cbv zeta in Hp. rewrite Hn in Hp. unfold context_used, int_add in Hp.
  split; [exact Hp|]. split.
  - unfold metrics_json, build_metrics_json_locked.
    destruct (generate_internal_commit e req stream g' out) as (Hm & _).
    cbv zeta in Hm. rewrite Hm. cbn [member String.eqb Ascii.eqb Bool.eqb]. rewrite Hp.
    reflexivity.
  - intro Hb. destruct (run_counts_nonneg e req stream g' out Hr) as [H1 H2].
    cbv zeta in H1, H2. rewrite Hp, int_wrap_small by lia. reflexivity.
Qed.

Lemma C10_clamped_configuration_witness :
  fst (loadModel (sample_runtime true true true) fresh_session
                 (Some (bytes "/m.gguf")) 0 128 0 false) = true
  /\ n_ctx (g_state (snd (loadModel (sample_runtime true true true) fresh_session
                                    (Some (bytes "/m.gguf")) 0 128 0 false))) = 512%Z
  /\ n_threads (g_state (snd (loadModel (sample_runtime true true true) fresh_session
                                        (Some (bytes "/m.gguf")) 0 128 0 false))) = 1%Z
  /\ context_used_pct
       (s_metrics (r_summary (generate_internal (quiet_run 100 Delivered)
                                (sample_request 28 []) None
                                (snd (loadModel (sample_runtime true true true) fresh_session
                                                (Some (bytes "/m.gguf")) 0 128 0 false))
                                (Some []))))
     = 25%float.
Proof.
  assert (H : fst (loadModel (sample_runtime true true true) fresh_session
                             (Some (bytes "/m.gguf")) 0 128 0 false) = true) by reflexivity.
  split; [exact H|].
  pose proof (C10_clamped_configuration (sample_runtime true true true) fresh_session
                (Some (bytes "/m.gguf")) 0 128 0 false H) as T.
  cbv zeta in T. destruct T as (T1 & T2 & _ & _ & T5).
  split; [exact T1|]. split; [exact T2|].
  rewrite (proj1 (T5 (quiet_run 100 Delivered) (sample_request 28 []) None (Some [])
                     eq_refl)).
  vm_compute. reflexivity.
Defined.

